(** * BitMon: the Bitcoin HTLC transaction engine and the order steps

    A shallow embedding of the TypeScript and Solidity sources of the
    Monad/Bitcoin atomic swap:

    - [btc/lib/htlc-builder.ts]         (module [HTLCBuilder])
    - [btc/scripts/create-htlc.ts]      (module [HTLCCreator])
    - [btc/scripts/claim-htlc-reverse.ts] (module [ClaimReverse])
    - [btc/scripts/fund-htlc.ts]        (module [FundHTLC])
    - [monadvm/scripts/taker-fund-htlc-real.ts], [monadvm/scripts/maker-claim-btc.ts]
                                        (module [Orders])
    - the explorer client of [btc/scripts/create-htlc.ts] (module [MempoolAPI])
    - [monadvm/contracts/BTCEscrowFactory.sol] and the bookkeeping of
      [monadvm/contracts/BTCEscrowSrc.sol]
                                        (modules [Evm], [BTCEscrowFactory], [BTCEscrow])
    - [monadvm/scripts/create-order-immediate.ts], the taker's fill script,
      [monadvm/scripts/maker-escrow.ts] and the taker's claim script
                                        (modules [Scripts], [CreateOrder], [TakerFill],
                                         [MakerEscrow], [TakerClaim])

    The sources call into bitcoinjs-lib.  The parts of that library whose
    byte-level behaviour the properties depend on (hex, varuint, push-data,
    script compilation, the transaction wire format, the PSBT bookkeeping)
    are written out as executable definitions; hashing, key handling and
    ECDSA signing are an interface ([BitcoinLib]) over which every statement
    is quantified. *)

From Stdlib Require Import ZArith List String Ascii Lia QArith Qround Qabs Qpower Bool.
From Stdlib.Strings Require Import Byte.
From Stdlib Require DecimalString.
From stdpp Require Import base option list gmap strings.
Import ListNotations.

Local Open Scope Z_scope.

(** ** Buffers *)

Abbreviation bytes := (list byte).

Definition byte_to_Z (b : byte) : Z := Z.of_N (Byte.to_N b).

(** [Buffer.from([n])] and [writeUInt8] keep the low eight bits. *)
Definition byte_of_Z (z : Z) : byte :=
  default x00 (Byte.of_N (Z.to_N (z mod 256))).

(** *** Hexadecimal text: [buf.toString('hex')] and [Buffer.from(s, 'hex')] *)

Definition hex_char (n : Z) : ascii :=
  if n <? 10 then ascii_of_N (Z.to_N (48 + n)) else ascii_of_N (Z.to_N (87 + n)).

Definition hex_value (c : ascii) : option Z :=
  let n := Z.of_N (N_of_ascii c) in
  if (48 <=? n) && (n <=? 57) then Some (n - 48)
  else if (97 <=? n) && (n <=? 102) then Some (n - 87)
  else if (65 <=? n) && (n <=? 70) then Some (n - 55)
  else None.

Definition hex_pair (c1 c2 : ascii) : option byte :=
  match hex_value c1, hex_value c2 with
  | Some h, Some l => Some (byte_of_Z (16 * h + l))
  | _, _ => None
  end.

(** Lower-case digits, two per byte. *)
Fixpoint toHex (b : bytes) : string :=
  match b with
  | [] => EmptyString
  | x :: r =>
      String (hex_char (byte_to_Z x / 16))
        (String (hex_char (byte_to_Z x mod 16)) (toHex r))
  end.

(** Node decodes pair by pair and stops at the first pair that is not two
    hexadecimal digits; a trailing single digit is dropped. *)
Fixpoint fromHex (s : string) : bytes :=
  match s with
  | String c1 (String c2 r) =>
      match hex_pair c1 c2 with
      | Some b => b :: fromHex r
      | None => []
      end
  | _ => []
  end.

(** *** Little-endian integers *)

Fixpoint le_bytes (n : nat) (v : Z) : bytes :=
  match n with
  | O => []
  | S k => byte_of_Z v :: le_bytes k (v / 256)
  end.

Fixpoint le_value (b : bytes) : Z :=
  match b with
  | [] => 0
  | x :: r => byte_to_Z x + 256 * le_value r
  end.

(** ** Reading and writing buffers

    A reader consumes a prefix of the buffer and returns what is left; [None]
    stands for the exception the library raises. *)

Definition Reader (A : Type) : Type := bytes -> option (A * bytes).

Definition readUInt8 : Reader Z := fun buf =>
  match buf with
  | b :: rest => Some (byte_to_Z b, rest)
  | [] => None
  end.

(** [BufferReader.readSlice]: reading past the end is an error. *)
Definition readSlice (n : nat) : Reader bytes := fun buf =>
  if decide (n <= length buf)%nat then Some (take n buf, drop n buf) else None.

(** [Buffer.slice] as the PSBT helpers use it: the slice is cut at the end of
    the buffer. *)
Definition sliceTruncating (n : nat) : Reader bytes := fun buf =>
  Some (take n buf, drop n buf).

Definition readUIntLE (n : nat) : Reader Z := fun buf =>
  '(s, rest) ← readSlice n buf; Some (le_value s, rest).

Definition readUInt32 : Reader Z := readUIntLE 4.

Definition readInt32 : Reader Z := fun buf =>
  '(v, rest) ← readUIntLE 4 buf;
  Some (if v <? 2 ^ 31 then v else v - 2 ^ 32, rest).

Definition MAX_SAFE_INTEGER : Z := 2 ^ 53 - 1.

(** [bufferutils.readUInt64LE] refuses values above 2^53 - 1. *)
Definition readUInt64 : Reader Z := fun buf =>
  '(v, rest) ← readUIntLE 8 buf;
  if v <=? MAX_SAFE_INTEGER then Some (v, rest) else None.

Fixpoint read_many {A : Type} (n : nat) (r : Reader A) : Reader (list A) :=
  fun buf =>
    match n with
    | O => Some ([], buf)
    | S k =>
        '(x, rest) ← r buf;
        '(xs, rest') ← read_many k r rest;
        Some (x :: xs, rest')
    end.

Definition writeUInt32 (v : Z) : bytes := le_bytes 4 v.
Definition writeInt32 (v : Z) : bytes := le_bytes 4 v.
Definition writeUInt64 (v : Z) : bytes := le_bytes 8 v.

(** *** varuint-bitcoin *)

Module varuint.

Definition encode (n : Z) : bytes :=
  if n <? 253 then [byte_of_Z n]
  else if n <=? 65535 then xfd :: le_bytes 2 n
  else if n <=? 4294967295 then xfe :: le_bytes 4 n
  else xff :: le_bytes 8 n.

Definition decode : Reader Z := fun buf =>
  '(first, rest) ← readUInt8 buf;
  if first <? 253 then Some (first, rest)
  else if first =? 253 then readUIntLE 2 rest
  else if first =? 254 then readUIntLE 4 rest
  else '(v, rest') ← readUIntLE 8 rest;
       if v <=? MAX_SAFE_INTEGER then Some (v, rest') else None.

End varuint.

Definition readVarInt : Reader Z := varuint.decode.

Definition readVarSlice : Reader bytes := fun buf =>
  '(n, rest) ← readVarInt buf; readSlice (Z.to_nat n) rest.

Definition readVector : Reader (list bytes) := fun buf =>
  '(count, rest) ← readVarInt buf; read_many (Z.to_nat count) readVarSlice rest.

Definition writeVarSlice (s : bytes) : bytes :=
  varuint.encode (Z.of_nat (length s)) ++ s.

Definition writeVector (v : list bytes) : bytes :=
  varuint.encode (Z.of_nat (length v)) ++ concat (map writeVarSlice v).

(** [scriptWitnessToWitnessStack] of the PSBT module: the same vector
    format, read with truncating slices. *)
Definition psbtReadVarSlice : Reader bytes := fun buf =>
  '(n, rest) ← readVarInt buf; sliceTruncating (Z.to_nat n) rest.

Definition scriptWitnessToWitnessStack (buffer : bytes) : option (list bytes) :=
  '(count, rest) ← readVarInt buffer;
  fst <$> read_many (Z.to_nat count) psbtReadVarSlice rest.

(** ** Scripts: [bitcoin.script] and [bitcoin.opcodes] *)

Module OPS.
Definition OP_0 : Z := 0.
Definition OP_PUSHDATA1 : Z := 76.
Definition OP_PUSHDATA2 : Z := 77.
Definition OP_PUSHDATA4 : Z := 78.
Definition OP_1NEGATE : Z := 79.
Definition OP_RESERVED : Z := 80.
Definition OP_1 : Z := 81.
Definition OP_IF : Z := 99.
Definition OP_ELSE : Z := 103.
Definition OP_ENDIF : Z := 104.
Definition OP_DROP : Z := 117.
Definition OP_DUP : Z := 118.
Definition OP_EQUAL : Z := 135.
Definition OP_EQUALVERIFY : Z := 136.
Definition OP_SHA256 : Z := 168.
Definition OP_HASH160 : Z := 169.
Definition OP_CHECKSIG : Z := 172.
Definition OP_CHECKLOCKTIMEVERIFY : Z := 177.
End OPS.

Module script.

(** An element of a chunk array is an opcode number or a data buffer. *)
Inductive Chunk : Type :=
| Op (code : Z)
| Data (d : bytes).

(** BIP62 minimal push: the empty buffer and the one-byte buffers 1..16
    and 0x81 are written as the corresponding opcode. *)
Definition asMinimalOP (buffer : bytes) : option Z :=
  match buffer with
  | [] => Some OPS.OP_0
  | [b] =>
      let v := byte_to_Z b in
      if (1 <=? v) && (v <=? 16) then Some (OPS.OP_RESERVED + v)
      else if v =? 129 then Some OPS.OP_1NEGATE
      else None
  | _ => None
  end.

Module pushdata.

Definition encode (size : Z) : bytes :=
  if size <? OPS.OP_PUSHDATA1 then [byte_of_Z size]
  else if size <=? 255 then [byte_of_Z OPS.OP_PUSHDATA1; byte_of_Z size]
  else if size <=? 65535 then byte_of_Z OPS.OP_PUSHDATA2 :: le_bytes 2 size
  else byte_of_Z OPS.OP_PUSHDATA4 :: le_bytes 4 size.

(** Returns the announced data length and what follows the length
    field; [None] when the length field itself is cut short. *)
Definition decode (opcode : Z) (rest : bytes) : option (Z * bytes) :=
  if opcode <? OPS.OP_PUSHDATA1 then Some (opcode, rest)
  else if opcode =? OPS.OP_PUSHDATA1 then readUIntLE 1 rest
  else if opcode =? OPS.OP_PUSHDATA2 then readUIntLE 2 rest
  else readUIntLE 4 rest.

End pushdata.

Definition compile_chunk (c : Chunk) : bytes :=
  match c with
  | Data d =>
      match asMinimalOP d with
      | Some opcode => [byte_of_Z opcode]
      | None => pushdata.encode (Z.of_nat (length d)) ++ d
      end
  | Op code => [byte_of_Z code]
  end.

Definition compile (chunks : list Chunk) : bytes :=
  concat (map compile_chunk chunks).

(** [decompile]: the loop [while (i < buffer.length)], one chunk per
    round.  Every round consumes at least one byte, so [length buffer]
    rounds are enough (see [decompile_loop_fuel]). *)
Fixpoint decompile_loop (fuel : nat) (buffer : bytes) : option (list Chunk) :=
  match buffer with
  | [] => Some []
  | b :: rest =>
      match fuel with
      | O => None
      | S fuel' =>
          let opcode := byte_to_Z b in
          if (OPS.OP_0 <? opcode) && (opcode <=? OPS.OP_PUSHDATA4) then
            '(number, rest') ← pushdata.decode opcode rest;
            '(data, rest'') ← readSlice (Z.to_nat number) rest';
            chunks ← decompile_loop fuel' rest'';
            Some (match asMinimalOP data with
                  | Some op => Op op
                  | None => Data data
                  end :: chunks)
          else
            chunks ← decompile_loop fuel' rest;
            Some (Op opcode :: chunks)
      end
  end.

Definition decompile (buffer : bytes) : option (list Chunk) :=
  decompile_loop (length buffer) buffer.

(** *** [script.number.encode] *)

(** The bit operators of JavaScript work on the 32-bit two's complement
    image of their operand. *)
Definition toInt32 (v : Z) : Z := (v + 2 ^ 31) mod 2 ^ 32 - 2 ^ 31.

Definition scriptNumSize (i : Z) : nat :=
  if i >? 2147483647 then 5
  else if i >? 8388607 then 4
  else if i >? 32767 then 3
  else if i >? 127 then 2
  else if i >? 0 then 1
  else 0.

(** [buffer.writeUInt8(value & 0xff, i); value >>= 8] *)
Fixpoint number_loop (size : nat) (value : Z) : bytes :=
  match size with
  | O => []
  | S k =>
      byte_of_Z (Z.land (toInt32 value) 255)
        :: number_loop k (Z.shiftr (toInt32 value) 8)
  end.

Definition number_encode (_number : Z) : bytes :=
  let value := Z.abs _number in
  let size := scriptNumSize value in
  let buffer := number_loop size value in
  let negative := _number <? 0 in
  match size with
  | O => buffer
  | S k =>
      let top := byte_to_Z (default x00 (buffer !! k)) in
      if Z.testbit top 7 then
        <[k := if negative then x80 else x00]> buffer
      else if negative then
        <[k := byte_of_Z (Z.lor top 128)]> buffer
      else buffer
  end.

(** *** [script.signature.decode]

    The check succeeds exactly when the buffer is a strict DER signature
    (bip66) followed by a hash type byte from 1 to 3, with or without
    the ANYONECANPAY bit. *)
Definition at_ (buffer : bytes) (i : nat) : Z :=
  byte_to_Z (default x00 (buffer !! i)).

Definition bip66_check (buffer : bytes) : bool :=
  let len := length buffer in
  if (len <? 8)%nat then false
  else if (72 <? len)%nat then false
  else if negb (at_ buffer 0 =? 48) then false
  else if negb (at_ buffer 1 =? Z.of_nat len - 2) then false
  else if negb (at_ buffer 2 =? 2) then false
  else
    let lenR := Z.to_nat (at_ buffer 3) in
    if (lenR =? 0)%nat then false
    else if (len <=? 5 + lenR)%nat then false
    else if negb (at_ buffer (4 + lenR) =? 2) then false
    else
      let lenS := Z.to_nat (at_ buffer (5 + lenR)) in
      if (lenS =? 0)%nat then false
      else if negb (6 + lenR + lenS =? len)%nat then false
      else if Z.testbit (at_ buffer 4) 7 then false
      else if (1 <? lenR)%nat && (at_ buffer 4 =? 0)
              && negb (Z.testbit (at_ buffer 5) 7) then false
      else if Z.testbit (at_ buffer (lenR + 6)) 7 then false
      else if (1 <? lenS)%nat && (at_ buffer (lenR + 6) =? 0)
              && negb (Z.testbit (at_ buffer (lenR + 7)) 7) then false
      else true.

Definition signature_decode (buffer : bytes) : bool :=
  match last buffer with
  | None => false
  | Some hashType =>
      let hashTypeMod := Z.land (byte_to_Z hashType) 127 in
      if (hashTypeMod <=? 0) || (4 <=? hashTypeMod) then false
      else bip66_check (take (length buffer - 1) buffer)
  end.

End script.

(** ** Transactions: [bitcoin.Transaction] and its wire format *)

Module Transaction.

Record Input : Type := {
  hash : bytes;
  index : Z;
  script : bytes;
  sequence : Z;
  witness : list bytes
}.

Record Output : Type := {
  out_script : bytes;
  value : Z
}.

Record t : Type := {
  version : Z;
  locktime : Z;
  ins : list Input;
  outs : list Output
}.

Definition DEFAULT_SEQUENCE : Z := 4294967295.

Definition set_witness (i : Input) (w : list bytes) : Input :=
  {| hash := hash i; index := index i; script := script i;
     sequence := sequence i; witness := w |}.

Definition witness_empty (i : Input) : bool :=
  match witness i with [] => true | _ :: _ => false end.

(** [this.ins.some(x => x.witness.length !== 0)] *)
Definition hasWitnesses (tx : t) : bool :=
  existsb (fun i => negb (witness_empty i)) (ins tx).

Definition writeInput (i : Input) : bytes :=
  hash i ++ writeUInt32 (index i) ++ writeVarSlice (script i)
    ++ writeUInt32 (sequence i).

Definition writeOutput (o : Output) : bytes :=
  writeUInt64 (value o) ++ writeVarSlice (out_script o).

(** [__toBuffer(buffer, offset, _ALLOW_WITNESS)].  The fields are in range
    by construction: [addInput] and [addOutput] check them. *)
Definition toBuffer_ (allowWitness : bool) (tx : t) : bytes :=
  let hasWit := allowWitness && hasWitnesses tx in
  writeInt32 (version tx)
    ++ (if hasWit then [x00; x01] else [])
    ++ varuint.encode (Z.of_nat (length (ins tx)))
    ++ concat (map writeInput (ins tx))
    ++ varuint.encode (Z.of_nat (length (outs tx)))
    ++ concat (map writeOutput (outs tx))
    ++ (if hasWit then concat (map (fun i => writeVector (witness i)) (ins tx))
        else [])
    ++ writeUInt32 (locktime tx).

Definition toBuffer (tx : t) : bytes := toBuffer_ true tx.

Definition toHex (tx : t) : string := toHex (toBuffer tx).

Definition byteLength (allowWitness : bool) (tx : t) : Z :=
  Z.of_nat (length (toBuffer_ allowWitness tx)).

Definition weight (tx : t) : Z := byteLength false tx * 3 + byteLength true tx.

(** [Math.ceil(this.weight() / 4)] *)
Definition virtualSize (tx : t) : Z := (weight tx + 3) / 4.

Definition readInput : Reader Input := fun buf =>
  '(h, r1) ← readSlice 32 buf;
  '(i, r2) ← readUInt32 r1;
  '(s, r3) ← readVarSlice r2;
  '(q, r4) ← readUInt32 r3;
  Some ({| hash := h; index := i; script := s; sequence := q; witness := [] |}, r4).

Definition readOutput : Reader Output := fun buf =>
  '(v, r1) ← readUInt64 buf;
  '(s, r2) ← readVarSlice r1;
  Some ({| out_script := s; value := v |}, r2).

(** [Transaction.fromBuffer(buffer)] in strict mode. *)
Definition fromBuffer (buffer : bytes) : option t :=
  '(ver, r0) ← readInt32 buffer;
  '(marker, r1) ← readUInt8 r0;
  '(flag, r2) ← readUInt8 r1;
  let hasWit := (marker =? 0) && (flag =? 1) in
  '(vinLen, r3) ← readVarInt (if hasWit then r2 else r0);
  '(ins0, r4) ← read_many (Z.to_nat vinLen) readInput r3;
  '(voutLen, r5) ← readVarInt r4;
  '(outs', r6) ← read_many (Z.to_nat voutLen) readOutput r5;
  '(ins', r7) ←
    (if hasWit then
       '(ws, r) ← read_many (length ins0) readVector r6;
       let ins1 := zip_with set_witness ins0 ws in
       if forallb witness_empty ins1 then None else Some (ins1, r)
     else Some (ins0, r6));
  '(lock, r8) ← readUInt32 r7;
  match r8 with
  | [] => Some {| version := ver; locktime := lock; ins := ins'; outs := outs' |}
  | _ :: _ => None
  end.

Definition fromHex (hex : string) : option t := fromBuffer (fromHex hex).

(** Ranges that [addInput], [addOutput] and [setLocktime] enforce. *)
Record wf_input (i : Input) : Prop := {
  wf_hash : length (hash i) = 32%nat;
  wf_index : 0 <= index i < 2 ^ 32;
  wf_sequence : 0 <= sequence i < 2 ^ 32;
  wf_script : Z.of_nat (length (script i)) <= MAX_SAFE_INTEGER;
  wf_witness_count : Z.of_nat (length (witness i)) <= MAX_SAFE_INTEGER;
  wf_witness_items :
    Forall (fun s => Z.of_nat (length s) <= MAX_SAFE_INTEGER) (witness i)
}.

Record wf_output (o : Output) : Prop := {
  wf_value : 0 <= value o <= MAX_SAFE_INTEGER;
  wf_out_script : Z.of_nat (length (out_script o)) <= MAX_SAFE_INTEGER
}.

Record wf (tx : t) : Prop := {
  wf_version : 0 <= version tx < 2 ^ 31;
  wf_locktime : 0 <= locktime tx < 2 ^ 32;
  wf_ins_count : Z.of_nat (length (ins tx)) <= MAX_SAFE_INTEGER;
  wf_outs_count : Z.of_nat (length (outs tx)) <= MAX_SAFE_INTEGER;
  wf_ins : Forall wf_input (ins tx);
  wf_outs : Forall wf_output (outs tx)
}.

End Transaction.

(** ** Networks and addresses *)

#[global] Instance byte_eq_decision : EqDecision byte := Byte.byte_eq_dec.

Definition sumZ (l : list Z) : Z := foldr Z.add 0 l.

Definition isUInt32 (z : Z) : bool := (0 <=? z) && (z <=? 4294967295).

(** [bitcoin.Network]; the field values of [networks.bitcoin], [testnet]
    and [regtest] are the library's constants, the ones of the testnet4
    entry are written out in [claim-htlc-reverse.ts] (lines 22-32). *)
Module Network.
Record t : Type := {
  messagePrefix : string;
  bech32 : string;
  bip32_public : Z;
  bip32_private : Z;
  pubKeyHash : Z;
  scriptHash : Z;
  wif : Z
}.
End Network.

Definition signed_message_prefix : string :=
  String (ascii_of_nat 24) "Bitcoin Signed Message:" +:+ String (ascii_of_nat 10) "".

Module networks.

Definition bitcoin : Network.t :=
  {| Network.messagePrefix := signed_message_prefix; Network.bech32 := "bc";
     Network.bip32_public := 76067358; Network.bip32_private := 76066276;
     Network.pubKeyHash := 0; Network.scriptHash := 5; Network.wif := 128 |}.

Definition testnet : Network.t :=
  {| Network.messagePrefix := signed_message_prefix; Network.bech32 := "tb";
     Network.bip32_public := 70617039; Network.bip32_private := 70615956;
     Network.pubKeyHash := 111; Network.scriptHash := 196; Network.wif := 239 |}.

Definition regtest : Network.t :=
  {| Network.messagePrefix := signed_message_prefix; Network.bech32 := "bcrt";
     Network.bip32_public := 70617039; Network.bip32_private := 70615956;
     Network.pubKeyHash := 111; Network.scriptHash := 196; Network.wif := 239 |}.

End networks.

(** An address is kept in decoded form: what [fromBase58Check] or
    [fromBech32] return for its text.  Both encodings are injective, so
    equality of the decoded forms is equality of the texts. *)
Inductive Address : Type :=
| Base58Check (version : Z) (payload : bytes)
| Bech32 (prefix : string) (version : Z) (program : bytes)
| Malformed (text : string).

(** ** Error handling

    Every exception of the sources and of the library calls they make is a
    value of [Error]; the constructor tells which step raised it. *)
Inductive Error : Type :=
| UnsupportedNetwork       (* getNetwork / NETWORKS lookup *)
| NoMatchingAddress        (* address.fromOutputScript *)
| InvalidPrivateKey        (* ECPair.fromPrivateKey *)
| LegacyUnsupported        (* 'P2SH ... transactions require the full funding transaction hex' *)
| SecretMismatch           (* 'Secret does not match hashlock!' *)
| InsufficientFunds        (* 'Insufficient funds ...' *)
| FundingOutputNotFound    (* 'Funding output ... not found' *)
| UnsupportedAddressFormat (* 'Unsupported address format' *)
| FetchFailed              (* a gateway request failed *)
| InvalidLocktime          (* writeUInt32LE out of range *)
| AddInputFailed           (* psbt.addInput / tx.addInput *)
| SetLocktimeFailed        (* psbt.setLocktime *)
| AddOutputFailed          (* psbt.addOutput / tx.addOutput *)
| SignInputFailed          (* psbt.signInput *)
| SignatureFormatIssue     (* 'Signature format issue ...', thrown by the finalizer *)
| FinalizeFailed           (* psbt.finalizeInput *)
| ExtractFailed.           (* psbt.extractTransaction *)

Inductive Result (A : Type) : Type :=
| Ok (a : A)
| Err (e : Error).
Arguments Ok {A} a.
Arguments Err {A} e.

#[global] Instance Result_ret : MRet Result := fun A a => Ok a.
#[global] Instance Result_bind : MBind Result := fun A B f m =>
  match m with
  | Ok a => f a
  | Err e => Err e
  end.

Definition orThrow {A : Type} (e : Error) (o : option A) : Result A :=
  match o with
  | Some a => Ok a
  | None => Err e
  end.

Definition check (e : Error) (b : bool) : Result unit :=
  if b then Ok tt else Err e.

(** The steps that come before [psbt.signInput] in the builders. *)
Definition before_signing (e : Error) : Prop :=
  match e with
  | SignInputFailed | SignatureFormatIssue | FinalizeFailed | ExtractFailed => False
  | _ => True
  end.

(** The steps that come before the first [psbt.addInput]. *)
Definition before_inputs (e : Error) : Prop :=
  match e with
  | NoMatchingAddress | InvalidPrivateKey | LegacyUnsupported => True
  | _ => False
  end.

(** ** PSBT input records (package bip174) *)

Module bip174.

Record PartialSig : Type := {
  pubkey : bytes;
  signature : bytes
}.

Record PsbtInput : Type := {
  witnessUtxo : option (bytes * Z);
  witnessScript : option bytes;
  partialSig : list PartialSig;
  finalScriptSig : option bytes;
  finalScriptWitness : option bytes
}.

End bip174.

(** ** The library interface

    Hashing, keys and signatures are not computed here.  [ecdsaSignInput] stands
    for the signature that [psbt.signInput] attaches to an input (sighash
    computation, ECDSA, DER encoding with the hash type byte); it is [None]
    when the library refuses to sign.  [ecdsaSignWitnessV0] is the same for
    a script written by hand: [keyPair.sign(tx.hashForWitnessV0(i, script,
    value, SIGHASH_ALL))] passed through [script.signature.encode].
    [getFinalScripts] is the default
    finalizer of [finalizeAllInputs].  [acceptsWitnessProgram] tells whether
    the address module takes a program of a witness version from 1 to 16
    (taproot needs the curve library, later versions depend on the release
    of bitcoinjs-lib). *)
Class BitcoinLib : Type := {
  sha256 : bytes -> bytes;
  hash160 : bytes -> bytes;
  publicKeyOf : bytes -> option bytes;
  ecdsaSignInput : bytes -> Transaction.t -> nat -> bip174.PsbtInput -> option bytes;
  ecdsaSignWitnessV0 : bytes -> Transaction.t -> nat -> bytes -> Z -> option bytes;
  getFinalScripts : bip174.PsbtInput -> option (option bytes * option bytes);
  acceptsWitnessProgram : Z -> bytes -> bool
}.

Module address.
Section with_lib.
Context `{L : BitcoinLib}.

Definition isP2PKH (output : bytes) : bool :=
  (length output =? 25)%nat && (script.at_ output 0 =? OPS.OP_DUP)
    && (script.at_ output 1 =? OPS.OP_HASH160) && (script.at_ output 2 =? 20)
    && (script.at_ output 23 =? OPS.OP_EQUALVERIFY)
    && (script.at_ output 24 =? OPS.OP_CHECKSIG).

Definition isP2SH (output : bytes) : bool :=
  (length output =? 23)%nat && (script.at_ output 0 =? OPS.OP_HASH160)
    && (script.at_ output 1 =? 20) && (script.at_ output 22 =? OPS.OP_EQUAL).

Definition isP2WPKH (output : bytes) : bool :=
  (length output =? 22)%nat && (script.at_ output 0 =? OPS.OP_0)
    && (script.at_ output 1 =? 20).

Definition isP2WSH (output : bytes) : bool :=
  (length output =? 34)%nat && (script.at_ output 0 =? OPS.OP_0)
    && (script.at_ output 1 =? 32).

(** Witness versions 1 to 16: [OP_n <program>] with a program of 2 to
    40 bytes. *)
Definition isFutureSegwit (output : bytes) : bool :=
  let version := script.at_ output 0 - OPS.OP_RESERVED in
  (1 <=? version) && (version <=? 16)
    && (script.at_ output 1 =? Z.of_nat (length output - 2))
    && (2 <=? length output - 2)%nat && (length output - 2 <=? 40)%nat
    && acceptsWitnessProgram version (drop 2 output).

(** [address.fromOutputScript(output, network)]: the payment templates
    are tried in the library's order. *)
Definition fromOutputScript (output : bytes) (network : Network.t) : option Address :=
  if isP2PKH output then
    Some (Base58Check (Network.pubKeyHash network) (take 20 (drop 3 output)))
  else if isP2SH output then
    Some (Base58Check (Network.scriptHash network) (take 20 (drop 2 output)))
  else if isP2WPKH output then
    Some (Bech32 (Network.bech32 network) 0 (drop 2 output))
  else if isP2WSH output then
    Some (Bech32 (Network.bech32 network) 0 (drop 2 output))
  else if isFutureSegwit output then
    Some (Bech32 (Network.bech32 network) (script.at_ output 0 - OPS.OP_RESERVED)
            (drop 2 output))
  else None.

Definition p2pkh_output (h : bytes) : bytes :=
  script.compile [script.Op OPS.OP_DUP; script.Op OPS.OP_HASH160; script.Data h;
                  script.Op OPS.OP_EQUALVERIFY; script.Op OPS.OP_CHECKSIG].

Definition p2sh_output (h : bytes) : bytes :=
  script.compile [script.Op OPS.OP_HASH160; script.Data h; script.Op OPS.OP_EQUAL].

Definition p2wpkh_output (h : bytes) : bytes :=
  script.compile [script.Op OPS.OP_0; script.Data h].

Definition p2wsh_output (h : bytes) : bytes :=
  script.compile [script.Op OPS.OP_0; script.Data h].

(** [address.toOutputScript(address, network)]; [None] is the exception
    'has no matching Script' or 'has an invalid prefix'.  A base58check
    text decodes to a version byte and exactly 20 bytes. *)
Definition toOutputScript (a : Address) (network : Network.t) : option bytes :=
  match a with
  | Base58Check version payload =>
      if negb (length payload =? 20)%nat then None
      else if version =? Network.pubKeyHash network then Some (p2pkh_output payload)
      else if version =? Network.scriptHash network then Some (p2sh_output payload)
      else None
  | Bech32 prefix version program =>
      if negb (String.eqb prefix (Network.bech32 network)) then None
      else if version =? 0 then
        if (length program =? 20)%nat then Some (p2wpkh_output program)
        else if (length program =? 32)%nat then Some (p2wsh_output program)
        else None
      else if (1 <=? version) && (version <=? 16)
              && (2 <=? length program)%nat && (length program <=? 40)%nat
              && acceptsWitnessProgram version program then
        Some (script.compile [script.Op (OPS.OP_RESERVED + version);
                              script.Data program])
      else None
  | Malformed _ => None
  end.

End with_lib.
End address.

(** ** [bitcoin.Psbt] *)

Module ECPair.

Record t : Type := {
  privateKey : bytes;
  publicKey : bytes
}.

Definition fromPrivateKey `{L : BitcoinLib} (d : bytes) : Result t :=
  pub ← orThrow InvalidPrivateKey (publicKeyOf d);
  Ok {| privateKey := d; publicKey := pub |}.

End ECPair.

Module Psbt.
Import bip174.

Record t : Type := {
  network : Network.t;
  tx : Transaction.t;
  inputs : list PsbtInput
}.

(** The argument object of [addInput]. *)
Record InputData : Type := {
  in_hash : string;
  in_index : Z;
  in_witnessUtxo : bytes * Z;
  in_witnessScript : option bytes;
  in_sequence : option Z
}.

Definition SATOSHI_MAX : Z := 2100000000000000.
Definition maximumFeeRate : Z := 5000.

Definition new (network : Network.t) : t :=
  {| network := network;
     tx := {| Transaction.version := 2; Transaction.locktime := 0;
              Transaction.ins := []; Transaction.outs := [] |};
     inputs := [] |}.

Definition with_tx (p : t) (tx' : Transaction.t) : t :=
  {| network := network p; tx := tx'; inputs := inputs p |}.

(** [psbt.addInput]: the txid text is decoded and reversed; the hash must
    have 32 bytes, index and sequence must be 32-bit unsigned, and the
    outpoint must not be spent by an earlier input. *)
Definition addInput (p : t) (d : InputData) : Result t :=
  let h := reverse (fromHex (in_hash d)) in
  _ ← check AddInputFailed
        ((length h =? 32)%nat && isUInt32 (in_index d)
           && from_option isUInt32 true (in_sequence d));
  _ ← check AddInputFailed
        (negb (existsb (fun i => bool_decide (Transaction.hash i = h)
                                   && (Transaction.index i =? in_index d))
                 (Transaction.ins (tx p))));
  let txin :=
    {| Transaction.hash := h; Transaction.index := in_index d;
       Transaction.script := [];
       Transaction.sequence := default Transaction.DEFAULT_SEQUENCE (in_sequence d);
       Transaction.witness := [] |} in
  let pin :=
    {| witnessUtxo := Some (in_witnessUtxo d); witnessScript := in_witnessScript d;
       partialSig := []; finalScriptSig := None; finalScriptWitness := None |} in
  Ok {| network := network p;
        tx := {| Transaction.version := Transaction.version (tx p);
                 Transaction.locktime := Transaction.locktime (tx p);
                 Transaction.ins := Transaction.ins (tx p) ++ [txin];
                 Transaction.outs := Transaction.outs (tx p) |};
        inputs := inputs p ++ [pin] |}.

Definition setLocktime (p : t) (locktime : Z) : Result t :=
  _ ← check SetLocktimeFailed (isUInt32 locktime);
  Ok (with_tx p
        {| Transaction.version := Transaction.version (tx p);
           Transaction.locktime := locktime;
           Transaction.ins := Transaction.ins (tx p);
           Transaction.outs := Transaction.outs (tx p) |}).

Section with_lib.
Context `{L : BitcoinLib}.

(** [psbt.addOutput({ address, value })]: the address is turned into a
    script for the PSBT's network, then [tx.addOutput] checks that the
    value is a satoshi amount (an integer from 0 to 21e14). *)
Definition addOutput (p : t) (a : Address) (value : Z) : Result t :=
  out ← orThrow AddOutputFailed (address.toOutputScript a (network p));
  _ ← check AddOutputFailed ((0 <=? value) && (value <=? SATOSHI_MAX));
  Ok (with_tx p
        {| Transaction.version := Transaction.version (tx p);
           Transaction.locktime := Transaction.locktime (tx p);
           Transaction.ins := Transaction.ins (tx p);
           Transaction.outs :=
             Transaction.outs (tx p)
               ++ [{| Transaction.out_script := out; Transaction.value := value |}] |}).

(** [psbt.signInput(i, keyPair)] *)
Definition signInput (p : t) (i : nat) (keyPair : ECPair.t) : Result t :=
  input ← orThrow SignInputFailed (inputs p !! i);
  sig ← orThrow SignInputFailed
          (ecdsaSignInput (ECPair.privateKey keyPair) (tx p) i input);
  let input' :=
    {| witnessUtxo := witnessUtxo input; witnessScript := witnessScript input;
       partialSig := partialSig input
                       ++ [{| pubkey := ECPair.publicKey keyPair; signature := sig |}];
       finalScriptSig := finalScriptSig input;
       finalScriptWitness := finalScriptWitness input |} in
  Ok {| network := network p; tx := tx p; inputs := <[i := input']> (inputs p) |}.

(** [psbt.finalizeInput(i, finalScriptsFunc)]: the finalizer's scripts
    are stored and the signing data is cleared from the input. *)
Definition finalizeInput (p : t) (i : nat)
    (finalScriptsFunc : PsbtInput -> Result (option bytes * option bytes)) : Result t :=
  input ← orThrow FinalizeFailed (inputs p !! i);
  _ ← check FinalizeFailed
        (bool_decide (is_Some (witnessScript input))
           || bool_decide (is_Some (witnessUtxo input)));
  '(fss, fsw) ← finalScriptsFunc input;
  _ ← check FinalizeFailed
        (bool_decide (is_Some fss) || bool_decide (is_Some fsw));
  let input' :=
    {| witnessUtxo := witnessUtxo input; witnessScript := None; partialSig := [];
       finalScriptSig := if fss is Some _ then fss else finalScriptSig input;
       finalScriptWitness := if fsw is Some _ then fsw else finalScriptWitness input |} in
  Ok {| network := network p; tx := tx p; inputs := <[i := input']> (inputs p) |}.

Fixpoint finalizeFrom (p : t) (i n : nat) : Result t :=
  match n with
  | O => Ok p
  | S k =>
      p' ← finalizeInput p i (fun input => orThrow FinalizeFailed (getFinalScripts input));
      finalizeFrom p' (S i) k
  end.

(** [psbt.finalizeAllInputs()]: it asks for input 0 first, so a PSBT
    without inputs is refused. *)
Definition finalizeAllInputs (p : t) : Result t :=
  _ ← orThrow FinalizeFailed (inputs p !! 0%nat);
  finalizeFrom p 0 (length (inputs p)).

Definition isFinalized (input : PsbtInput) : bool :=
  bool_decide (is_Some (finalScriptSig input))
    || bool_decide (is_Some (finalScriptWitness input)).

(** The final scripts of one PSBT input are copied into the
    transaction input. *)
Definition finalizeTxInput (txin : Transaction.Input) (input : PsbtInput)
    : option Transaction.Input :=
  let script' := default (Transaction.script txin) (finalScriptSig input) in
  w ← match finalScriptWitness input with
      | Some fsw => scriptWitnessToWitnessStack fsw
      | None => Some (Transaction.witness txin)
      end;
  Some {| Transaction.hash := Transaction.hash txin;
          Transaction.index := Transaction.index txin;
          Transaction.script := script';
          Transaction.sequence := Transaction.sequence txin;
          Transaction.witness := w |}.

Definition inputAmount (p : t) : Z :=
  sumZ (map (fun input => from_option snd 0 (witnessUtxo input)) (inputs p)).

Definition outputAmount (t : Transaction.t) : Z :=
  sumZ (map Transaction.value (Transaction.outs t)).

(** [psbt.extractTransaction()]: every input must be finalized, the
    outputs must not spend more than the inputs, and the fee rate must
    stay below [maximumFeeRate] satoshi per virtual byte. *)
Definition extractTransaction (p : t) : Result Transaction.t :=
  _ ← check ExtractFailed (forallb isFinalized (inputs p));
  ins' ← orThrow ExtractFailed
           (mapM (fun '(txin, input) => finalizeTxInput txin input)
              (zip (Transaction.ins (tx p)) (inputs p)));
  let t' :=
    {| Transaction.version := Transaction.version (tx p);
       Transaction.locktime := Transaction.locktime (tx p);
       Transaction.ins := ins';
       Transaction.outs := Transaction.outs (tx p) |} in
  let fee := inputAmount p - outputAmount t' in
  _ ← check ExtractFailed (0 <=? fee);
  _ ← check ExtractFailed (fee / Transaction.virtualSize t' <? maximumFeeRate);
  Ok t'.

End with_lib.
End Psbt.

(** ** JavaScript numbers

    A number that holds a fee rate is given by its exact value, a
    rational; the satoshi amounts and sizes are integers.  The product of
    two numbers is the double nearest to the exact product, as IEEE 754
    defines it.  NaN and the infinities are not values here: fee rates are
    finite and products stay below 2^1024. *)
Module Number.

(** [floor (log2 |q|)] for [q] other than zero. *)
Definition ilog2 (q : Q) : Z :=
  let k := Z.log2 (Z.abs (Qnum q)) - Z.log2 (Zpos (Qden q)) in
  if Qle_bool (Qpower 2 k) (Qabs q) then k else k - 1.

(** Rounding to the nearest integer, ties to the even one. *)
Definition roundHalfEven (q : Q) : Z :=
  let f := Qfloor q in
  match Qcompare (q - inject_Z f) (1 # 2) with
  | Lt => f
  | Gt => f + 1
  | Eq => if Z.even f then f else f + 1
  end.

(** The double nearest to [q]: 53 significant bits, the last one worth
    at least 2^-1074.  It is also the number that a decimal literal or
    [parseFloat] gives for [q]. *)
Definition round (q : Q) : Q :=
  if Qeq_bool q 0 then 0%Q
  else
    let ulp := Z.max (ilog2 q - 52) (-1074) in
    (inject_Z (roundHalfEven (q / Qpower 2 ulp)) * Qpower 2 ulp)%Q.

(** [a * b] *)
Definition mul (a b : Q) : Q := round (a * b).

(** [Number.MAX_VALUE], and [Number.isFinite] on a rational: whether it
    is the value of a double. *)
Definition MAX_VALUE : Q := inject_Z ((2 ^ 53 - 1) * 2 ^ 971).

Definition isFinite (q : Q) : bool :=
  Qeq_bool (round q) q && Qle_bool (Qabs q) MAX_VALUE.

End Number.

(** [Math.ceil] of a finite number. *)
Definition Math_ceil (q : Q) : Z := Qceiling q.

(** A value that a JavaScript caller may get back: [undefined], [null] or a
    proper value. *)
Inductive JsValue (A : Type) : Type :=
| Undefined
| Null
| Value (a : A).
Arguments Undefined {A}.
Arguments Null {A}.
Arguments Value {A} a.

(** The caller takes both [null] and [undefined] as "no secret"
    ([if (secret) ... else 'No secret found'], create-htlc.ts lines 414-421). *)
Definition no_secret {A : Type} (v : JsValue A) : Prop := v = Null \/ v = Undefined.

Definition truthy (b : option bool) : bool := default false b.

(** ** [btc/lib/htlc-builder.ts] *)

Module HTLCBuilder.
Import script.

Record HTLCConfig : Type := {
  senderPublicKey : bytes;
  receiverPublicKey : bytes;
  hashlock : bytes;
  locktime : Z;
  network : Network.t;
  useSegwit : option bool
}.

Record HTLCOutput : Type := {
  address : Address;
  redeemScript : bytes;
  lockingScript : bytes;
  scriptHash : bytes;
  witnessScript : option bytes
}.

Record HTLCTransaction : Type := {
  txid : string;
  hex : string;
  fee : Z;
  vsize : Z;
  witnessHash : option string
}.

(** An entry of the [utxos: any[]] argument of the funding builder. *)
Record Utxo : Type := {
  utxo_txid : string;
  utxo_vout : Z;
  utxo_value : Z;
  utxo_scriptPubKey : string
}.

(** [createHTLCScript] (lines 45-63). *)
Definition createHTLCScript (config : HTLCConfig) : bytes :=
  compile
    [ Op OPS.OP_IF;
        Op OPS.OP_SHA256;
        Data (hashlock config);
        Op OPS.OP_EQUALVERIFY;
        Data (receiverPublicKey config);
        Op OPS.OP_CHECKSIG;
      Op OPS.OP_ELSE;
        Data (number_encode (locktime config));
        Op OPS.OP_CHECKLOCKTIMEVERIFY;
        Op OPS.OP_DROP;
        Data (senderPublicKey config);
        Op OPS.OP_CHECKSIG;
      Op OPS.OP_ENDIF ].

(** The finalizers serialize the witness stack by hand (lines 248-257 and
    349-358): one byte for the number of elements, then each element
    behind one byte for its length. *)
Definition serializeWitnessStack (witnessStack : list bytes) : bytes :=
  concat ([byte_of_Z (Z.of_nat (length witnessStack))]
            :: map (fun item => [byte_of_Z (Z.of_nat (length item))] ++ item)
                 witnessStack).

Section with_lib.
Context `{L : BitcoinLib}.

(** [createHTLC] (lines 68-106). *)
Definition createHTLC (config : HTLCConfig) : Result HTLCOutput :=
  let redeemScript := createHTLCScript config in
  let network := network config in
  if truthy (useSegwit config) then
    let witnessScript := redeemScript in
    let scriptHash := sha256 witnessScript in
    let lockingScript := compile [Op OPS.OP_0; Data scriptHash] in
    address ← orThrow NoMatchingAddress
                (address.fromOutputScript lockingScript network);
    Ok {| address := address; redeemScript := redeemScript;
          lockingScript := lockingScript; scriptHash := scriptHash;
          witnessScript := Some witnessScript |}
  else
    let scriptHash := hash160 redeemScript in
    let lockingScript :=
      compile [Op OPS.OP_HASH160; Data scriptHash; Op OPS.OP_EQUAL] in
    address ← orThrow NoMatchingAddress
                (address.fromOutputScript lockingScript network);
    Ok {| address := address; redeemScript := redeemScript;
          lockingScript := lockingScript; scriptHash := scriptHash;
          witnessScript := None |}.

(** The record returned by the three builders (lines 163-169, 263-269,
    364-370). *)
Definition toHTLCTransaction (tx : Transaction.t) (fee : Z) : HTLCTransaction :=
  {| txid := toHex (reverse (sha256 (sha256 (Transaction.toBuffer_ false tx))));
     hex := Transaction.toHex tx;
     fee := fee;
     vsize := Transaction.virtualSize tx;
     witnessHash := Some (toHex (sha256 (sha256 (Transaction.toBuffer tx)))) |}.

Fixpoint addUtxoInputs (psbt : Psbt.t) (utxos : list Utxo) : Result Psbt.t :=
  match utxos with
  | [] => Ok psbt
  | utxo :: rest =>
      psbt' ← Psbt.addInput psbt
                {| Psbt.in_hash := utxo_txid utxo;
                   Psbt.in_index := utxo_vout utxo;
                   Psbt.in_witnessUtxo :=
                     (fromHex (utxo_scriptPubKey utxo), utxo_value utxo);
                   Psbt.in_witnessScript := None;
                   Psbt.in_sequence := None |};
      addUtxoInputs psbt' rest
  end.

Fixpoint signInputsFrom (psbt : Psbt.t) (keyPair : ECPair.t) (i n : nat)
    : Result Psbt.t :=
  match n with
  | O => Ok psbt
  | S k =>
      psbt' ← Psbt.signInput psbt i keyPair;
      signInputsFrom psbt' keyPair (S i) k
  end.

Definition fundingEstimatedSize (inputCount : nat) : Z :=
  Z.of_nat inputCount * 148 + 2 * 34 + 10.

(** [createFundingTransaction] up to [psbt.extractTransaction()]
    (lines 118-161): the extracted transaction and the computed fee. *)
Definition extractFundingTransaction (config : HTLCConfig) (utxos : list Utxo)
    (amount : Z) (changeAddress : Address) (feeRate : Q) (privateKey : bytes)
    : Result (Transaction.t * Z) :=
  htlc ← createHTLC config;
  keyPair ← ECPair.fromPrivateKey privateKey;
  let psbt := Psbt.new (network config) in
  psbt ← addUtxoInputs psbt utxos;
  let totalInput := sumZ (map utxo_value utxos) in
  psbt ← Psbt.addOutput psbt (address htlc) amount;
  let estimatedSize := fundingEstimatedSize (length (Psbt.inputs psbt)) in
  let fee := Math_ceil (Number.mul (inject_Z estimatedSize) feeRate) in
  let change := totalInput - amount - fee in
  psbt ← (if change >? 546 then Psbt.addOutput psbt changeAddress change
           else Ok psbt);
  psbt ← signInputsFrom psbt keyPair 0 (length (Psbt.inputs psbt));
  psbt ← Psbt.finalizeAllInputs psbt;
  tx ← Psbt.extractTransaction psbt;
  Ok (tx, fee).

(** [createFundingTransaction] (lines 111-170). *)
Definition createFundingTransaction (config : HTLCConfig) (utxos : list Utxo)
    (amount : Z) (changeAddress : Address) (feeRate : Q) (privateKey : bytes)
    : Result HTLCTransaction :=
  '(tx, fee) ← extractFundingTransaction config utxos amount changeAddress
                 feeRate privateKey;
  Ok (toHTLCTransaction tx fee).

(** The custom finalizer of the claim (lines 220-259). *)
Definition claimFinalizer (secret : bytes) (htlc : HTLCOutput)
    (input : bip174.PsbtInput) : Result (option bytes * option bytes) :=
  sig0 ← orThrow FinalizeFailed (bip174.partialSig input !! 0%nat);
  let rawSignature := bip174.signature sig0 in
  _ ← check SignatureFormatIssue (signature_decode rawSignature);
  let signature := rawSignature in
  ws ← orThrow FinalizeFailed (witnessScript htlc);
  let witnessStack := [signature; secret; [x01]; ws] in
  Ok (Some [], Some (serializeWitnessStack witnessStack)).

(** The custom finalizer of the refund (lines 323-360). *)
Definition refundFinalizer (htlc : HTLCOutput)
    (input : bip174.PsbtInput) : Result (option bytes * option bytes) :=
  sig0 ← orThrow FinalizeFailed (bip174.partialSig input !! 0%nat);
  let rawSignature := bip174.signature sig0 in
  _ ← check SignatureFormatIssue (signature_decode rawSignature);
  let signature := rawSignature in
  ws ← orThrow FinalizeFailed (witnessScript htlc);
  let witnessStack := [signature; [x00]; ws] in
  Ok (Some [], Some (serializeWitnessStack witnessStack)).

(** [createClaimTransaction] up to [psbt.extractTransaction()]
    (lines 184-261). *)
Definition extractClaimTransaction (config : HTLCConfig) (htlcTxid : string)
    (htlcVout : Z) (htlcAmount : Z) (secret : bytes)
    (destinationAddress : Address) (feeRate : Q) (privateKey : bytes)
    : Result (Transaction.t * Z) :=
  htlc ← createHTLC config;
  keyPair ← ECPair.fromPrivateKey privateKey;
  let psbt := Psbt.new (network config) in
  psbt ← (if truthy (useSegwit config) then
             Psbt.addInput psbt
               {| Psbt.in_hash := htlcTxid;
                  Psbt.in_index := htlcVout;
                  Psbt.in_witnessUtxo := (lockingScript htlc, htlcAmount);
                  Psbt.in_witnessScript := witnessScript htlc;
                  Psbt.in_sequence := None |}
           else Err LegacyUnsupported);
  let estimatedSize := if truthy (useSegwit config) then 150 else 200 in
  let fee := Math_ceil (Number.mul (inject_Z estimatedSize) feeRate) in
  let outputAmount := htlcAmount - fee in
  psbt ← Psbt.addOutput psbt destinationAddress outputAmount;
  psbt ← Psbt.signInput psbt 0 keyPair;
  psbt ← Psbt.finalizeInput psbt 0 (claimFinalizer secret htlc);
  tx ← Psbt.extractTransaction psbt;
  Ok (tx, fee).

(** [createClaimTransaction] (lines 175-270). *)
Definition createClaimTransaction (config : HTLCConfig) (htlcTxid : string)
    (htlcVout : Z) (htlcAmount : Z) (secret : bytes)
    (destinationAddress : Address) (feeRate : Q) (privateKey : bytes)
    : Result HTLCTransaction :=
  '(tx, fee) ← extractClaimTransaction config htlcTxid htlcVout htlcAmount
                 secret destinationAddress feeRate privateKey;
  Ok (toHTLCTransaction tx fee).

(** [createRefundTransaction] up to [psbt.extractTransaction()]
    (lines 283-362). *)
Definition extractRefundTransaction (config : HTLCConfig) (htlcTxid : string)
    (htlcVout : Z) (htlcAmount : Z) (destinationAddress : Address)
    (feeRate : Q) (privateKey : bytes) : Result (Transaction.t * Z) :=
  htlc ← createHTLC config;
  keyPair ← ECPair.fromPrivateKey privateKey;
  let psbt := Psbt.new (network config) in
  psbt ← (if truthy (useSegwit config) then
             Psbt.addInput psbt
               {| Psbt.in_hash := htlcTxid;
                  Psbt.in_index := htlcVout;
                  Psbt.in_witnessUtxo := (lockingScript htlc, htlcAmount);
                  Psbt.in_witnessScript := witnessScript htlc;
                  Psbt.in_sequence := Some 4294967294 |}
           else Err LegacyUnsupported);
  psbt ← Psbt.setLocktime psbt (locktime config);
  let estimatedSize := if truthy (useSegwit config) then 150 else 200 in
  let fee := Math_ceil (Number.mul (inject_Z estimatedSize) feeRate) in
  let outputAmount := htlcAmount - fee in
  psbt ← Psbt.addOutput psbt destinationAddress outputAmount;
  psbt ← Psbt.signInput psbt 0 keyPair;
  psbt ← Psbt.finalizeInput psbt 0 (refundFinalizer htlc);
  tx ← Psbt.extractTransaction psbt;
  Ok (tx, fee).

(** [createRefundTransaction] (lines 275-371). *)
Definition createRefundTransaction (config : HTLCConfig) (htlcTxid : string)
    (htlcVout : Z) (htlcAmount : Z) (destinationAddress : Address)
    (feeRate : Q) (privateKey : bytes) : Result HTLCTransaction :=
  '(tx, fee) ← extractRefundTransaction config htlcTxid htlcVout htlcAmount
                 destinationAddress feeRate privateKey;
  Ok (toHTLCTransaction tx fee).

(** [validateHTLCAddress] (lines 407-414). *)
Definition validateHTLCAddress (a : Address) (network : Network.t) : bool :=
  match address.toOutputScript a network with
  | Some _ => true
  | None => false
  end.

(** [hashSecret] (lines 426-428). *)
Definition hashSecret (secret : bytes) : bytes := sha256 secret.

End with_lib.

(** The stack that the extractor looks at: the witness of input 0 when it
    is not empty, otherwise the decompiled script-sig when that is not
    empty and decompiles. *)
Definition inputStack (input : Transaction.Input) : option (list Chunk) :=
  match Transaction.witness input with
  | _ :: _ => Some (map Data (Transaction.witness input))
  | [] =>
      match Transaction.script input with
      | _ :: _ => decompile (Transaction.script input)
      | [] => None
      end
  end.

(** [extractSecretFromTransaction] (lines 376-402).  Any exception
    ([Transaction.fromHex] failing, no input 0) is caught and gives
    [null]; a witness with a single element gives [undefined]. *)
Definition extractSecretFromTransaction (txHex : string) (witnessScript : bytes)
    : JsValue Chunk :=
  match Transaction.fromHex txHex with
  | None => Null
  | Some tx =>
      match Transaction.ins tx with
      | [] => Null
      | in0 :: _ =>
          match Transaction.witness in0 with
          | _ :: _ =>
              match Transaction.witness in0 !! 1%nat with
              | Some secret => Value (Data secret)
              | None => Undefined
              end
          | [] =>
              match Transaction.script in0 with
              | _ :: _ =>
                  match decompile (Transaction.script in0) with
                  | Some scriptSig =>
                      if (1 <? length scriptSig)%nat then
                        match scriptSig !! 1%nat with
                        | Some secret => Value secret
                        | None => Undefined
                        end
                      else Null
                  | None => Null
                  end
              | [] => Null
              end
          end
      end
  end.

End HTLCBuilder.

(** ** [btc/scripts/create-htlc.ts] *)

Module HTLCCreator.

Record HTLCParams : Type := {
  senderPublicKey : string;
  receiverPublicKey : string;
  hashlock : string;
  locktime : Z;
  network : string;
  useSegwit : bool
}.

Record HTLCResult : Type := {
  address : Address;
  redeemScript : string;
  scriptHash : string;
  witnessScript : option string;
  lockingScript : string;
  config : HTLCParams
}.

(** [getNetwork] (lines 98-110). *)
Definition getNetwork (networkName : string) : Result Network.t :=
  if String.eqb networkName "mainnet" then Ok networks.bitcoin
  else if String.eqb networkName "testnet" then Ok networks.testnet
  else if String.eqb networkName "testnet4" then Ok networks.testnet
  else if String.eqb networkName "regtest" then Ok networks.regtest
  else Err UnsupportedNetwork.

(** The [HTLCConfig] that [createHTLC], [createFundingTx] and
    [createClaimTx] rebuild from the stored parameters (lines 182-189,
    244-251, 328-335). *)
Definition toConfig (params : HTLCParams) (net : Network.t) : HTLCBuilder.HTLCConfig :=
  {| HTLCBuilder.senderPublicKey := fromHex (senderPublicKey params);
     HTLCBuilder.receiverPublicKey := fromHex (receiverPublicKey params);
     HTLCBuilder.hashlock := fromHex (hashlock params);
     HTLCBuilder.locktime := locktime params;
     HTLCBuilder.network := net;
     HTLCBuilder.useSegwit := Some (useSegwit params) |}.

Section with_lib.
Context `{L : BitcoinLib}.

(** The guard of lines 341-347: the digest of the secret, as lower-case
    hexadecimal text, is compared with the stored hashlock text. *)
Definition secretMatchesHashlock (secretBuffer : bytes) (hashlock : string) : bool :=
  String.eqb (toHex (HTLCBuilder.hashSecret secretBuffer)) hashlock.

(** [createHTLC] (lines 164-222), without the file and the log. *)
Definition createHTLC (params : HTLCParams) : Result HTLCResult :=
  net ← getNetwork (network params);
  htlcOutput ← HTLCBuilder.createHTLC (toConfig params net);
  Ok {| address := HTLCBuilder.address htlcOutput;
        redeemScript := toHex (HTLCBuilder.redeemScript htlcOutput);
        scriptHash := toHex (HTLCBuilder.scriptHash htlcOutput);
        witnessScript := toHex <$> HTLCBuilder.witnessScript htlcOutput;
        lockingScript := toHex (HTLCBuilder.lockingScript htlcOutput);
        config := params |}.

(** [createClaimTx] (lines 313-358), from the loaded HTLC file to the
    local claim transaction; broadcasting and the result file follow. *)
Definition createClaimTx (htlcData : HTLCResult) (fundingTxid : string)
    (fundingVout : Z) (secret : string) (destinationAddress : Address)
    (privateKeyHex : string) (feeRate : Q) : Result HTLCBuilder.HTLCTransaction :=
  net ← getNetwork (network (config htlcData));
  let config' := toConfig (config htlcData) net in
  let privateKey := fromHex privateKeyHex in
  let secretBuffer := fromHex secret in
  _ ← check SecretMismatch
        (secretMatchesHashlock secretBuffer (hashlock (config htlcData)));
  let amount := 100000 in
  HTLCBuilder.createClaimTransaction config' fundingTxid fundingVout amount
    secretBuffer destinationAddress feeRate privateKey.

End with_lib.
End HTLCCreator.

(** ** [btc/scripts/claim-htlc-reverse.ts] *)

Module ClaimReverse.
Import script.

Definition testnet4 : Network.t :=
  {| Network.messagePrefix := signed_message_prefix; Network.bech32 := "tb";
     Network.bip32_public := 70617039; Network.bip32_private := 70615956;
     Network.pubKeyHash := 111; Network.scriptHash := 196; Network.wif := 239 |}.

(** What [NETWORKS[name]] evaluates to (lines 21-35): one of the three
    networks, a member that the object inherits from [Object.prototype]
    (a function or an object, which is truthy and has none of the fields
    of a network), or [undefined]. *)
Inductive NetworkEntry : Type :=
| Known (n : Network.t)
| Inherited.

Definition inheritedNames : list string :=
  ["constructor"; "__defineGetter__"; "__defineSetter__"; "hasOwnProperty";
   "__lookupGetter__"; "__lookupSetter__"; "isPrototypeOf";
   "propertyIsEnumerable"; "toString"; "valueOf"; "__proto__"; "toLocaleString"].

Definition NETWORKS (name : string) : option NetworkEntry :=
  if String.eqb name "testnet4" then Some (Known testnet4)
  else if String.eqb name "testnet" then Some (Known networks.testnet)
  else if String.eqb name "mainnet" then Some (Known networks.bitcoin)
  else if existsb (String.eqb name) inheritedNames then Some Inherited
  else None.

Record HTLCConfig : Type := {
  address : Address;
  scriptHash : string;
  amount : string;
  network : string;
  locktime : Z;
  senderPublicKey : string;
  receiverPublicKey : string;
  hashlock : string;
  witnessScript : option string
}.

(** What [claimHTLC] has built when it starts broadcasting. *)
Record Claim : Type := {
  claim_tx : Transaction.t;
  claim_hex : string;
  claim_amount : Z;
  claim_fee : Z
}.

(** [createHTLCScript] (lines 97-121): the locktime is written as four
    little-endian bytes, which [writeUInt32LE] refuses outside 32 bits. *)
Definition createHTLCScript (senderPubKey receiverPubKey hashlock : string)
    (locktime : Z) : Result bytes :=
  let senderPubKeyBuffer := fromHex senderPubKey in
  let receiverPubKeyBuffer := fromHex receiverPubKey in
  let hashlockBuffer := fromHex hashlock in
  _ ← check InvalidLocktime (isUInt32 locktime);
  let locktimeBuffer := le_bytes 4 locktime in
  Ok (compile
        [ Op OPS.OP_IF;
          Op OPS.OP_SHA256;
          Data hashlockBuffer;
          Op OPS.OP_EQUALVERIFY;
          Data receiverPubKeyBuffer;
          Op OPS.OP_ELSE;
          Data locktimeBuffer;
          Op OPS.OP_CHECKLOCKTIMEVERIFY;
          Op OPS.OP_DROP;
          Data senderPubKeyBuffer;
          Op OPS.OP_ENDIF;
          Op OPS.OP_CHECKSIG ]).

Section with_lib.
Context `{L : BitcoinLib}.

(** The answer of the explorer for the funding transaction: the values
    of its outputs, or [None] when the request fails. *)
Variable fetchFundingOutputs : string -> option (list Z).

(** [claimHTLC] (lines 123-231), up to [tx.toHex()].  With an inherited
    member for a network, [address.toOutputScript] finds neither a
    version nor a prefix to match and throws. *)
Definition claimHTLC (htlcConfig : HTLCConfig) (fundingTxId : string)
    (fundingVout : nat) (secret : string) (destinationAddress : Address)
    (privateKey : string) (feeRate : Q) : Result Claim :=
  net ← orThrow UnsupportedNetwork (NETWORKS (network htlcConfig));
  let secretBuffer := fromHex secret in
  let calculatedHashlock := toHex (sha256 secretBuffer) in
  _ ← check SecretMismatch (String.eqb calculatedHashlock (hashlock htlcConfig));
  htlcScript ←
    match witnessScript htlcConfig with
    | Some (String c s) => Ok (fromHex (String c s))
    | _ => createHTLCScript (senderPublicKey htlcConfig)
             (receiverPublicKey htlcConfig) (hashlock htlcConfig)
             (locktime htlcConfig)
    end;
  outputs ← orThrow FetchFailed (fetchFundingOutputs fundingTxId);
  fundingAmount ← orThrow FundingOutputNotFound (outputs !! fundingVout);
  let estimatedSize := 300 in
  let fee := Math_ceil (Number.mul (inject_Z estimatedSize) feeRate) in
  let outputAmount := fundingAmount - fee in
  _ ← check InsufficientFunds (negb (outputAmount <=? 0));
  let h := reverse (fromHex fundingTxId) in
  _ ← check AddInputFailed
        ((length h =? 32)%nat && isUInt32 (Z.of_nat fundingVout));
  outputScript ← orThrow AddOutputFailed
                   (match net with
                    | Known n => address.toOutputScript destinationAddress n
                    | Inherited => None
                    end);
  _ ← check AddOutputFailed
        ((0 <=? outputAmount) && (outputAmount <=? Psbt.SATOSHI_MAX));
  let tx :=
    {| Transaction.version := 2; Transaction.locktime := 0;
       Transaction.ins :=
         [{| Transaction.hash := h; Transaction.index := Z.of_nat fundingVout;
             Transaction.script := [];
             Transaction.sequence := Transaction.DEFAULT_SEQUENCE;
             Transaction.witness := [] |}];
       Transaction.outs :=
         [{| Transaction.out_script := outputScript;
             Transaction.value := outputAmount |}] |} in
  keyPair ← ECPair.fromPrivateKey (fromHex privateKey);
  derSignature ← orThrow SignInputFailed
                   (ecdsaSignWitnessV0 (ECPair.privateKey keyPair) tx 0 htlcScript
                      fundingAmount);
  _ ← check SignatureFormatIssue (signature_decode derSignature);
  let witness := [derSignature; secretBuffer; [x01]; htlcScript] in
  let tx' :=
    {| Transaction.version := 2; Transaction.locktime := 0;
       Transaction.ins :=
         [{| Transaction.hash := h; Transaction.index := Z.of_nat fundingVout;
             Transaction.script := [];
             Transaction.sequence := Transaction.DEFAULT_SEQUENCE;
             Transaction.witness := witness |}];
       Transaction.outs := Transaction.outs tx |} in
  Ok {| claim_tx := tx'; claim_hex := Transaction.toHex tx';
        claim_amount := outputAmount; claim_fee := fee |}.

End with_lib.
End ClaimReverse.

(** ** [btc/scripts/fund-htlc.ts] *)

Module FundHTLC.

Record BitcoinUTXO : Type := {
  txid : string;
  vout : Z;
  value : Z;
  scriptPubKey : string;
  address : string
}.

(** What [main] has put into the PSBT when it starts signing: the chosen
    inputs and the outputs with their address texts. *)
Record Funding : Type := {
  inputs : list BitcoinUTXO;
  outputs : list (string * Z);
  fee : Z
}.

Definition startsWith (s p : string) : bool := String.prefix p s.

Section with_gateway.

(** [payments.p2wpkh({ address, network }).output], [None] when the
    library rejects the address. *)
Variable p2wpkhScript : string -> option bytes.

(** [getTransaction(utxo.txid, network)]: the raw hex, [None] on a
    failed request. *)
Variable getTransaction : string -> option string.

(** The checks of [psbt.addInput] on the outpoint: a hash of 32 bytes,
    a 32-bit index, and an outpoint that no earlier input spends. *)
Definition checkOutpoint (added : list BitcoinUTXO) (utxo : BitcoinUTXO)
    : Result unit :=
  let h := reverse (fromHex (txid utxo)) in
  _ ← check AddInputFailed ((length h =? 32)%nat && isUInt32 (vout utxo));
  check AddInputFailed
    (negb (existsb (fun u => bool_decide (reverse (fromHex (txid u)) = h)
                               && (vout u =? vout utxo))
             added)).

(** The loop of lines 335-387.  [inputValue] and the inputs added so far
    are threaded through; a legacy input carries the previous
    transaction, which [psbt.addInput] parses. *)
Fixpoint addInputs (fromAddress : string) (amount fee : Z)
    (utxos : list BitcoinUTXO) (added : list BitcoinUTXO) (inputValue : Z)
    : Result (list BitcoinUTXO * Z) :=
  match utxos with
  | [] => Ok (added, inputValue)
  | utxo :: rest =>
      if inputValue >=? amount + fee then Ok (added, inputValue)
      else
        let isLegacy :=
          startsWith fromAddress "m" || startsWith fromAddress "n"
            || startsWith fromAddress "1" || startsWith fromAddress "2" in
        let isSegWit :=
          startsWith fromAddress "tb1" || startsWith fromAddress "bc1"
            || startsWith fromAddress "bcrt1" in
        if isSegWit then
          _ ← orThrow AddInputFailed (p2wpkhScript fromAddress);
          _ ← checkOutpoint added utxo;
          addInputs fromAddress amount fee rest (added ++ [utxo])
            (inputValue + value utxo)
        else if isLegacy then
          txData ← orThrow FetchFailed (getTransaction (txid utxo));
          _ ← check FetchFailed (negb (String.eqb txData ""));
          _ ← checkOutpoint added utxo;
          _ ← orThrow AddInputFailed (Transaction.fromHex txData);
          addInputs fromAddress amount fee rest (added ++ [utxo])
            (inputValue + value utxo)
        else Err UnsupportedAddressFormat
  end.

(** [main] (lines 301-403), from the fetched UTXOs to the outputs of the
    PSBT. *)
Definition main (htlcAddress fromAddress : string) (amount : Z)
    (utxos : list BitcoinUTXO) : Result Funding :=
  _ ← check FetchFailed (negb (length utxos =? 0)%nat);
  let totalAvailable := sumZ (map value utxos) in
  let fee := 1000 in
  _ ← check InsufficientFunds (negb (totalAvailable <? amount + fee));
  '(added, inputValue) ← addInputs fromAddress amount fee utxos [] 0;
  let change := inputValue - amount - fee in
  Ok {| inputs := added;
        outputs := (htlcAddress, amount)
                     :: (if change >? 546 then [(fromAddress, change)] else []);
        fee := fee |}.

End with_gateway.
End FundHTLC.

(** ** The order steps: [monadvm/scripts/taker-fund-htlc-real.ts] and
       [monadvm/scripts/maker-claim-btc.ts] *)

Module JsString.

Definition includes (s sub : string) : bool :=
  bool_decide (is_Some (String.index 0 sub s)).

Definition startsWith (s p : string) : bool := String.prefix p s.

Definition endsWith (s suffix : string) : bool :=
  String.prefix (String.rev suffix) (String.rev s).

(** [s.slice(n)] *)
Definition slice (n : nat) (s : string) : string :=
  String.substring n (String.length s - n) s.

(** [s.replace(sub, '')]: the first occurrence is removed. *)
Definition remove_first (s sub : string) : string :=
  match String.index 0 sub s with
  | Some i =>
      String.substring 0 i s
        +:+ slice (i + String.length sub) s
  | None => s
  end.

(** A string read from the environment counts when it is set and not
    empty. *)
Definition truthy (o : option string) : option string :=
  match o with
  | Some (String c s) => Some (String c s)
  | _ => None
  end.

End JsString.

Module Orders.

Inductive Status : Type := CREATED | FILLED | FUNDED | COMPLETED | CANCELLED.

#[global] Instance Status_eq_dec : EqDecision Status.
Proof. solve_decision. Defined.

Record Provides : Type := {
  provides_asset : string;
  provides_amount : string;
  provides_token : option string
}.

Record Wants : Type := {
  wants_asset : string;
  wants_amount : string;
  wants_address : string;
  wants_publicKey : string
}.

Record Maker : Type := {
  maker_address : string;
  provides : Provides;
  wants : Wants
}.

Record Taker : Type := {
  taker_address : string;
  bitcoinAddress : string
}.

Record Timelock : Type := {
  withdrawalPeriod : Z;
  cancellationPeriod : Z
}.

Record Contracts : Type := {
  btcEscrowFactory : string;
  accessToken : string
}.

Record BitcoinHTLC : Type := {
  htlc_address : string;
  htlc_scriptHash : string;
  htlc_amount : string;
  htlc_network : string;
  htlc_locktime : Z
}.

Record MonadvmEscrow : Type := {
  escrow_address : string;
  escrow_txHash : string;
  escrow_amount : string;
  safetyDeposit : string;
  creationFee : string
}.

Record Transactions : Type := {
  bitcoinHTLCFunding : option string;
  monadvmEscrowCreation : option string;
  bitcoinHTLCClaim : option string;
  monadvmEscrowClaim : option string
}.

(** [interface AtomicSwapOrder] (both scripts, lines 5-70). *)
Record AtomicSwapOrder : Type := {
  orderId : string;
  timestamp : Z;
  network : string;
  chainId : Z;
  maker : Maker;
  taker : option Taker;
  secret : string;
  hashlock : string;
  timelock : Timelock;
  status : Status;
  contracts : Contracts;
  bitcoinHTLC : option BitcoinHTLC;
  monadvmEscrow : option MonadvmEscrow;
  transactions : option Transactions
}.

Definition noTransactions : Transactions :=
  {| bitcoinHTLCFunding := None; monadvmEscrowCreation := None;
     bitcoinHTLCClaim := None; monadvmEscrowClaim := None |}.

Definition update (order : AtomicSwapOrder) (s : Status) (t : Transactions)
    : AtomicSwapOrder :=
  {| orderId := orderId order; timestamp := timestamp order;
     network := network order; chainId := chainId order; maker := maker order;
     taker := taker order; secret := secret order; hashlock := hashlock order;
     timelock := timelock order; status := s; contracts := contracts order;
     bitcoinHTLC := bitcoinHTLC order; monadvmEscrow := monadvmEscrow order;
     transactions := Some t |}.

(** [order.status = "FUNDED"; if (!order.transactions) order.transactions =
    {}; order.transactions.bitcoinHTLCFunding = txId] *)
Definition recordFunding (order : AtomicSwapOrder) (txId : string) : AtomicSwapOrder :=
  let t := default noTransactions (transactions order) in
  update order FUNDED
    {| bitcoinHTLCFunding := Some txId;
       monadvmEscrowCreation := monadvmEscrowCreation t;
       bitcoinHTLCClaim := bitcoinHTLCClaim t;
       monadvmEscrowClaim := monadvmEscrowClaim t |}.

(** [order.status = "COMPLETED"; ...; order.transactions.bitcoinHTLCClaim =
    txId] *)
Definition recordClaim (order : AtomicSwapOrder) (txId : string) : AtomicSwapOrder :=
  let t := default noTransactions (transactions order) in
  update order COMPLETED
    {| bitcoinHTLCFunding := bitcoinHTLCFunding t;
       monadvmEscrowCreation := monadvmEscrowCreation t;
       bitcoinHTLCClaim := Some txId;
       monadvmEscrowClaim := monadvmEscrowClaim t |}.

(** Why a step stopped. *)
Inductive Failure : Type :=
| OrderNotFound
| WrongStatus
| MissingComponents
| SecretDoesNotMatch
| ConfigNotFound
| MissingCredentials
| BuilderNotFound
| HtlcFileNotFound
| ClaimProcessFailed.

(** How a run of a script ends: [main] returns, throws, or the process
    exits with a code. *)
Inductive Outcome : Type :=
| Returned (order : AtomicSwapOrder)
| Thrown (why : Failure)
| Exited (code : Z).

(** The process environment and the files a step reads. *)
Record Env : Type := {
  ORDER_ID : option string;
  argv_last : string;
  BITCOIN_PRIVATE_KEY : option string;
  BITCOIN_ADDRESS : option string;
  BITCOIN_NETWORK : option string;
  htlcBuilderExists : bool;
  btcConfigExists : string -> bool;
  htlcOutputDir : list string
}.

(** The directory [orders/]: the parsed content of [<orderId>.json]. *)
Abbreviation OrderFiles := (gmap string AtomicSwapOrder).

Definition orderIdOf (env : Env) : option string :=
  match JsString.truthy (ORDER_ID env) with
  | Some s => Some s
  | None => JsString.truthy (Some (argv_last env))
  end.

Definition hasComponents (order : AtomicSwapOrder) : bool :=
  bool_decide (is_Some (taker order)) && bool_decide (is_Some (bitcoinHTLC order))
    && bool_decide (is_Some (monadvmEscrow order)).

Section with_world.
Context `{L : BitcoinLib}.

(** [Date.now()] as text, the satoshi amount and the digits of the BTC
    amount as the scripts print them. *)
Variable now : string.
Variable satoshisText : string -> string.
Variable amountDigits : string -> string.

(** [execSync(command)]: the output, or [None] when it throws. *)
Variable execSync : string -> option string.

(** The claim process: exit code and collected output. *)
Variable spawnClaim : list string -> Z * string.

(** The regular expressions that pick the transaction id out of the
    output of the child process. *)
Variable matchFundingTxId : string -> option string.
Variable matchClaimTxId : string -> option string.
Variable matchOldClaimTxId : string -> option string.

(** [taker-fund-htlc-real.ts], [main] (lines 70-241). *)
Definition takerFundMain (env : Env) (files : OrderFiles) : Outcome * OrderFiles :=
  match orderIdOf env with
  | None => (Exited 1, files)
  | Some orderId =>
      if JsString.includes orderId ".ts" then (Exited 1, files)
      else
        match files !! orderId with
        | None => (Thrown OrderNotFound, files)
        | Some order =>
            if negb (hasComponents order) then (Thrown MissingComponents, files)
            else
              match JsString.truthy (BITCOIN_PRIVATE_KEY env),
                    JsString.truthy (BITCOIN_ADDRESS env) with
              | Some _, Some _ =>
                  if negb (htlcBuilderExists env) then (Thrown BuilderNotFound, files)
                  else
                    let bitcoinNetwork :=
                      default "testnet4" (JsString.truthy (BITCOIN_NETWORK env)) in
                    let command :=
                      "cd btc && ts-node scripts/fund-htlc.ts --address="
                        +:+ from_option htlc_address "" (bitcoinHTLC order)
                        +:+ " --amount=" +:+ satoshisText (wants_amount (wants (maker order)))
                        +:+ " --network=" +:+ bitcoinNetwork in
                    let txId :=
                      match execSync command with
                      | Some result =>
                          default ("real_" +:+ now +:+ "_funding")
                            (matchFundingTxId result)
                      | None =>
                          "sim_" +:+ amountDigits (wants_amount (wants (maker order)))
                            +:+ "_" +:+ now +:+ "_funding"
                      end in
                    let order' := recordFunding order txId in
                    (Returned order', <[orderId := order']> files)
              | _, _ => (Exited 1, files)
              end
        end
  end.

(** [maker-claim-btc.ts], [main] (lines 72-344). *)
Definition makerClaimMain (env : Env) (files : OrderFiles) : Outcome * OrderFiles :=
  match orderIdOf env with
  | None => (Exited 1, files)
  | Some orderId =>
      if JsString.includes orderId ".ts" then (Exited 1, files)
      else
        match files !! orderId with
        | None => (Thrown OrderNotFound, files)
        | Some order =>
            if negb (bool_decide (status order = FUNDED)) then (Thrown WrongStatus, files)
            else if negb (hasComponents order) then (Thrown MissingComponents, files)
            else
              let secretBuffer := fromHex (JsString.slice 2 (secret order)) in
              let calculatedHashlock := "0x" +:+ toHex (sha256 secretBuffer) in
              if negb (String.eqb calculatedHashlock (hashlock order)) then
                (Thrown SecretDoesNotMatch, files)
              else
                let bitcoinNetwork :=
                  default "testnet4" (JsString.truthy (BITCOIN_NETWORK env)) in
                if negb (btcConfigExists env bitcoinNetwork) then
                  (Thrown ConfigNotFound, files)
                else
                  match JsString.truthy (BITCOIN_PRIVATE_KEY env),
                        JsString.truthy (BITCOIN_ADDRESS env) with
                  | Some bitcoinPrivateKey, Some _ =>
                      match
                        List.find
                          (fun f => JsString.startsWith f "htlc_"
                                      && JsString.endsWith f "_testnet4.json"
                                      && negb (JsString.includes f "config"))
                          (htlcOutputDir env)
                      with
                      | None => (Thrown HtlcFileNotFound, files)
                      | Some htlcResultFile =>
                          let htlcFile := "btc/output/" +:+ htlcResultFile in
                          let fundingTxId :=
                            default ""
                              (JsString.truthy
                                 (transactions order ≫= bitcoinHTLCFunding)) in
                          let secret' := JsString.remove_first (secret order) "0x" in
                          let '(code, claimOutput) :=
                            spawnClaim
                              ["btc/scripts/create-htlc.ts"; "claim"; htlcFile;
                               fundingTxId; "0"; secret';
                               wants_address (wants (maker order));
                               bitcoinPrivateKey; "10"] in
                          if code =? 0 then
                            let txId :=
                              match matchClaimTxId claimOutput with
                              | Some t => t
                              | None =>
                                  default ("claim_failed_" +:+ now)
                                    (matchOldClaimTxId claimOutput)
                              end in
                            let order' := recordClaim order txId in
                            (Returned order', <[orderId := order']> files)
                          else (Thrown ClaimProcessFailed, files)
                      end
                  | _, _ => (Thrown MissingCredentials, files)
                  end
        end
  end.

End with_world.
End Orders.

(** ** The explorer client of [btc/scripts/create-htlc.ts] (class
       [MempoolAPI], lines 640-890)

    Texts that come from the explorer are ASCII, so the length of a
    [string] is the length JavaScript reports. *)

Module MempoolAPI.

Record ScriptSig : Type := {
  asm : string;
  hex : string
}.

Record Vin : Type := {
  vin_txid : string;
  vin_vout : Z;
  scriptSig : option ScriptSig;
  witness : option (list string);
  sequence : Z
}.

Record Status : Type := {
  confirmed : bool;
  block_height : option Z
}.

(** [interface TransactionDetails] (lines 588-620), with the fields the
    client reads. *)
Record TransactionDetails : Type := {
  txid : string;
  vin : list Vin;
  status : Status
}.

Definition isHexDigit (c : ascii) : bool := bool_decide (is_Some (hex_value c)).

(** The first [n] characters of [s] when they are all hexadecimal
    digits. *)
Fixpoint hexRun (n : nat) (s : string) : option string :=
  match n with
  | O => Some EmptyString
  | S k =>
      match s with
      | String c r => if isHexDigit c then String c <$> hexRun k r else None
      | EmptyString => None
      end
  end.

(** [scriptHex.match(/([a-f0-9]{64})/i)]: the leftmost run of 64
    hexadecimal digits, upper or lower case. *)
Fixpoint matchHex64 (s : string) : option string :=
  match s with
  | EmptyString => None
  | String c r =>
      match hexRun 64 s with
      | Some m => Some m
      | None => matchHex64 r
      end
  end.

(** The body of the loop over [tx.vin] (lines 855-875) for one input:
    the script-sig is looked at first, then the witness elements. *)
Definition secretOfInput (input : Vin) : option string :=
  match
    (match scriptSig input with
     | Some {| hex := String c r |} => matchHex64 (String c r)
     | _ => None
     end)
  with
  | Some secretMatch => Some secretMatch
  | None =>
      match witness input with
      | Some elements =>
          List.find (fun witnessElement => (String.length witnessElement =? 64)%nat)
            elements
      | None => None
      end
  end.

(** [extractSecretFromTransaction] (lines 852-882); [None] is [null]. *)
Fixpoint extractSecretFromInputs (inputs : list Vin) : option string :=
  match inputs with
  | [] => None
  | input :: rest =>
      match secretOfInput input with
      | Some s => Some s
      | None => extractSecretFromInputs rest
      end
  end.

Definition extractSecretFromTransaction (tx : TransactionDetails) : option string :=
  extractSecretFromInputs (vin tx).

(** [isTransactionConfirmed] (lines 829-846).  [getTransaction] and
    [getBlockHeight] are the two requests, [None] when one throws; the
    height is only asked for when more than one confirmation is
    wanted, and a missing [block_height] counts as 0
    ([tx.status.block_height || 0]). *)
Definition isTransactionConfirmed
    (getTransaction : string -> option TransactionDetails)
    (getBlockHeight : option Z) (txid : string) (minConfirmations : Z)
    : Result bool :=
  tx ← orThrow FetchFailed (getTransaction txid);
  if negb (confirmed (status tx)) then Ok false
  else if minConfirmations <=? 1 then Ok true
  else
    currentHeight ← orThrow FetchFailed getBlockHeight;
    let confirmations :=
      currentHeight - default 0 (block_height (status tx)) + 1 in
    Ok (confirmations >=? minConfirmations).

End MempoolAPI.

(** ** The escrow factory: [monadvm/contracts/BTCEscrowFactory.sol]

    A call runs on the chain state and either returns the new state with
    the events it emitted or reverts, which leaves the state as it was.
    Ether is counted in wei and gas is not counted; the value sent with a
    call is credited to the contract before its code runs.  The token, the treasury and the
    CREATE2 address derivation are foreign code: their answers are
    parameters, and they are taken not to call back into the factory. *)

Module Evm.

Definition address : Type := Z.

Definition MAX_UINT256 : Z := 2 ^ 256 - 1.

Inductive RevertReason : Type :=
| InsufficientEscrowBalance
| FeeTransferFailed
| InvalidCaller
| InvalidImmutables
| ArithmeticOverflow            (* Panic(0x11) of checked arithmetic *)
| FailedDeployment              (* Create2: the address is taken *)
| TokenTransferFailed           (* SafeERC20 *)
| OwnableUnauthorizedAccount.   (* Ownable *)

Inductive Outcome (A : Type) : Type :=
| Success (a : A)
| Revert (why : RevertReason).
Arguments Success {A} a.
Arguments Revert {A} why.

#[global] Instance Outcome_ret : MRet Outcome := fun A a => Success a.
#[global] Instance Outcome_bind : MBind Outcome := fun A B f m =>
  match m with
  | Success a => f a
  | Revert why => Revert why
  end.

Definition require (why : RevertReason) (b : bool) : Outcome unit :=
  if b then Success tt else Revert why.

(** Checked addition of [uint256] values (Solidity 0.8). *)
Definition add (a b : Z) : Outcome Z :=
  if a + b <=? MAX_UINT256 then Success (a + b) else Revert ArithmeticOverflow.

(** The call context: [msg.sender], [msg.value], [block.timestamp]. *)
Record Msg : Type := {
  sender : address;
  value : Z;
  timestamp : Z
}.

(** Ether balances and the addresses that hold code. *)
Record Chain : Type := {
  balances : gmap Z Z;
  deployed : gset Z
}.

Definition balanceOf (c : Chain) (a : address) : Z := default 0 (balances c !! a).

Definition transfer (c : Chain) (from to : address) (amount : Z) : Chain :=
  let debited := <[from := balanceOf c from - amount]> (balances c) in
  {| balances := <[to := default 0 (debited !! to) + amount]> debited;
     deployed := deployed c |}.

End Evm.

Module BTCEscrowFactory.
Import Evm.

(** [IBaseEscrow.Immutables], as the scripts fill it in. *)
Record Immutables : Type := {
  orderHash : Z;
  hashlock : Z;
  maker : Z;
  taker : Z;
  token : Z;
  amount : Z;
  safetyDeposit : Z;
  timelocks : Z
}.

Record BitcoinConfig : Type := {
  minConfirmations : Z;
  dustThreshold : Z;
  maxAmount : Z
}.

(** The storage of the factory and its immutable fields. *)
Record Storage : Type := {
  this : address;
  owner : address;
  BTC_ESCROW_SRC_IMPLEMENTATION : address;
  BTC_ESCROW_DST_IMPLEMENTATION : address;
  creationFee : Z;
  treasury : address;
  bitcoinConfig : BitcoinConfig
}.

Inductive Event : Type :=
| SrcEscrowCreated (escrow : address) (hashlock : Z) (maker : Z) (creator : address)
| DstEscrowCreated (escrow : address) (hashlock : Z) (taker : Z) (creator : address)
| CreationFeeUpdated (oldFee newFee : Z)
| TreasuryUpdated (oldTreasury newTreasury : address)
| BitcoinConfigUpdated (config : BitcoinConfig).

Inductive Kind : Type := Src | Dst.

(** [AddressLib.get]: the low 160 bits of the packed word. *)
Definition get (a : Z) : address := a mod 2 ^ 160.

Record State : Type := {
  chain : Chain;
  store : Storage
}.

Section with_foreign_code.

(** [Create2.computeAddress(salt, proxyBytecodeHash, address(this))] where
    the salt hashes the immutables with the deployment time set to
    [block.timestamp]. *)
Variable escrowAddress : Kind -> Immutables -> Z -> address.

(** Whether [IERC20(token).safeTransferFrom(from, to, amount)] goes
    through, and whether the treasury accepts a plain transfer. *)
Variable tokenTransferFrom : address -> address -> address -> Z -> bool.
Variable treasuryAccepts : address -> Z -> bool.

(** [_deployEscrow] (lines 224-247): the clone is created at its CREATE2
    address with [ethAmount]; creation fails when the address is taken. *)
Definition deployEscrow (s : State) (k : Kind) (immutables : Immutables)
    (now : Z) (ethAmount : Z) : Outcome (address * State) :=
  let escrow := escrowAddress k immutables now in
  _ ← require FailedDeployment (ethAmount <=? balanceOf (chain s) (this (store s)));
  _ ← require FailedDeployment (negb (bool_decide (escrow ∈ deployed (chain s))));
  let c := transfer (chain s) (this (store s)) escrow ethAmount in
  Success (escrow,
           {| chain := {| balances := balances c;
                          deployed := {[escrow]} ∪ deployed c |};
              store := store s |}).

(** [_collectFee] (lines 252-257). *)
Definition collectFee (s : State) : Outcome State :=
  if (creationFee (store s) >? 0) && negb (treasury (store s) =? 0) then
    _ ← require FeeTransferFailed
          (treasuryAccepts (treasury (store s)) (creationFee (store s)));
    Success {| chain := transfer (chain s) (this (store s)) (treasury (store s))
                          (creationFee (store s));
               store := store s |}
  else Success s.

(** The body shared by [createSrcEscrow] (lines 96-123) and
    [createDstEscrow] (lines 129-156). *)
Definition createEscrowBody (k : Kind) (s : State) (msg : Msg)
    (immutables : Immutables) : Outcome (State * list Event) :=
  let token := get (token immutables) in
  requiredForEscrow ←
    (if token =? 0 then add (amount immutables) (safetyDeposit immutables)
     else Success (safetyDeposit immutables));
  totalRequired ← add requiredForEscrow (creationFee (store s));
  _ ← require InsufficientEscrowBalance (value msg =? totalRequired);
  '(escrow, s1) ← deployEscrow s k immutables (timestamp msg) requiredForEscrow;
  _ ← (if negb (token =? 0) then
         require TokenTransferFailed
           (tokenTransferFrom token (sender msg) escrow (amount immutables))
       else Success tt);
  s2 ← collectFee s1;
  Success (s2,
           [match k with
            | Src => SrcEscrowCreated escrow (hashlock immutables) (maker immutables)
                       (sender msg)
            | Dst => DstEscrowCreated escrow (hashlock immutables) (taker immutables)
                       (sender msg)
            end]).

(** A payable external call: the value arrives first, and a revert
    undoes everything.  The sender is taken to hold the value it sends. *)
Definition createEscrow (k : Kind) (s : State) (msg : Msg)
    (immutables : Immutables) : Outcome (State * list Event) :=
  createEscrowBody k
    {| chain := transfer (chain s) (sender msg) (this (store s)) (value msg);
       store := store s |}
    msg immutables.

Definition createSrcEscrow := createEscrow Src.
Definition createDstEscrow := createEscrow Dst.

(** [addressOfEscrowSrc] and [addressOfEscrowDst] (lines 161-178). *)
Definition addressOfEscrowSrc (msg : Msg) (immutables : Immutables) : address :=
  escrowAddress Src immutables (timestamp msg).

Definition addressOfEscrowDst (msg : Msg) (immutables : Immutables) : address :=
  escrowAddress Dst immutables (timestamp msg).

End with_foreign_code.

Definition onlyOwner (s : State) (msg : Msg) : Outcome unit :=
  require OwnableUnauthorizedAccount (sender msg =? owner (store s)).

Definition with_store (s : State) (st : Storage) : State :=
  {| chain := chain s; store := st |}.

(** [setCreationFee] (lines 184-188). *)
Definition setCreationFee (s : State) (msg : Msg) (newFee : Z)
    : Outcome (State * list Event) :=
  _ ← onlyOwner s msg;
  let oldFee := creationFee (store s) in
  Success (with_store s
             {| this := this (store s); owner := owner (store s);
                BTC_ESCROW_SRC_IMPLEMENTATION := BTC_ESCROW_SRC_IMPLEMENTATION (store s);
                BTC_ESCROW_DST_IMPLEMENTATION := BTC_ESCROW_DST_IMPLEMENTATION (store s);
                creationFee := newFee; treasury := treasury (store s);
                bitcoinConfig := bitcoinConfig (store s) |},
           [CreationFeeUpdated oldFee newFee]).

(** [setTreasury] (lines 194-198). *)
Definition setTreasury (s : State) (msg : Msg) (newTreasury : address)
    : Outcome (State * list Event) :=
  _ ← onlyOwner s msg;
  let oldTreasury := treasury (store s) in
  Success (with_store s
             {| this := this (store s); owner := owner (store s);
                BTC_ESCROW_SRC_IMPLEMENTATION := BTC_ESCROW_SRC_IMPLEMENTATION (store s);
                BTC_ESCROW_DST_IMPLEMENTATION := BTC_ESCROW_DST_IMPLEMENTATION (store s);
                creationFee := creationFee (store s); treasury := newTreasury;
                bitcoinConfig := bitcoinConfig (store s) |},
           [TreasuryUpdated oldTreasury newTreasury]).

(** [setBitcoinConfig] (lines 204-207). *)
Definition setBitcoinConfig (s : State) (msg : Msg) (newConfig : BitcoinConfig)
    : Outcome (State * list Event) :=
  _ ← onlyOwner s msg;
  Success (with_store s
             {| this := this (store s); owner := owner (store s);
                BTC_ESCROW_SRC_IMPLEMENTATION := BTC_ESCROW_SRC_IMPLEMENTATION (store s);
                BTC_ESCROW_DST_IMPLEMENTATION := BTC_ESCROW_DST_IMPLEMENTATION (store s);
                creationFee := creationFee (store s); treasury := treasury (store s);
                bitcoinConfig := newConfig |},
           [BitcoinConfigUpdated newConfig]).

(** [_validateBitcoinParams] (lines 212-219); no function of the contract
    calls it. *)
Definition validateBitcoinParams (s : State) (immutables : Immutables) : bool :=
  negb ((amount immutables <? dustThreshold (bitcoinConfig (store s)))
          || (amount immutables >? maxAmount (bitcoinConfig (store s)))).

End BTCEscrowFactory.

(** ** The escrows: [monadvm/contracts/BTCEscrowSrc.sol] (with
       [BTCEscrowDst] in the same file)

    The bookkeeping of Bitcoin addresses and transaction hashes.  The
    modifier [onlyValidImmutables] belongs to the base contract; its
    verdict is a parameter. *)

Module BTCEscrow.
Import Evm.

Record Storage : Type := {
  bitcoinAddresses : gmap Z string;
  bitcoinTxHashes : gmap Z string
}.

Inductive Event : Type :=
| BitcoinAddressRecorded (hashlock : Z) (btcAddress : string)
| BitcoinTxHashRecorded (hashlock : Z) (btcTxHash : string).

Section with_base.

Variable validImmutables : BTCEscrowFactory.Immutables -> bool.

Definition onlyValidImmutables (immutables : BTCEscrowFactory.Immutables)
    : Outcome unit :=
  require InvalidImmutables (validImmutables immutables).

(** [BTCEscrowSrc.recordBitcoinAddress] (lines 102-118): the maker's. *)
Definition Src_recordBitcoinAddress (st : Storage) (msg : Msg) (hashlock : Z)
    (btcAddress : string) (immutables : BTCEscrowFactory.Immutables)
    : Outcome (Storage * list Event) :=
  _ ← onlyValidImmutables immutables;
  _ ← require InvalidCaller
        (sender msg =? BTCEscrowFactory.get (BTCEscrowFactory.maker immutables));
  Success ({| bitcoinAddresses := <[hashlock := btcAddress]> (bitcoinAddresses st);
              bitcoinTxHashes := bitcoinTxHashes st |},
           [BitcoinAddressRecorded hashlock btcAddress]).

(** [BTCEscrowSrc.recordBitcoinTx] (lines 127-143): the taker's. *)
Definition Src_recordBitcoinTx (st : Storage) (msg : Msg) (hashlock : Z)
    (btcTxHash : string) (immutables : BTCEscrowFactory.Immutables)
    : Outcome (Storage * list Event) :=
  _ ← onlyValidImmutables immutables;
  _ ← require InvalidCaller
        (sender msg =? BTCEscrowFactory.get (BTCEscrowFactory.taker immutables));
  Success ({| bitcoinAddresses := bitcoinAddresses st;
              bitcoinTxHashes := <[hashlock := btcTxHash]> (bitcoinTxHashes st) |},
           [BitcoinTxHashRecorded hashlock btcTxHash]).

(** [BTCEscrowDst.recordBitcoinTx] and [BTCEscrowDst.recordBitcoinAddress]:
    the maker's and the taker's alike. *)
Definition Dst_recordBitcoinTx (st : Storage) (msg : Msg) (hashlock : Z)
    (btcTxHash : string) (immutables : BTCEscrowFactory.Immutables)
    : Outcome (Storage * list Event) :=
  _ ← onlyValidImmutables immutables;
  _ ← require InvalidCaller
        ((sender msg =? BTCEscrowFactory.get (BTCEscrowFactory.maker immutables))
           || (sender msg =? BTCEscrowFactory.get (BTCEscrowFactory.taker immutables)));
  Success ({| bitcoinAddresses := bitcoinAddresses st;
              bitcoinTxHashes := <[hashlock := btcTxHash]> (bitcoinTxHashes st) |},
           [BitcoinTxHashRecorded hashlock btcTxHash]).

Definition Dst_recordBitcoinAddress (st : Storage) (msg : Msg) (hashlock : Z)
    (btcAddress : string) (immutables : BTCEscrowFactory.Immutables)
    : Outcome (Storage * list Event) :=
  _ ← onlyValidImmutables immutables;
  _ ← require InvalidCaller
        ((sender msg =? BTCEscrowFactory.get (BTCEscrowFactory.maker immutables))
           || (sender msg =? BTCEscrowFactory.get (BTCEscrowFactory.taker immutables)));
  Success ({| bitcoinAddresses := <[hashlock := btcAddress]> (bitcoinAddresses st);
              bitcoinTxHashes := bitcoinTxHashes st |},
           [BitcoinAddressRecorded hashlock btcAddress]).

End with_base.

(** The getters; a key that was never written reads as the empty
    string. *)
Definition getBitcoinAddress (st : Storage) (hashlock : Z) : string :=
  default EmptyString (bitcoinAddresses st !! hashlock).

Definition getBitcoinTxHash (st : Storage) (hashlock : Z) : string :=
  default EmptyString (bitcoinTxHashes st !! hashlock).

End BTCEscrow.

(** ** The order scripts of the Monad side

    [monadvm/scripts/create-order-immediate.ts], the taker's fill script,
    [monadvm/scripts/maker-escrow.ts] and the taker's claim script, with
    the conventions of [Orders]: the directory [orders/] is a map from
    order ids to the parsed files, the log is left out, and the order
    files are taken to be well formed where only the log reads them (a
    valid time stamp, a decimal amount). *)

Module Scripts.

(** Why a script threw. *)
Inductive Failure : Type :=
| OrderNotFound
| WrongStatus (found : Orders.Status)
| NetworkMismatch
| SignerNotFound             (* TAKER_ADDRESS / MAKER_ADDRESS not among the signers *)
| NoSigner
| MissingBitcoinCredentials
| InvalidWIF                 (* ECPair.fromWIF *)
| InvalidMakerPublicKey
| CreateHTLCFailed           (* the child process exits with 1 *)
| NoHTLCOutputFile
| MissingTakerOrHTLC
| MakerMismatch
| NotAnInteger               (* BigInt(text) *)
| InsufficientBalance
| ValueOutOfBounds           (* the ABI encoder *)
| Reverted (why : Evm.RevertReason)
| MissingComponents
| SecretNotRevealed
| BitcoinConfigNotFound
| SecretDoesNotMatch
| CreationTxNotFound
| WithdrawFailed.

(** How a run ends: [main] returns, throws, or the process exits. *)
Inductive Run (A : Type) : Type :=
| Returns (a : A)
| Throws (why : Failure)
| Exits (code : Z).
Arguments Returns {A} a.
Arguments Throws {A} why.
Arguments Exits {A} code.

#[global] Instance Run_ret : MRet Run := fun A a => Returns a.
#[global] Instance Run_bind : MBind Run := fun A B f m =>
  match m with
  | Returns a => f a
  | Throws why => Throws why
  | Exits code => Exits code
  end.

Definition throwUnless (why : Failure) (b : bool) : Run unit :=
  if b then Returns tt else Throws why.

Definition orThrow {A : Type} (why : Failure) (o : option A) : Run A :=
  match o with
  | Some a => Returns a
  | None => Throws why
  end.

(** The decimal text of an integer, as a template literal and [toString]
    print it. *)
Definition toString (n : Z) : string :=
  DecimalString.NilZero.string_of_int (Z.to_int n).

(** A text without the letter t, as the decimal text of an integer is;
    such a text cannot begin an occurrence of testnet4. *)
Definition noLetterT (s : string) : Prop :=
  forall c, In c (list_ascii_of_string s) -> c <> "t"%char.

(** [s.toLowerCase()] on the ASCII text of an address. *)
Definition lowerAscii (c : ascii) : ascii :=
  let n := nat_of_ascii c in
  if (65 <=? n)%nat && (n <=? 90)%nat then ascii_of_nat (n + 32) else c.

Fixpoint toLowerCase (s : string) : string :=
  match s with
  | EmptyString => EmptyString
  | String c rest => String (lowerAscii c) (toLowerCase rest)
  end.

(** The node the scripts talk to: [ethers.provider.getNetwork()] and
    [ethers.getSigners()], a signer being its address text and the
    account it signs for. *)
Record Signer : Type := {
  signer_address : string;
  signer_account : Evm.address
}.

Record Node : Type := {
  node_chainId : Z;
  node_signers : list Signer
}.

(** [signers.find(s => s.address.toLowerCase() === target.toLowerCase())] *)
Definition findSigner (signers : list Signer) (target : string) : option Signer :=
  List.find (fun s => String.eqb (toLowerCase (signer_address s)) (toLowerCase target))
    signers.

(** The head of every script but the first: the order id from the
    environment or the command line, and the order file. *)
Definition loadOrder (env : Orders.Env) (files : Orders.OrderFiles)
    : Run (string * Orders.AtomicSwapOrder) :=
  match Orders.orderIdOf env with
  | None => Exits 1
  | Some orderId =>
      if JsString.includes orderId ".ts" then Exits 1
      else
        order ← orThrow OrderNotFound (files !! orderId);
        Returns (orderId, order)
  end.

End Scripts.

(** *** [create-order-immediate.ts] *)

Module CreateOrder.
Import Scripts.

Section with_lib.
Context `{L : BitcoinLib}.

(** [main] (lines 45-173).  [secretBytes] is what [crypto.randomBytes(32)]
    returned, [now1] and [now2] the two readings of [Date.now()].
    [ethers.sha256] of the 0x-prefixed hex text hashes the bytes the text
    stands for. *)
Definition main (node : Node) (secretBytes : bytes) (now1 now2 : Z)
    (files : Orders.OrderFiles) : Run Orders.AtomicSwapOrder * Orders.OrderFiles :=
  let chainId := node_chainId node in
  let networkName := if chainId =? 31337 then "hardhat" else "unknown" in
  match node_signers node with
  | [] => (Throws NoSigner, files)
  | maker :: _ =>
      let secret := "0x" +:+ toHex secretBytes in
      let hashlock := "0x" +:+ toHex (sha256 secretBytes) in
      let factoryAddress := "0x9c4da3F640f194E187eE263A3e16404f9af70761" in
      let accessTokenAddress := "0xa2Ba2AdeFFf8059faAa066d6050aF70C4e5A6ccD" in
      let orderId := "order_" +:+ toString now1 in
      let order :=
        {| Orders.orderId := orderId;
           Orders.timestamp := now2;
           Orders.network := networkName;
           Orders.chainId := chainId;
           Orders.maker :=
             {| Orders.maker_address := signer_address maker;
                Orders.provides :=
                  {| Orders.provides_asset := "ETH";
                     Orders.provides_amount := "10000000000000000";
                     Orders.provides_token := None |};
                Orders.wants :=
                  {| Orders.wants_asset := "BTC";
                     Orders.wants_amount := "0.001";
                     Orders.wants_address :=
                       "tb1qw04epl2mtg7un7a7dle8qzhs7we0s4u2gf5jqp";
                     Orders.wants_publicKey :=
                       "02757f19d8c1ac3875a20d544a090da2590288df9b3adf6bb9cba7a0ce75374008"
                  |} |};
           Orders.taker := None;
           Orders.secret := secret;
           Orders.hashlock := hashlock;
           Orders.timelock :=
             {| Orders.withdrawalPeriod := 0; Orders.cancellationPeriod := 3600 |};
           Orders.status := Orders.CREATED;
           Orders.contracts :=
             {| Orders.btcEscrowFactory := factoryAddress;
                Orders.accessToken := accessTokenAddress |};
           Orders.bitcoinHTLC := None;
           Orders.monadvmEscrow := None;
           Orders.transactions := None |} in
      (Returns order, <[orderId := order]> files)
  end.

End with_lib.
End CreateOrder.

(** *** The taker's fill script *)

Module TakerFill.
Import Scripts.

Section with_world.
Context `{L : BitcoinLib}.

(** [ECPair.fromWIF(text, network)], and the text of an address as the
    HTLC file holds it. *)
Variable fromWIF : string -> Network.t -> option ECPair.t.
Variable addressText : Address -> string.

(** The directory [btc/output]: its HTLC result files, newest first.  The
    configuration files that this script writes there are taken not to
    pass the filter of [newestHTLCFile] (they are named
    [htlc_config_<orderId>.json]). *)
Definition OutputDir : Type := list (string * HTLCCreator.HTLCResult).

(** [ts-node btc/scripts/create-htlc.ts create <config>]: the child builds
    the HTLC from the configuration and saves it as
    [htlc_<Date.now()>_<network>.json]; when [createHTLC] throws it exits
    with 1 and [execSync] throws. *)
Definition runCreate (params : HTLCCreator.HTLCParams) (childNow : Z)
    (dir : OutputDir) : option OutputDir :=
  match HTLCCreator.createHTLC params with
  | Ok result =>
      Some (("htlc_" +:+ toString childNow +:+ "_" +:+ HTLCCreator.network params
               +:+ ".json",
             result) :: dir)
  | Err _ => None
  end.

(** [readdirSync(dir).filter(...).sort(by mtime, newest first)[0]] *)
Definition newestHTLCFile (dir : OutputDir) : option (string * HTLCCreator.HTLCResult) :=
  List.find
    (fun f => JsString.startsWith (fst f) "htlc_"
                && JsString.includes (fst f) "testnet4"
                && JsString.endsWith (fst f) ".json")
    dir.

(** [taker = signers[1] || signers[0]], or the signer named by
    [TAKER_ADDRESS]. *)
Definition takerSigner (TAKER_ADDRESS : option string) (signers : list Signer)
    : Run Signer :=
  match JsString.truthy TAKER_ADDRESS with
  | Some targetAddress => orThrow SignerNotFound (findSigner signers targetAddress)
  | None =>
      match signers !! 1%nat with
      | Some s => Returns s
      | None => orThrow NoSigner (signers !! 0%nat)
      end
  end.

(** The HTLC configuration of lines 223-230. *)
Definition htlcConfig (order : Orders.AtomicSwapOrder) (takerKeyPair : ECPair.t)
    (bitcoinNetwork : string) (now : Z) : HTLCCreator.HTLCParams :=
  {| HTLCCreator.senderPublicKey := toHex (ECPair.publicKey takerKeyPair);
     HTLCCreator.receiverPublicKey := Orders.wants_publicKey (Orders.wants (Orders.maker order));
     HTLCCreator.hashlock := JsString.slice 2 (Orders.hashlock order);
     HTLCCreator.locktime :=
       now / 1000 + Orders.cancellationPeriod (Orders.timelock order);
     HTLCCreator.network := bitcoinNetwork;
     HTLCCreator.useSegwit := true |}.

(** The order as the script saves it (lines 281-300). *)
Definition filled (order : Orders.AtomicSwapOrder) (taker : Signer)
    (bitcoinAddress bitcoinNetwork : string) (htlcData : HTLCCreator.HTLCResult)
    (locktime : Z) : Orders.AtomicSwapOrder :=
  {| Orders.orderId := Orders.orderId order;
     Orders.timestamp := Orders.timestamp order;
     Orders.network := Orders.network order;
     Orders.chainId := Orders.chainId order;
     Orders.maker := Orders.maker order;
     Orders.taker :=
       Some {| Orders.taker_address := signer_address taker;
               Orders.bitcoinAddress := bitcoinAddress |};
     Orders.secret := Orders.secret order;
     Orders.hashlock := Orders.hashlock order;
     Orders.timelock := Orders.timelock order;
     Orders.status := Orders.FILLED;
     Orders.contracts := Orders.contracts order;
     Orders.bitcoinHTLC :=
       Some {| Orders.htlc_address := addressText (HTLCCreator.address htlcData);
               Orders.htlc_scriptHash := HTLCCreator.scriptHash htlcData;
               Orders.htlc_amount := Orders.wants_amount (Orders.wants (Orders.maker order));
               Orders.htlc_network := bitcoinNetwork;
               Orders.htlc_locktime := locktime |};
     Orders.monadvmEscrow := Orders.monadvmEscrow order;
     Orders.transactions := Some Orders.noTransactions |}.

(** What [main] does once the order is loaded (lines 101-300).  [now] is
    [Date.now()] of this process, [childNow] that of the child. *)
Definition fill (env : Orders.Env) (TAKER_ADDRESS : option string) (node : Node)
    (now childNow : Z) (dir : OutputDir)
    (order : Orders.AtomicSwapOrder) : Run Orders.AtomicSwapOrder :=
  _ ← throwUnless (WrongStatus (Orders.status order))
        (bool_decide (Orders.status order = Orders.CREATED));
  _ ← throwUnless NetworkMismatch (node_chainId node =? Orders.chainId order);
  taker ← takerSigner TAKER_ADDRESS (node_signers node);
  let bitcoinNetwork := default "testnet4" (JsString.truthy (Orders.BITCOIN_NETWORK env)) in
  match JsString.truthy (Orders.BITCOIN_PRIVATE_KEY env),
        JsString.truthy (Orders.BITCOIN_ADDRESS env) with
  | Some bitcoinPrivateKey, Some bitcoinAddress =>
      let btcNetwork :=
        if String.eqb bitcoinNetwork "testnet4" then networks.testnet
        else networks.bitcoin in
      takerKeyPair ← orThrow InvalidWIF (fromWIF bitcoinPrivateKey btcNetwork);
      let makerPublicKey := Orders.wants_publicKey (Orders.wants (Orders.maker order)) in
      _ ← throwUnless InvalidMakerPublicKey
            (String.length makerPublicKey =? 66)%nat;
      let config := htlcConfig order takerKeyPair bitcoinNetwork now in
      dir' ← orThrow CreateHTLCFailed (runCreate config childNow dir);
      '(_, htlcData) ← orThrow NoHTLCOutputFile (newestHTLCFile dir');
      Returns (filled order taker bitcoinAddress bitcoinNetwork htlcData
                 (HTLCCreator.locktime config))
  | _, _ => Throws MissingBitcoinCredentials
  end.

(** [main] (lines 75-338). *)
Definition main (env : Orders.Env) (TAKER_ADDRESS : option string) (node : Node)
    (now childNow : Z) (dir : OutputDir) (files : Orders.OrderFiles)
    : Run Orders.AtomicSwapOrder * Orders.OrderFiles :=
  match loadOrder env files with
  | Returns (orderId, order) =>
      match fill env TAKER_ADDRESS node now childNow dir order with
      | Returns order' => (Returns order', <[orderId := order']> files)
      | Throws why => (Throws why, files)
      | Exits code => (Exits code, files)
      end
  | Throws why => (Throws why, files)
  | Exits code => (Exits code, files)
  end.

End with_world.
End TakerFill.

(** *** [maker-escrow.ts] *)

Module MakerEscrow.
Import Scripts.

(** [ethers.parseEther("0.001")] *)
Definition SAFETY_DEPOSIT : Z := 1000000000000000.

(** The packed timelocks of lines 186-189; the taker's claim script packs
    them the same way. *)
Definition packTimelocks (now dstCancellation dstPublicWithdrawal dstWithdrawal : Z) : Z :=
  Z.lor
    (Z.lor (Z.lor (Z.shiftl now 224) (Z.shiftl dstCancellation 64))
       (Z.shiftl dstPublicWithdrawal 32))
    dstWithdrawal.

(** What the ABI encoder accepts for a [uint256]. *)
Definition isUint256 (n : Z) : bool := (0 <=? n) && (n <=? Evm.MAX_UINT256).

Section with_world.

(** [BigInt(text)], [None] when it throws; [ethers.keccak256] of the
    UTF-8 bytes of a text; a hex text as [bytes32], [None] when the
    encoder refuses it; the text of an address. *)
Variable BigInt : string -> option Z.
Variable keccak256Utf8 : string -> Z.
Variable bytes32 : string -> option Z.
Variable addressText : Evm.address -> string.

(** The foreign code of the factory. *)
Variable escrowAddress :
  BTCEscrowFactory.Kind -> BTCEscrowFactory.Immutables -> Z -> Evm.address.
Variable tokenTransferFrom : Evm.address -> Evm.address -> Evm.address -> Z -> bool.
Variable treasuryAccepts : Evm.address -> Z -> bool.

(** [maker = signers[0]], or the signer named by [MAKER_ADDRESS]. *)
Definition makerSigner (MAKER_ADDRESS : option string) (signers : list Signer)
    : Run Signer :=
  match JsString.truthy MAKER_ADDRESS with
  | Some targetAddress => orThrow SignerNotFound (findSigner signers targetAddress)
  | None => orThrow NoSigner (signers !! 0%nat)
  end.

(** The immutables of lines 192-201. *)
Definition immutablesOf (orderId : string) (hashlock makerWord takerWord : Z)
    (ESCROW_AMOUNT timelocks : Z) : BTCEscrowFactory.Immutables :=
  {| BTCEscrowFactory.orderHash := keccak256Utf8 orderId;
     BTCEscrowFactory.hashlock := hashlock;
     BTCEscrowFactory.maker := makerWord;
     BTCEscrowFactory.taker := takerWord;
     BTCEscrowFactory.token := 0;
     BTCEscrowFactory.amount := ESCROW_AMOUNT;
     BTCEscrowFactory.safetyDeposit := SAFETY_DEPOSIT;
     BTCEscrowFactory.timelocks := timelocks |}.

(** The order as the script saves it (lines 249-261). *)
Definition recordEscrow (order : Orders.AtomicSwapOrder)
    (escrow : Orders.MonadvmEscrow) : Orders.AtomicSwapOrder :=
  let t := default Orders.noTransactions (Orders.transactions order) in
  {| Orders.orderId := Orders.orderId order;
     Orders.timestamp := Orders.timestamp order;
     Orders.network := Orders.network order;
     Orders.chainId := Orders.chainId order;
     Orders.maker := Orders.maker order;
     Orders.taker := Orders.taker order;
     Orders.secret := Orders.secret order;
     Orders.hashlock := Orders.hashlock order;
     Orders.timelock := Orders.timelock order;
     Orders.status := Orders.status order;
     Orders.contracts := Orders.contracts order;
     Orders.bitcoinHTLC := Orders.bitcoinHTLC order;
     Orders.monadvmEscrow := Some escrow;
     Orders.transactions :=
       Some {| Orders.bitcoinHTLCFunding := Orders.bitcoinHTLCFunding t;
               Orders.monadvmEscrowCreation := Some (Orders.escrow_txHash escrow);
               Orders.bitcoinHTLCClaim := Orders.bitcoinHTLCClaim t;
               Orders.monadvmEscrowClaim := Orders.monadvmEscrowClaim t |} |}.

(** What [main] does once the order is loaded (lines 105-261).  [s] is
    the chain with the factory of the order, [now] is [Date.now()],
    [txTime] the time stamp of the block that takes the transaction,
    [viewTime] the one that the following [addressOfEscrowSrc] call sees,
    [txHash] the hash of the transaction.  Gas is not counted. *)
Definition escrow (MAKER_ADDRESS : option string) (node : Node)
    (s : BTCEscrowFactory.State) (now txTime viewTime : Z) (txHash : string)
    (orderId : string) (order : Orders.AtomicSwapOrder)
    : Run (Orders.AtomicSwapOrder * BTCEscrowFactory.State) :=
  _ ← throwUnless (WrongStatus (Orders.status order))
        (bool_decide (Orders.status order = Orders.FILLED));
  taker ← match Orders.taker order, Orders.bitcoinHTLC order with
          | Some taker, Some _ => Returns taker
          | _, _ => Throws MissingTakerOrHTLC
          end;
  _ ← throwUnless NetworkMismatch (node_chainId node =? Orders.chainId order);
  maker ← makerSigner MAKER_ADDRESS (node_signers node);
  let makerBalance := Evm.balanceOf (BTCEscrowFactory.chain s) (signer_account maker) in
  _ ← throwUnless MakerMismatch
        (String.eqb (toLowerCase (signer_address maker))
           (toLowerCase (Orders.maker_address (Orders.maker order))));
  let now := now / 1000 in
  let CREATION_FEE := BTCEscrowFactory.creationFee (BTCEscrowFactory.store s) in
  ESCROW_AMOUNT ←
    orThrow NotAnInteger
      (BigInt (Orders.provides_amount (Orders.provides (Orders.maker order))));
  let TOTAL_REQUIRED := ESCROW_AMOUNT + SAFETY_DEPOSIT + CREATION_FEE in
  _ ← throwUnless InsufficientBalance (negb (makerBalance <? TOTAL_REQUIRED));
  let dstWithdrawal := Orders.withdrawalPeriod (Orders.timelock order) in
  let dstPublicWithdrawal := Orders.withdrawalPeriod (Orders.timelock order) * 2 in
  let dstCancellation := Orders.cancellationPeriod (Orders.timelock order) in
  let timelocks := packTimelocks now dstCancellation dstPublicWithdrawal dstWithdrawal in
  makerWord ← orThrow NotAnInteger (BigInt (signer_address maker));
  takerWord ← orThrow NotAnInteger (BigInt (Orders.taker_address taker));
  hashlock ← orThrow ValueOutOfBounds (bytes32 (Orders.hashlock order));
  _ ← throwUnless ValueOutOfBounds
        (isUint256 makerWord && isUint256 takerWord && isUint256 ESCROW_AMOUNT
           && isUint256 timelocks && isUint256 TOTAL_REQUIRED);
  let immutables :=
    immutablesOf orderId hashlock makerWord takerWord ESCROW_AMOUNT timelocks in
  match
    BTCEscrowFactory.createSrcEscrow escrowAddress tokenTransferFrom treasuryAccepts s
      {| Evm.sender := signer_account maker; Evm.value := TOTAL_REQUIRED;
         Evm.timestamp := txTime |}
      immutables
  with
  | Evm.Revert why => Throws (Reverted why)
  | Evm.Success (s', _) =>
      let escrowAddress :=
        BTCEscrowFactory.addressOfEscrowSrc escrowAddress
          {| Evm.sender := signer_account maker; Evm.value := 0;
             Evm.timestamp := viewTime |}
          immutables in
      Returns
        (recordEscrow order
           {| Orders.escrow_address := addressText escrowAddress;
              Orders.escrow_txHash := txHash;
              Orders.escrow_amount := toString ESCROW_AMOUNT;
              Orders.safetyDeposit := toString SAFETY_DEPOSIT;
              Orders.creationFee := toString CREATION_FEE |},
         s')
  end.

(** [main] (lines 79-298). *)
Definition main (env : Orders.Env) (MAKER_ADDRESS : option string) (node : Node)
    (s : BTCEscrowFactory.State) (now txTime viewTime : Z) (txHash : string)
    (files : Orders.OrderFiles)
    : Run Orders.AtomicSwapOrder * Orders.OrderFiles * BTCEscrowFactory.State :=
  match loadOrder env files with
  | Returns (orderId, order) =>
      match escrow MAKER_ADDRESS node s now txTime viewTime txHash orderId order with
      | Returns (order', s') => (Returns order', <[orderId := order']> files, s')
      | Throws why => (Throws why, files, s)
      | Exits code => (Exits code, files, s)
      end
  | Throws why => (Throws why, files, s)
  | Exits code => (Exits code, files, s)
  end.

End with_world.
End MakerEscrow.

(** *** The taker's claim script *)

Module TakerClaim.
Import Scripts.

(** What [main] returns. *)
Record Claimed : Type := {
  claimed_orderId : string;
  ethAmount : string;
  btcAmount : string;
  extractedSecret : string;
  claimTx : option string;
  claimed_order : Orders.AtomicSwapOrder
}.

Section with_world.
Context `{L : BitcoinLib}.

(** The explorer: [btcConfig.rpcUrl] of the configuration file of a
    network, and the body of a successful [fetch] of a URL ([None] when
    the request fails or the response is not ok). *)
Variable rpcUrl : string -> string.
Variable fetch : string -> option string.

(** The Monad side: the time stamp of the block of a transaction ([None]
    when the transaction, its receipt or its block is not found), and
    [escrow.connect(signer).withdraw(secret, immutables)] on the escrow at
    an address, giving the hash of the transaction ([None] when it
    fails). *)
Variable creationTime : string -> option Z.
Variable withdraw :
  string -> Signer -> string -> BTCEscrowFactory.Immutables -> option string.

Variable BigInt : string -> option Z.
Variable keccak256Utf8 : string -> Z.
Variable bytes32 : string -> option Z.

(** Lines 143-197: the secret is the second witness element of the first
    input of the Bitcoin claim; whatever goes wrong on the way, the secret
    of the order file takes its place. *)
Definition extractSecret (order : Orders.AtomicSwapOrder) (bitcoinNetwork : string)
    (bitcoinHTLCClaim : string) : string :=
  let txApiUrl := rpcUrl bitcoinNetwork +:+ "/tx/" +:+ bitcoinHTLCClaim +:+ "/hex" in
  match fetch txApiUrl with
  | Some txHex =>
      match Transaction.fromHex txHex with
      | Some tx =>
          match Transaction.ins tx with
          | input :: _ =>
              match Transaction.witness input with
              | _ :: secretBuffer :: _ => "0x" +:+ toHex secretBuffer
              | _ => Orders.secret order
              end
          | [] => Orders.secret order
          end
      | None => Orders.secret order
      end
  | None => Orders.secret order
  end.

(** The order as the script saves it (lines 339-343). *)
Definition recordEscrowClaim (order : Orders.AtomicSwapOrder) (txHash : string)
    : Orders.AtomicSwapOrder :=
  let t := default Orders.noTransactions (Orders.transactions order) in
  Orders.update order (Orders.status order)
    {| Orders.bitcoinHTLCFunding := Orders.bitcoinHTLCFunding t;
       Orders.monadvmEscrowCreation := Orders.monadvmEscrowCreation t;
       Orders.bitcoinHTLCClaim := Orders.bitcoinHTLCClaim t;
       Orders.monadvmEscrowClaim := Some txHash |}.

(** What [main] does once the order is loaded (lines 98-393). *)
Definition claim (env : Orders.Env) (node : Node) (orderId : string)
    (order : Orders.AtomicSwapOrder) : Run Claimed :=
  _ ← throwUnless (WrongStatus (Orders.status order))
        (bool_decide (Orders.status order = Orders.COMPLETED));
  match Orders.taker order, Orders.bitcoinHTLC order, Orders.monadvmEscrow order with
  | Some taker, Some _, Some monadvmEscrow =>
      bitcoinHTLCClaim ←
        orThrow SecretNotRevealed
          (JsString.truthy (Orders.transactions order ≫= Orders.bitcoinHTLCClaim));
      let bitcoinNetwork :=
        default "testnet4" (JsString.truthy (Orders.BITCOIN_NETWORK env)) in
      _ ← throwUnless BitcoinConfigNotFound (Orders.btcConfigExists env bitcoinNetwork);
      let extractedSecret := extractSecret order bitcoinNetwork bitcoinHTLCClaim in
      let secretBuffer := fromHex (JsString.slice 2 extractedSecret) in
      let calculatedHashlock := "0x" +:+ toHex (sha256 secretBuffer) in
      _ ← throwUnless SecretDoesNotMatch
            (String.eqb calculatedHashlock (Orders.hashlock order));
      signer ← orThrow NoSigner (node_signers node !! 0%nat);
      escrowCreationTime ←
        orThrow CreationTxNotFound (creationTime (Orders.escrow_txHash monadvmEscrow));
      ESCROW_AMOUNT ←
        orThrow NotAnInteger
          (BigInt (Orders.provides_amount (Orders.provides (Orders.maker order))));
      let dstWithdrawal := Orders.withdrawalPeriod (Orders.timelock order) in
      let dstPublicWithdrawal := Orders.withdrawalPeriod (Orders.timelock order) * 2 in
      let dstCancellation := Orders.cancellationPeriod (Orders.timelock order) in
      let timelocks :=
        MakerEscrow.packTimelocks escrowCreationTime dstCancellation dstPublicWithdrawal
          dstWithdrawal in
      makerWord ← orThrow NotAnInteger (BigInt (Orders.maker_address (Orders.maker order)));
      takerWord ← orThrow NotAnInteger (BigInt (Orders.taker_address taker));
      hashlock ← orThrow ValueOutOfBounds (bytes32 (Orders.hashlock order));
      let immutables :=
        MakerEscrow.immutablesOf keccak256Utf8 orderId hashlock makerWord takerWord
          ESCROW_AMOUNT timelocks in
      txHash ←
        orThrow WithdrawFailed
          (withdraw (Orders.escrow_address monadvmEscrow) signer extractedSecret
             immutables);
      let order' := recordEscrowClaim order txHash in
      Returns
        {| claimed_orderId := orderId;
           ethAmount := Orders.provides_amount (Orders.provides (Orders.maker order));
           btcAmount := Orders.wants_amount (Orders.wants (Orders.maker order));
           extractedSecret := extractedSecret;
           claimTx := Orders.transactions order' ≫= Orders.monadvmEscrowClaim;
           claimed_order := order' |}
  | _, _, _ => Throws MissingComponents
  end.

(** [main] (lines 72-394). *)
Definition main (env : Orders.Env) (node : Node) (files : Orders.OrderFiles)
    : Run Claimed * Orders.OrderFiles :=
  match loadOrder env files with
  | Returns (orderId, order) =>
      match claim env node orderId order with
      | Returns result =>
          (Returns result, <[orderId := claimed_order result]> files)
      | Throws why => (Throws why, files)
      | Exits code => (Exits code, files)
      end
  | Throws why => (Throws why, files)
  | Exits code => (Exits code, files)
  end.

End with_world.
End TakerClaim.
(** ** An instance of the library interface for running examples

    Digests are replaced by a fixed-width fold of the input, keys by a
    prefix byte, signatures by the shortest strict DER signature.  The
    instance only serves to evaluate the definitions above on concrete
    inputs; no statement below depends on it except the examples. *)

Module ExampleLib.

Definition fold_digest (width : nat) (b : bytes) : bytes :=
  let s := sumZ (map byte_to_Z b) in
  map (fun i => byte_of_Z (s + Z.of_nat i + Z.of_nat (length b))) (seq 0 width).

Definition derSignature : bytes :=
  [x30; x06; x02; x01; x01; x02; x01; x01; x01].

#[local] Instance lib : BitcoinLib := {|
  sha256 := fold_digest 32;
  hash160 := fold_digest 20;
  publicKeyOf := fun d => if (length d =? 32)%nat then Some (x02 :: d) else None;
  ecdsaSignInput := fun _ _ _ _ => Some derSignature;
  ecdsaSignWitnessV0 := fun _ _ _ _ _ => Some derSignature;
  getFinalScripts := fun input =>
    match bip174.partialSig input with
    | [ps] => Some (Some [], Some (writeVector [bip174.signature ps; bip174.pubkey ps]))
    | _ => None
    end;
  acceptsWitnessProgram := fun _ _ => false
|}.

Definition key : bytes := repeat x11 32.
Definition senderKey : bytes := x02 :: repeat x22 32.
Definition receiverKey : bytes := x02 :: key.
Definition secret : bytes := repeat x00 31 ++ [x01].
Definition fundingTxid : string := toHex (repeat xab 32).

Definition config (segwit : bool) (net : Network.t) : HTLCBuilder.HTLCConfig :=
  {| HTLCBuilder.senderPublicKey := senderKey;
     HTLCBuilder.receiverPublicKey := receiverKey;
     HTLCBuilder.hashlock := sha256 secret;
     HTLCBuilder.locktime := 1700000000;
     HTLCBuilder.network := net;
     HTLCBuilder.useSegwit := Some segwit |}.

Definition destination : Address := Bech32 "tb" 0 (repeat x33 20).

(** A legacy spend: the script-sig pushes a signature, the secret, TRUE
    and a redeem script. *)
Definition legacySpend : Transaction.t :=
  {| Transaction.version := 2; Transaction.locktime := 0;
     Transaction.ins :=
       [{| Transaction.hash := repeat xab 32; Transaction.index := 0;
           Transaction.script :=
             script.compile [script.Data derSignature; script.Data secret;
                             script.Data [x01]; script.Data [x63; x68]];
           Transaction.sequence := Transaction.DEFAULT_SEQUENCE;
           Transaction.witness := [] |}];
     Transaction.outs :=
       [{| Transaction.out_script := [x00; x14] ++ repeat x33 20;
           Transaction.value := 5000 |}] |}.

(** An order that has been through every step, and the environment of a
    taker who runs the funding step again. *)
Definition order (s : Orders.Status) : Orders.AtomicSwapOrder :=
  {| Orders.orderId := "order_1"; Orders.timestamp := 1700000000000;
     Orders.network := "monad"; Orders.chainId := 10143;
     Orders.maker :=
       {| Orders.maker_address := "0xmaker";
          Orders.provides :=
            {| Orders.provides_asset := "ETH"; Orders.provides_amount := "1000";
               Orders.provides_token := None |};
          Orders.wants :=
            {| Orders.wants_asset := "BTC"; Orders.wants_amount := "0.001";
               Orders.wants_address := "tb1qmaker"; Orders.wants_publicKey := "02" |} |};
     Orders.taker :=
       Some {| Orders.taker_address := "0xtaker"; Orders.bitcoinAddress := "tb1qtaker" |};
     Orders.secret := "0x" +:+ toHex secret;
     Orders.hashlock := "0x" +:+ toHex (sha256 secret);
     Orders.timelock :=
       {| Orders.withdrawalPeriod := 0; Orders.cancellationPeriod := 3600 |};
     Orders.status := s;
     Orders.contracts :=
       {| Orders.btcEscrowFactory := "0xfactory"; Orders.accessToken := "0xtoken" |};
     Orders.bitcoinHTLC :=
       Some {| Orders.htlc_address := "tb1qhtlc"; Orders.htlc_scriptHash := "";
               Orders.htlc_amount := "0.001"; Orders.htlc_network := "testnet4";
               Orders.htlc_locktime := 1700003600 |};
     Orders.monadvmEscrow :=
       Some {| Orders.escrow_address := "0xescrow"; Orders.escrow_txHash := "0xtx";
               Orders.escrow_amount := "1000"; Orders.safetyDeposit := "10";
               Orders.creationFee := "1" |};
     Orders.transactions := None |}.

Definition env : Orders.Env :=
  {| Orders.ORDER_ID := Some "order_1"; Orders.argv_last := "taker-fund-htlc-real.ts";
     Orders.BITCOIN_PRIVATE_KEY := Some (toHex key);
     Orders.BITCOIN_ADDRESS := Some "tb1qtaker";
     Orders.BITCOIN_NETWORK := None;
     Orders.htlcBuilderExists := true;
     Orders.btcConfigExists := fun _ => true;
     Orders.htlcOutputDir := ["htlc_1700000000000_testnet4.json"] |}.

End ExampleLib.

(** ** Example inputs for the command-line front end *)

Module ExampleParams.

(** The parameters of the example HTLC as [create-htlc.ts] reads them from
    its configuration file, and the same with a 0x prefix on the
    hashlock. *)
Definition params : HTLCCreator.HTLCParams :=
  {| HTLCCreator.senderPublicKey := toHex ExampleLib.senderKey;
     HTLCCreator.receiverPublicKey := toHex ExampleLib.receiverKey;
     HTLCCreator.hashlock := toHex (@sha256 ExampleLib.lib ExampleLib.secret);
     HTLCCreator.locktime := 1700000000;
     HTLCCreator.network := "testnet4";
     HTLCCreator.useSegwit := true |}.

Definition prefixedParams : HTLCCreator.HTLCParams :=
  {| HTLCCreator.senderPublicKey := toHex ExampleLib.senderKey;
     HTLCCreator.receiverPublicKey := toHex ExampleLib.receiverKey;
     HTLCCreator.hashlock := "0x" +:+ toHex (@sha256 ExampleLib.lib ExampleLib.secret);
     HTLCCreator.locktime := 1700000000;
     HTLCCreator.network := "testnet4";
     HTLCCreator.useSegwit := true |}.

End ExampleParams.

(** ** Example answers of the explorer *)

Module ExampleExplorer.

(** The explorer's rendering of a segwit claim and of the legacy spend
    [ExampleLib.legacySpend]. *)
Definition claimInput : MempoolAPI.Vin :=
  {| MempoolAPI.vin_txid := ExampleLib.fundingTxid; MempoolAPI.vin_vout := 0;
     MempoolAPI.scriptSig :=
       Some {| MempoolAPI.asm := EmptyString; MempoolAPI.hex := EmptyString |};
     MempoolAPI.witness :=
       Some (map toHex
               [ExampleLib.derSignature; ExampleLib.secret; [x01];
                HTLCBuilder.createHTLCScript
                  (ExampleLib.config true networks.testnet)]);
     MempoolAPI.sequence := 4294967295 |}.

Definition claimDetails : MempoolAPI.TransactionDetails :=
  {| MempoolAPI.txid := "claim"; MempoolAPI.vin := [claimInput];
     MempoolAPI.status :=
       {| MempoolAPI.confirmed := true; MempoolAPI.block_height := Some 100 |} |}.

Definition legacyScriptSig : bytes :=
  script.compile [script.Data ExampleLib.derSignature; script.Data ExampleLib.secret;
                  script.Data [x01]; script.Data [x63; x68]].

Definition legacyInput : MempoolAPI.Vin :=
  {| MempoolAPI.vin_txid := ExampleLib.fundingTxid; MempoolAPI.vin_vout := 0;
     MempoolAPI.scriptSig :=
       Some {| MempoolAPI.asm := EmptyString; MempoolAPI.hex := toHex legacyScriptSig |};
     MempoolAPI.witness := None;
     MempoolAPI.sequence := 4294967295 |}.

Definition legacyDetails : MempoolAPI.TransactionDetails :=
  {| MempoolAPI.txid := "legacy"; MempoolAPI.vin := [legacyInput];
     MempoolAPI.status :=
       {| MempoolAPI.confirmed := true; MempoolAPI.block_height := Some 100 |} |}.

End ExampleExplorer.

(** ** Example input for the reverse claim *)

Module ExampleReverse.

(** The HTLC file of the example HTLC as [claim-htlc-reverse.ts] reads
    it, and an explorer that knows one funding output of 100000
    satoshis. *)
Definition htlcConfig : ClaimReverse.HTLCConfig :=
  {| ClaimReverse.address := Bech32 "tb" 0 (@sha256 ExampleLib.lib [x01]);
     ClaimReverse.scriptHash := EmptyString;
     ClaimReverse.amount := "0.001";
     ClaimReverse.network := "testnet4";
     ClaimReverse.locktime := 1700000000;
     ClaimReverse.senderPublicKey := toHex ExampleLib.senderKey;
     ClaimReverse.receiverPublicKey := toHex ExampleLib.receiverKey;
     ClaimReverse.hashlock := toHex (@sha256 ExampleLib.lib ExampleLib.secret);
     ClaimReverse.witnessScript :=
       Some (toHex (HTLCBuilder.createHTLCScript
                      (ExampleLib.config true networks.testnet))) |}.

Definition fetchFundingOutputs (txid : string) : option (list Z) :=
  if String.eqb txid ExampleLib.fundingTxid then Some [100000] else None.

End ExampleReverse.

(** ** An example chain state for the factory *)

Module ExampleChain.
Import Evm BTCEscrowFactory.

(** The factory at address 1000 with a fee of 0.001 ether and a treasury;
    a maker at address 5 holding one ether. *)
Definition factoryStorage : Storage :=
  {| this := 1000; owner := 1;
     BTC_ESCROW_SRC_IMPLEMENTATION := 1001; BTC_ESCROW_DST_IMPLEMENTATION := 1002;
     creationFee := 1000000000000000; treasury := 2;
     bitcoinConfig :=
       {| minConfirmations := 1; dustThreshold := 546; maxAmount := 100000000000 |} |}.

Definition state : State :=
  {| chain := {| balances := {[ 5 := 1000000000000000000 ]};
                 deployed := {[ 1000; 1001; 1002 ]} |};
     store := factoryStorage |}.

Definition immutables : Immutables :=
  {| orderHash := 77; hashlock := 88; maker := 5; taker := 6; token := 0;
     amount := 10000000000000000; safetyDeposit := 1000000000000000;
     timelocks := 0 |}.

Definition escrowAddress (k : Kind) (i : Immutables) (now : Z) : address :=
  2000 + orderHash i + (match k with Src => 0 | Dst => 1 end).

Definition call (v : Z) : Msg := {| sender := 5; value := v; timestamp := 1700000000 |}.

End ExampleChain.

(** ** An example run of the order scripts *)

Module ExampleFlow.
Import Scripts.

Definition makerSigner : Signer :=
  {| signer_address := "0xF39FD6E51AAD88F6F4CE6AB8827279CFFFB92266"; signer_account := 5 |}.

Definition takerSigner : Signer :=
  {| signer_address := "0x70997970C51812DC3A010C7D01B50E0D17DC79C8"; signer_account := 6 |}.

Definition node : Node :=
  {| node_chainId := 31337; node_signers := [makerSigner; takerSigner] |}.

(** The order that [create-order-immediate.ts] writes for the example
    secret. *)
Definition orderId : string := "order_1700000000000".

Definition order : Orders.AtomicSwapOrder :=
  {| Orders.orderId := orderId;
     Orders.timestamp := 1700000000001;
     Orders.network := "hardhat";
     Orders.chainId := 31337;
     Orders.maker :=
       {| Orders.maker_address := signer_address makerSigner;
          Orders.provides :=
            {| Orders.provides_asset := "ETH";
               Orders.provides_amount := "10000000000000000";
               Orders.provides_token := None |};
          Orders.wants :=
            {| Orders.wants_asset := "BTC";
               Orders.wants_amount := "0.001";
               Orders.wants_address := "tb1qw04epl2mtg7un7a7dle8qzhs7we0s4u2gf5jqp";
               Orders.wants_publicKey :=
                 "02757f19d8c1ac3875a20d544a090da2590288df9b3adf6bb9cba7a0ce75374008"
            |} |};
     Orders.taker := None;
     Orders.secret := "0x" +:+ toHex ExampleLib.secret;
     Orders.hashlock := "0x" +:+ toHex (@sha256 ExampleLib.lib ExampleLib.secret);
     Orders.timelock :=
       {| Orders.withdrawalPeriod := 0; Orders.cancellationPeriod := 3600 |};
     Orders.status := Orders.CREATED;
     Orders.contracts :=
       {| Orders.btcEscrowFactory := "0x9c4da3F640f194E187eE263A3e16404f9af70761";
          Orders.accessToken := "0xa2Ba2AdeFFf8059faAa066d6050aF70C4e5A6ccD" |};
     Orders.bitcoinHTLC := None;
     Orders.monadvmEscrow := None;
     Orders.transactions := None |}.

Definition files : Orders.OrderFiles := {[ orderId := order ]}.

(** The taker's environment. *)
Definition env (bitcoinNetwork : option string) : Orders.Env :=
  {| Orders.ORDER_ID := Some orderId;
     Orders.argv_last := "scripts/taker-fill.ts";
     Orders.BITCOIN_PRIVATE_KEY := Some "cTakerKeyInWalletImportFormat";
     Orders.BITCOIN_ADDRESS := Some "tb1qtaker";
     Orders.BITCOIN_NETWORK := bitcoinNetwork;
     Orders.htlcBuilderExists := true;
     Orders.btcConfigExists := fun _ => true;
     Orders.htlcOutputDir := [] |}.

Definition fromWIF (text : string) (network : Network.t) : option ECPair.t :=
  if String.eqb text "cTakerKeyInWalletImportFormat" then
    Some {| ECPair.privateKey := ExampleLib.key; ECPair.publicKey := ExampleLib.senderKey |}
  else None.

(** A stand-in for the text of an address: the hex of its payload. *)
Definition addressText (a : Address) : string :=
  match a with
  | Base58Check _ payload => toHex payload
  | Bech32 prefix _ program => prefix +:+ "1" +:+ toHex program
  | Malformed text => text
  end.

(** An HTLC file left in [btc/output] by an earlier swap. *)
Definition earlierHTLC : HTLCCreator.HTLCResult :=
  {| HTLCCreator.address := Bech32 "tb" 0 (repeat x77 32);
     HTLCCreator.redeemScript := "51";
     HTLCCreator.scriptHash := toHex (repeat x77 32);
     HTLCCreator.witnessScript := Some "51"%string;
     HTLCCreator.lockingScript := toHex ([x00; x20] ++ repeat x77 32);
     HTLCCreator.config := ExampleParams.params |}.

Definition earlierDir : list (string * HTLCCreator.HTLCResult) :=
  [("htlc_1690000000000_testnet4.json"%string, earlierHTLC)].

End ExampleFlow.

(** ** An example run of [maker-escrow.ts] *)

Module ExampleEscrow.
Import Scripts.

(** The example order after the taker has filled it. *)
Definition filledOrder : Orders.AtomicSwapOrder :=
  TakerFill.filled ExampleFlow.addressText ExampleFlow.order ExampleFlow.takerSigner
    "tb1qtaker" "testnet4" ExampleFlow.earlierHTLC 1700003700.

Definition files : Orders.OrderFiles := {[ ExampleFlow.orderId := filledOrder ]}.

Definition env : Orders.Env :=
  {| Orders.ORDER_ID := Some ExampleFlow.orderId;
     Orders.argv_last := "scripts/maker-escrow.ts";
     Orders.BITCOIN_PRIVATE_KEY := None;
     Orders.BITCOIN_ADDRESS := None;
     Orders.BITCOIN_NETWORK := None;
     Orders.htlcBuilderExists := true;
     Orders.btcConfigExists := fun _ => true;
     Orders.htlcOutputDir := [] |}.

(** Stand-ins for the built-ins: decimal texts and the two signer
    addresses are read, a hashlock text is taken by its length. *)
Definition BigInt (text : string) : option Z :=
  if String.eqb text (signer_address ExampleFlow.makerSigner) then Some 5
  else if String.eqb text (signer_address ExampleFlow.takerSigner) then Some 6
  else Z.of_int <$> DecimalString.NilZero.int_of_string text.

Definition keccak256Utf8 (text : string) : Z := Z.of_nat (String.length text).

Definition bytes32 (text : string) : option Z :=
  if (String.length text =? 66)%nat then Some 88 else None.

Definition addressText (a : Evm.address) : string := "0x" +:+ toString a.

End ExampleEscrow.

(** ** An example run of the taker's claim script *)

Module ExampleClaim.
Import Scripts.

(** The example order after the maker's escrow, the funding and the
    maker's Bitcoin claim. *)
Definition completedOrder : Orders.AtomicSwapOrder :=
  Orders.recordClaim
    (Orders.recordFunding
       (MakerEscrow.recordEscrow ExampleEscrow.filledOrder
          {| Orders.escrow_address := "0x2019";
             Orders.escrow_txHash := "0xabc";
             Orders.escrow_amount := "10000000000000000";
             Orders.safetyDeposit := "1000000000000000";
             Orders.creationFee := "1000000000000000" |})
       "fundingtxid")
    "claimtxid".

Definition files : Orders.OrderFiles := {[ ExampleFlow.orderId := completedOrder ]}.

Definition rpcUrl (network : string) : string := "https://mempool.space/testnet4/api".

(** An explorer that is down, and one that serves the example claim. *)
Definition fetchNothing (url : string) : option string := None.

Definition claimTransaction : option HTLCBuilder.HTLCTransaction :=
  match
    @HTLCBuilder.createClaimTransaction ExampleLib.lib
      (ExampleLib.config true networks.testnet) ExampleLib.fundingTxid 0 100000
      ExampleLib.secret ExampleLib.destination 10 ExampleLib.key
  with
  | Ok r => Some r
  | Err _ => None
  end.

Definition fetchClaim (url : string) : option string :=
  HTLCBuilder.hex <$> claimTransaction.

Definition creationTime (txHash : string) : option Z :=
  if String.eqb txHash "0xabc" then Some 1700000212 else None.

Definition withdraw (escrow : string) (signer : Signer) (secret : string)
    (immutables : BTCEscrowFactory.Immutables) : option string :=
  Some "0xdef"%string.

End ExampleClaim.
Lemma byte_to_Z_range (b : byte) : 0 <= byte_to_Z b < 256.
Proof.
  unfold byte_to_Z. pose proof (Byte.to_N_bounded b). lia.
Qed.

Lemma byte_of_to_Z (b : byte) : byte_of_Z (byte_to_Z b) = b.
Proof.
  unfold byte_of_Z. rewrite Z.mod_small by apply byte_to_Z_range.
  unfold byte_to_Z. rewrite N2Z.id, Byte.of_to_N. reflexivity.
Qed.

Lemma byte_to_of_Z_mod (z : Z) : byte_to_Z (byte_of_Z z) = z mod 256.
Proof.
  pose proof (Z.mod_pos_bound z 256 ltac:(lia)) as Hm.
  unfold byte_of_Z, byte_to_Z.
  destruct (Byte.of_N (Z.to_N (z mod 256))) as [b|] eqn:E; simpl.
  - apply Byte.to_of_N in E. lia.
  - apply Byte.of_N_None_iff in E. lia.
Qed.

Lemma byte_to_of_Z (z : Z) : 0 <= z < 256 -> byte_to_Z (byte_of_Z z) = z.
Proof. intros Hz. rewrite byte_to_of_Z_mod. apply Z.mod_small, Hz. Qed.

Lemma byte_to_Z_inj (a b : byte) : byte_to_Z a = byte_to_Z b -> a = b.
Proof.
  intros H. rewrite <- (byte_of_to_Z a), <- (byte_of_to_Z b), H. reflexivity.
Qed.

Lemma hex_pair_of_byte (b : byte) :
  hex_pair (hex_char (byte_to_Z b / 16)) (hex_char (byte_to_Z b mod 16)) = Some b.
Proof. destruct b; reflexivity. Qed.

Lemma fromHex_toHex (b : bytes) : fromHex (toHex b) = b.
Proof.
  induction b as [|x r IH]; simpl; [reflexivity|].
  rewrite hex_pair_of_byte, IH. reflexivity.
Qed.

Lemma toHex_inj (a b : bytes) : toHex a = toHex b -> a = b.
Proof.
  intros H. rewrite <- (fromHex_toHex a), <- (fromHex_toHex b), H. reflexivity.
Qed.

(** ** Numbers *)

Lemma roundHalfEven_comp (q q' : Q) :
  (q == q')%Q -> Number.roundHalfEven q = Number.roundHalfEven q'.
Proof.
  intros E. unfold Number.roundHalfEven.
  rewrite (Qfloor_comp _ _ E).
  assert (E' : (q - inject_Z (Qfloor q') == q' - inject_Z (Qfloor q'))%Q)
    by (rewrite E; reflexivity).
  rewrite (Qcompare_comp _ _ E' (1 # 2) (1 # 2) (Qeq_refl _)). reflexivity.
Qed.

Lemma roundHalfEven_Z (z : Z) : Number.roundHalfEven (inject_Z z) = z.
Proof.
  unfold Number.roundHalfEven. rewrite Qfloor_Z.
  assert (E : (inject_Z z - inject_Z z ?= 1 # 2)%Q = Lt).
  { assert (E0 : (inject_Z z - inject_Z z == 0)%Q) by ring.
    rewrite (Qcompare_comp _ _ E0 (1 # 2) (1 # 2) (Qeq_refl _)). reflexivity. }
  rewrite E. reflexivity.
Qed.

Lemma ilog2_Z (z : Z) : z <> 0 -> Number.ilog2 (inject_Z z) = Z.log2 (Z.abs z).
Proof.
  intros Hz. unfold Number.ilog2. cbn [Qnum Qden inject_Z].
  change (Z.log2 1) with 0. rewrite Z.sub_0_r.
  assert (H : Qle_bool (Qpower 2 (Z.log2 (Z.abs z))) (Qabs (inject_Z z)) = true).
  { apply Qle_bool_iff.
    assert (Hlog : 0 <= Z.log2 (Z.abs z)) by apply Z.log2_nonneg.
    change 2%Q with (inject_Z 2). rewrite <- Zpower_Qpower by exact Hlog.
    change (Qabs (inject_Z z)) with (inject_Z (Z.abs z)).
    rewrite <- Zle_Qle. apply Z.log2_spec. lia. }
  rewrite H. reflexivity.
Qed.

(** A product of integers below 2^53 is exact. *)
Lemma mul_integers (a b : Z) :
  Z.abs (a * b) < 2 ^ 53 ->
  (Number.mul (inject_Z a) (inject_Z b) == inject_Z (a * b))%Q.
Proof.
  intros Hlt. unfold Number.mul.
  assert (Eprod : (inject_Z a * inject_Z b)%Q = inject_Z (a * b)).
  { unfold inject_Z, Qmult. cbn. reflexivity. }
  rewrite Eprod. set (z := a * b) in *. clearbody z.
  unfold Number.round.
  destruct (Z.eq_dec z 0) as [-> | Hz]; [reflexivity|].
  assert (Hne : Qeq_bool (inject_Z z) 0 = false).
  { apply not_true_is_false. intros E. apply Qeq_bool_eq in E.
    unfold Qeq in E. cbn in E. lia. }
  rewrite Hne. rewrite ilog2_Z by exact Hz.
  assert (Hlog : 0 <= Z.log2 (Z.abs z) <= 52).
  { split; [apply Z.log2_nonneg|].
    assert (Z.log2 (Z.abs z) < 53); [|lia].
    apply Z.log2_lt_pow2; lia. }
  set (k := Z.log2 (Z.abs z)) in *.
  rewrite Z.max_l by lia.
  assert (Epow : (Qpower 2 (k - 52) == / inject_Z (2 ^ (52 - k)))%Q).
  { replace (k - 52) with (- (52 - k)) by lia.
    rewrite Qpower_opp. change 2%Q with (inject_Z 2).
    rewrite <- Zpower_Qpower by lia. reflexivity. }
  assert (Hpos : ~ (inject_Z (2 ^ (52 - k)) == 0)%Q).
  { intros E. unfold Qeq in E. cbn [Qnum Qden inject_Z] in E.
    assert (0 < 2 ^ (52 - k)) by (apply Z.pow_pos_nonneg; lia). lia. }
  assert (Ediv : (inject_Z z / Qpower 2 (k - 52) == inject_Z (z * 2 ^ (52 - k)))%Q).
  { rewrite Epow. rewrite inject_Z_mult. field. exact Hpos. }
  rewrite (roundHalfEven_comp _ _ Ediv), roundHalfEven_Z.
  rewrite Epow, inject_Z_mult. field. exact Hpos.
Qed.

Lemma ceil_mul_integers (a b : Z) :
  Z.abs (a * b) < 2 ^ 53 ->
  Math_ceil (Number.mul (inject_Z a) (inject_Z b)) = a * b.
Proof.
  intros H. unfold Math_ceil.
  rewrite (Qceiling_comp _ _ (mul_integers a b H)). apply Qceiling_Z.
Qed.

Lemma le_bytes_length (n : nat) (v : Z) : length (le_bytes n v) = n.
Proof. revert v. induction n as [|n IH]; intros v; simpl; [|rewrite IH]; reflexivity. Qed.

Lemma le_value_bytes (n : nat) (v : Z) :
  0 <= v < 256 ^ Z.of_nat n -> le_value (le_bytes n v) = v.
Proof.
  revert v. induction n as [|n IH]; intros v Hv.
  - simpl in *. lia.
  - cbn [le_bytes le_value].
    rewrite Nat2Z.inj_succ, Z.pow_succ_r in Hv by lia.
    rewrite IH.
    + rewrite byte_to_of_Z_mod.
      rewrite (Z.div_mod v 256) at 3 by lia. lia.
    + split; [apply Z.div_pos; lia|].
      apply Z.div_lt_upper_bound; lia.
Qed.

Lemma le_value_range (b : bytes) : 0 <= le_value b < 256 ^ Z.of_nat (length b).
Proof.
  induction b as [|x r IH].
  - simpl. lia.
  - cbn [le_value length]. rewrite Nat2Z.inj_succ, Z.pow_succ_r by lia.
    pose proof (byte_to_Z_range x). lia.
Qed.

Section reader_lemmas.

Lemma readSlice_app (s rest : bytes) :
  readSlice (length s) (s ++ rest) = Some (s, rest).
Proof.
  unfold readSlice. rewrite decide_True by (rewrite length_app; lia).
  rewrite take_app_length, drop_app_length. reflexivity.
Qed.

Lemma sliceTruncating_app (s rest : bytes) :
  sliceTruncating (length s) (s ++ rest) = Some (s, rest).
Proof.
  unfold sliceTruncating. rewrite take_app_length, drop_app_length. reflexivity.
Qed.

Lemma readUIntLE_app (n : nat) (v : Z) (rest : bytes) :
  0 <= v < 256 ^ Z.of_nat n ->
  readUIntLE n (le_bytes n v ++ rest) = Some (v, rest).
Proof.
  intros Hv. unfold readUIntLE.
  rewrite <- (le_bytes_length n v) at 1. rewrite readSlice_app. simpl.
  rewrite le_value_bytes by assumption. reflexivity.
Qed.

Lemma readUInt32_app (v : Z) (rest : bytes) :
  0 <= v < 2 ^ 32 -> readUInt32 (writeUInt32 v ++ rest) = Some (v, rest).
Proof. intros Hv. apply readUIntLE_app. simpl. lia. Qed.

Lemma readUInt64_app (v : Z) (rest : bytes) :
  0 <= v <= MAX_SAFE_INTEGER -> readUInt64 (writeUInt64 v ++ rest) = Some (v, rest).
Proof.
  intros Hv. unfold readUInt64, writeUInt64, MAX_SAFE_INTEGER in *.
  rewrite readUIntLE_app by (simpl; lia). simpl.
  destruct (Z.leb_spec v (2 ^ 53 - 1)); [reflexivity|lia].
Qed.

Lemma readInt32_app (v : Z) (rest : bytes) :
  0 <= v < 2 ^ 31 -> readInt32 (writeInt32 v ++ rest) = Some (v, rest).
Proof.
  intros Hv. unfold readInt32, writeInt32.
  rewrite readUIntLE_app by (simpl; lia). simpl.
  destruct (Z.ltb_spec v (2 ^ 31)); [reflexivity|lia].
Qed.

Lemma readVarInt_app (n : Z) (rest : bytes) :
  0 <= n <= MAX_SAFE_INTEGER ->
  readVarInt (varuint.encode n ++ rest) = Some (n, rest).
Proof.
  intros Hn. unfold readVarInt, varuint.decode, varuint.encode, MAX_SAFE_INTEGER in *.
  destruct (Z.ltb_spec n 253).
  - simpl. rewrite byte_to_of_Z by lia. simpl.
    destruct (Z.ltb_spec n 253); [reflexivity|lia].
  - destruct (Z.leb_spec n 65535); [|destruct (Z.leb_spec n 4294967295)].
    + cbn -[le_bytes readUIntLE Z.pow]. apply readUIntLE_app. simpl. lia.
    + cbn -[le_bytes readUIntLE Z.pow]. apply readUIntLE_app. simpl. lia.
    + cbn -[le_bytes readUIntLE Z.pow]. rewrite readUIntLE_app by (simpl; lia).
      simpl. destruct (Z.leb_spec n (2 ^ 53 - 1)); [reflexivity|lia].
Qed.

(** Below 253 the encoding is the single byte that the builder's own
    finalizers write. *)
Lemma varuint_encode_small (n : Z) : n < 253 -> varuint.encode n = [byte_of_Z n].
Proof.
  intros Hn. unfold varuint.encode. destruct (Z.ltb_spec n 253); [reflexivity|lia].
Qed.

Lemma readVarSlice_app (s rest : bytes) :
  Z.of_nat (length s) <= MAX_SAFE_INTEGER ->
  readVarSlice (writeVarSlice s ++ rest) = Some (s, rest).
Proof.
  intros Hs. unfold readVarSlice, writeVarSlice.
  rewrite <- app_assoc, readVarInt_app by lia. simpl.
  rewrite Nat2Z.id. apply readSlice_app.
Qed.

Lemma psbtReadVarSlice_app (s rest : bytes) :
  Z.of_nat (length s) <= MAX_SAFE_INTEGER ->
  psbtReadVarSlice (writeVarSlice s ++ rest) = Some (s, rest).
Proof.
  intros Hs. unfold psbtReadVarSlice, writeVarSlice.
  rewrite <- app_assoc, readVarInt_app by lia. simpl.
  rewrite Nat2Z.id. apply sliceTruncating_app.
Qed.

Lemma read_many_app {A : Type} (r : Reader A) (w : A -> bytes) (xs : list A)
    (rest : bytes) :
  Forall (fun x => forall rest', r (w x ++ rest') = Some (x, rest')) xs ->
  read_many (length xs) r (concat (map w xs) ++ rest) = Some (xs, rest).
Proof.
  induction 1 as [|x xs Hx _ IH]; simpl; [reflexivity|].
  rewrite <- app_assoc, Hx. simpl. rewrite IH. reflexivity.
Qed.

Lemma readVector_app (v : list bytes) (rest : bytes) :
  Z.of_nat (length v) <= MAX_SAFE_INTEGER ->
  Forall (fun s => Z.of_nat (length s) <= MAX_SAFE_INTEGER) v ->
  readVector (writeVector v ++ rest) = Some (v, rest).
Proof.
  intros Hv Hs. unfold readVector, writeVector.
  rewrite <- app_assoc, readVarInt_app by lia. simpl.
  rewrite Nat2Z.id. apply read_many_app.
  eapply Forall_impl; [exact Hs|]. intros s Hl rest'. apply readVarSlice_app, Hl.
Qed.

Lemma scriptWitnessToWitnessStack_writeVector (v : list bytes) :
  Z.of_nat (length v) <= MAX_SAFE_INTEGER ->
  Forall (fun s => Z.of_nat (length s) <= MAX_SAFE_INTEGER) v ->
  scriptWitnessToWitnessStack (writeVector v) = Some v.
Proof.
  intros Hv Hs. unfold scriptWitnessToWitnessStack, writeVector.
  rewrite readVarInt_app by lia. simpl. rewrite Nat2Z.id.
  rewrite <- (app_nil_r (concat _)).
  rewrite (read_many_app psbtReadVarSlice writeVarSlice v []); [reflexivity|].
  eapply Forall_impl; [exact Hs|]. intros s Hl rest'. apply psbtReadVarSlice_app, Hl.
Qed.

End reader_lemmas.
Section script_lemmas.
Import script.

Lemma compile_app (a b : list Chunk) : compile (a ++ b) = compile a ++ compile b.
Proof. unfold compile. rewrite map_app, concat_app. reflexivity. Qed.

Lemma compile_cons (c : Chunk) (r : list Chunk) :
  compile (c :: r) = compile_chunk c ++ compile r.
Proof. reflexivity. Qed.

Lemma pushdata_encode_length (size : Z) :
  (length (pushdata.encode size) <= 5)%nat.
Proof.
  unfold pushdata.encode.
  repeat match goal with |- context [if ?c then _ else _] => destruct c end;
    simpl; lia.
Qed.

Lemma pushdata_encode_short (size : Z) :
  size < 76 -> length (pushdata.encode size) = 1%nat.
Proof.
  intros H. unfold pushdata.encode, OPS.OP_PUSHDATA1.
  destruct (Z.ltb_spec size 76); [reflexivity|lia].
Qed.

Lemma compile_chunk_data_length (d : bytes) :
  (length d < 76)%nat -> (length (compile_chunk (Data d)) <= 1 + length d)%nat.
Proof.
  intros H. simpl. destruct (asMinimalOP d); simpl; [lia|].
  rewrite length_app, pushdata_encode_short by lia. lia.
Qed.

Lemma number_loop_length (size : nat) (value : Z) :
  length (number_loop size value) = size.
Proof.
  revert value. induction size as [|k IH]; intros value; simpl; [|rewrite IH]; reflexivity.
Qed.

Lemma scriptNumSize_le (i : Z) : (scriptNumSize i <= 5)%nat.
Proof.
  unfold scriptNumSize.
  repeat match goal with |- context [if ?c then _ else _] => destruct c end; lia.
Qed.

Lemma number_encode_length (n : Z) : (length (number_encode n) <= 5)%nat.
Proof.
  unfold number_encode. pose proof (scriptNumSize_le (Z.abs n)) as Hs.
  destruct (scriptNumSize (Z.abs n)) as [|k] eqn:E; [simpl; lia|].
  repeat match goal with |- context [if ?c then _ else _] => destruct c end;
    rewrite ?length_insert, number_loop_length; lia.
Qed.

Lemma bip66_check_length (buffer : bytes) :
  bip66_check buffer = true -> (8 <= length buffer <= 72)%nat.
Proof.
  unfold bip66_check.
  destruct (Nat.ltb_spec (length buffer) 8); [discriminate|].
  destruct (Nat.ltb_spec 72 (length buffer)); [discriminate|]. lia.
Qed.

Lemma signature_decode_length (buffer : bytes) :
  signature_decode buffer = true -> (9 <= length buffer <= 73)%nat.
Proof.
  unfold signature_decode. destruct (last buffer) as [h|] eqn:E; [|discriminate].
  destruct (_ || _); [discriminate|]. intros H%bip66_check_length.
  rewrite length_take in H. lia.
Qed.

(** The rounds of [decompile] never run out: any fuel from the buffer
    length on gives the same chunks. *)
Lemma decompile_loop_fuel (fuel : nat) (buffer : bytes) :
  (length buffer <= fuel)%nat ->
  decompile_loop fuel buffer = decompile_loop (length buffer) buffer.
Proof.
  revert fuel. induction buffer as [buffer IH] using (induction_ltof1 _ (@length byte)).
  unfold ltof in IH. intros fuel Hf.
  destruct buffer as [|b rest]; [destruct fuel; reflexivity|].
  destruct fuel as [|fuel]; [simpl in Hf; lia|].
  cbn [length decompile_loop]. simpl in Hf.
  destruct (_ && _).
  - destruct (pushdata.decode (byte_to_Z b) rest) as [[number rest']|] eqn:Ed;
      [|reflexivity]. cbn [mbind option_bind].
    assert (length rest' <= length rest)%nat as Hr'.
    { unfold pushdata.decode in Ed.
      repeat match type of Ed with
             | (if ?c then _ else _) = _ => destruct c
             end; try (injection Ed as <- <-; lia);
      unfold readUIntLE, readSlice in Ed;
      match type of Ed with context [decide ?P] => destruct (decide P) end;
      try discriminate; injection Ed as <- <-; rewrite length_drop; lia. }
    destruct (readSlice (Z.to_nat number) rest') as [[data rest'']|] eqn:Es;
      [|reflexivity]. cbn [mbind option_bind].
    assert (length rest'' <= length rest')%nat as Hr''.
    { unfold readSlice in Es. destruct (decide _); [|discriminate].
      injection Es as <- <-. rewrite length_drop. lia. }
    rewrite (IH rest'' ltac:(simpl; lia) fuel ltac:(lia)).
    rewrite (IH rest'' ltac:(simpl; lia) (length rest) ltac:(lia)). reflexivity.
  - rewrite (IH rest ltac:(simpl; lia) fuel ltac:(lia)). reflexivity.
Qed.

End script_lemmas.
Section transaction_lemmas.
Import Transaction.

Lemma read_many_app_map {A : Type} (r : Reader A) (w : A -> bytes) (f : A -> A)
    (xs : list A) (rest : bytes) :
  Forall (fun x => forall rest', r (w x ++ rest') = Some (f x, rest')) xs ->
  read_many (length xs) r (concat (map w xs) ++ rest) = Some (map f xs, rest).
Proof.
  induction 1 as [|x xs Hx _ IH]; simpl; [reflexivity|].
  rewrite <- app_assoc, Hx. simpl. rewrite IH. reflexivity.
Qed.

Lemma readInput_app (i : Input) (rest : bytes) :
  wf_input i ->
  readInput (writeInput i ++ rest) = Some (set_witness i [], rest).
Proof.
  intros [Hh Hi Hq Hs _ _]. unfold readInput, writeInput.
  rewrite <- !app_assoc. rewrite <- Hh at 1. rewrite readSlice_app.
  cbn [mbind option_bind]. rewrite readUInt32_app by assumption.
  cbn [mbind option_bind]. rewrite readVarSlice_app by assumption.
  cbn [mbind option_bind]. rewrite readUInt32_app by assumption.
  reflexivity.
Qed.

Lemma readOutput_app (o : Output) (rest : bytes) :
  wf_output o -> readOutput (writeOutput o ++ rest) = Some (o, rest).
Proof.
  intros [Hv Hs]. unfold readOutput, writeOutput.
  rewrite <- !app_assoc. rewrite readUInt64_app by assumption.
  cbn [mbind option_bind]. rewrite readVarSlice_app by assumption.
  destruct o; reflexivity.
Qed.

Lemma zip_set_witness (l : list Input) :
  zip_with set_witness (map (fun i => set_witness i []) l) (map witness l) = l.
Proof.
  induction l as [|i l IH]; simpl; [reflexivity|].
  rewrite IH. destruct i; reflexivity.
Qed.

Lemma forallb_witness_empty (l : list Input) :
  forallb witness_empty l = negb (existsb (fun i => negb (witness_empty i)) l).
Proof.
  induction l as [|i l IH]; simpl; [reflexivity|].
  rewrite IH. destruct (witness_empty i); reflexivity.
Qed.

(** A transaction that carries a witness is read back from its own
    serialization. *)
Lemma fromBuffer_toBuffer (tx : t) :
  wf tx -> hasWitnesses tx = true -> fromBuffer (toBuffer tx) = Some tx.
Proof.
  intros [Hver Hlock Hnin Hnout Hins Houts] Hw.
  unfold fromBuffer, toBuffer, toBuffer_. rewrite Hw. cbn [andb].
  rewrite readInt32_app by assumption. cbn [mbind option_bind app readUInt8].
  change (byte_to_Z x00) with 0. change (byte_to_Z x01) with 1.
  cbn [Z.eqb andb Pos.eqb].
  rewrite readVarInt_app by lia. cbn [mbind option_bind].
  rewrite Nat2Z.id.
  rewrite (read_many_app_map readInput writeInput (fun i => set_witness i []));
    [|eapply Forall_impl; [exact Hins|]; intros i Hi rest'; apply readInput_app, Hi].
  cbn [mbind option_bind].
  rewrite readVarInt_app by lia. cbn [mbind option_bind].
  rewrite Nat2Z.id.
  rewrite (read_many_app readOutput writeOutput);
    [|eapply Forall_impl; [exact Houts|]; intros o Ho rest'; apply readOutput_app, Ho].
  cbn [mbind option_bind]. rewrite length_map.
  rewrite <- (length_map witness (ins tx)).
  rewrite <- (map_map witness writeVector (ins tx)).
  rewrite (read_many_app readVector writeVector).
  2:{ apply Forall_map. eapply Forall_impl; [exact Hins|].
      intros i [_ _ _ _ Hc Hi] rest'. apply readVector_app; assumption. }
  cbn [mbind option_bind]. rewrite zip_set_witness.
  rewrite forallb_witness_empty. unfold hasWitnesses in Hw. rewrite Hw.
  cbn [negb]. rewrite <- (app_nil_r (writeUInt32 _)). cbn [mbind option_bind].
  rewrite readUInt32_app by assumption. cbn [mbind option_bind].
  destruct tx; reflexivity.
Qed.

Lemma fromHex_toHex_tx (tx : t) :
  wf tx -> hasWitnesses tx = true -> Transaction.fromHex (Transaction.toHex tx) = Some tx.
Proof.
  intros Hwf Hw. unfold Transaction.fromHex, Transaction.toHex.
  rewrite fromHex_toHex. apply fromBuffer_toBuffer; assumption.
Qed.

End transaction_lemmas.
(** ** The Result monad *)

Lemma bind_Ok_inv {A B : Type} (m : Result A) (f : A -> Result B) (b : B) :
  m ≫= f = Ok b -> exists a, m = Ok a /\ f a = Ok b.
Proof. destruct m as [a|e]; [eauto|discriminate]. Qed.

Lemma orThrow_Ok_inv {A : Type} (e : Error) (o : option A) (a : A) :
  orThrow e o = Ok a -> o = Some a.
Proof. destruct o; simpl; congruence. Qed.

Lemma check_Ok_inv (e : Error) (b : bool) (u : unit) : check e b = Ok u -> b = true.
Proof. destruct b; simpl; congruence. Qed.

(** Decomposes a hypothesis [x ← m; k = Ok r] into [m = Ok x] and
    [k = Ok r]. *)
Ltac inv_bind H :=
  let x := fresh "x" in
  let E := fresh "E" in
  apply bind_Ok_inv in H; destruct H as (x & E & H).

(** ** The HTLC script and its witness *)

Section builder_lemmas.
Import script HTLCBuilder.

Lemma asMinimalOP_long (d : bytes) : (2 <= length d)%nat -> asMinimalOP d = None.
Proof. destruct d as [|a [|b d]]; simpl; intros; [lia|lia|reflexivity]. Qed.

Lemma compile_chunk_data_long (d : bytes) :
  (2 <= length d < 76)%nat ->
  compile_chunk (Data d) = byte_of_Z (Z.of_nat (length d)) :: d.
Proof.
  intros Hd. simpl. rewrite asMinimalOP_long by lia.
  unfold pushdata.encode, OPS.OP_PUSHDATA1.
  destruct (Z.ltb_spec (Z.of_nat (length d)) 76); [reflexivity|lia].
Qed.

(** With 33-byte keys and a 32-byte hashlock the script has at most 116
    bytes, whatever the locktime. *)
Lemma createHTLCScript_length (config : HTLCConfig) :
  length (senderPublicKey config) = 33%nat ->
  length (receiverPublicKey config) = 33%nat ->
  length (hashlock config) = 32%nat ->
  (length (createHTLCScript config) <= 116)%nat.
Proof.
  intros Hs Hr Hh. unfold createHTLCScript.
  rewrite !compile_cons. rewrite !length_app.
  pose proof (compile_chunk_data_length (hashlock config) ltac:(lia)).
  pose proof (compile_chunk_data_length (receiverPublicKey config) ltac:(lia)).
  pose proof (compile_chunk_data_length (senderPublicKey config) ltac:(lia)).
  pose proof (number_encode_length (locktime config)).
  pose proof (compile_chunk_data_length (number_encode (locktime config)) ltac:(lia)).
  change (length (compile [])) with 0%nat.
  change (length (compile_chunk (Op ?c))) with 1%nat. lia.
Qed.

(** Stacks of fewer than 253 elements, each shorter than 253 bytes, are
    serialized by the finalizers exactly as the library's vector format. *)
Lemma serializeWitnessStack_writeVector (witnessStack : list bytes) :
  (length witnessStack < 253)%nat ->
  Forall (fun item => (length item < 253)%nat) witnessStack ->
  serializeWitnessStack witnessStack = writeVector witnessStack.
Proof.
  intros Hn Hitems. unfold serializeWitnessStack, writeVector.
  cbn [concat]. rewrite varuint_encode_small by lia. f_equal. f_equal.
  induction Hitems as [|item items Hi _ IH]; [reflexivity|].
  cbn [map]. unfold writeVarSlice at 1. rewrite varuint_encode_small by lia.
  rewrite IH by (simpl in Hn; lia). reflexivity.
Qed.

Lemma witness_stack_parsed (witnessStack : list bytes) :
  (length witnessStack < 253)%nat ->
  Forall (fun item => (length item < 253)%nat) witnessStack ->
  scriptWitnessToWitnessStack (serializeWitnessStack witnessStack) = Some witnessStack.
Proof.
  intros Hn Hitems. rewrite serializeWitnessStack_writeVector by assumption.
  apply scriptWitnessToWitnessStack_writeVector.
  - unfold MAX_SAFE_INTEGER. lia.
  - eapply Forall_impl; [exact Hitems|]. intros s Hs. simpl in Hs.
    unfold MAX_SAFE_INTEGER. lia.
Qed.

End builder_lemmas.

(** ** Output scripts of addresses *)

Section address_lemmas.
Context `{L : BitcoinLib}.
Import script.

Lemma toOutputScript_length (a : Address) (net : Network.t) (out : bytes) :
  address.toOutputScript a net = Some out -> (length out <= 42)%nat.
Proof.
  unfold address.toOutputScript.
  destruct a as [version payload|prefix version program|text]; [| |discriminate].
  - destruct (Nat.eqb_spec (length payload) 20) as [Hl|]; [|discriminate]. cbn [negb].
    destruct (version =? _).
    + intros [= <-]. unfold address.p2pkh_output. rewrite !compile_cons, !length_app.
      rewrite compile_chunk_data_long by lia. simpl. lia.
    + destruct (version =? _); [|discriminate].
      intros [= <-]. unfold address.p2sh_output. rewrite !compile_cons, !length_app.
      rewrite compile_chunk_data_long by lia. simpl. lia.
  - destruct (negb _); [discriminate|].
    destruct (version =? 0).
    + destruct (Nat.eqb_spec (length program) 20) as [Hl|].
      * intros [= <-]. unfold address.p2wpkh_output.
        rewrite !compile_cons, !length_app.
        rewrite compile_chunk_data_long by lia. simpl. lia.
      * destruct (Nat.eqb_spec (length program) 32) as [Hl|]; [|discriminate].
        intros [= <-]. unfold address.p2wsh_output.
        rewrite !compile_cons, !length_app.
        rewrite compile_chunk_data_long by lia. simpl. lia.
    + destruct (_ && _) eqn:E; [|discriminate].
      apply andb_prop in E as [E _]. apply andb_prop in E as [E Hmax].
      apply andb_prop in E as [_ Hmin].
      apply Nat.leb_le in Hmax, Hmin.
      intros [= <-]. rewrite !compile_cons, !length_app.
      rewrite compile_chunk_data_long by lia. simpl. lia.
Qed.

End address_lemmas.

(** ** The PSBT steps, read backwards from a successful result *)

Section psbt_lemmas.
Context `{L : BitcoinLib}.
Import bip174.

Lemma addInput_inv (p p' : Psbt.t) (d : Psbt.InputData) :
  Psbt.addInput p d = Ok p' ->
  length (reverse (fromHex (Psbt.in_hash d))) = 32%nat /\
  isUInt32 (Psbt.in_index d) = true /\
  from_option isUInt32 true (Psbt.in_sequence d) = true /\
  Psbt.network p' = Psbt.network p /\
  Transaction.version (Psbt.tx p') = Transaction.version (Psbt.tx p) /\
  Transaction.locktime (Psbt.tx p') = Transaction.locktime (Psbt.tx p) /\
  Transaction.outs (Psbt.tx p') = Transaction.outs (Psbt.tx p) /\
  Transaction.ins (Psbt.tx p') =
    Transaction.ins (Psbt.tx p)
      ++ [{| Transaction.hash := reverse (fromHex (Psbt.in_hash d));
             Transaction.index := Psbt.in_index d; Transaction.script := [];
             Transaction.sequence :=
               default Transaction.DEFAULT_SEQUENCE (Psbt.in_sequence d);
             Transaction.witness := [] |}] /\
  Psbt.inputs p' =
    Psbt.inputs p
      ++ [{| witnessUtxo := Some (Psbt.in_witnessUtxo d);
             witnessScript := Psbt.in_witnessScript d; partialSig := [];
             finalScriptSig := None; finalScriptWitness := None |}].
Proof.
  unfold Psbt.addInput. intros H.
  inv_bind H. apply check_Ok_inv in E.
  inv_bind H. injection H as <-. cbn.
  apply andb_prop in E as [E Hseq]. apply andb_prop in E as [Hlen Hidx].
  apply Nat.eqb_eq in Hlen. auto 10.
Qed.

Lemma setLocktime_inv (p p' : Psbt.t) (locktime : Z) :
  Psbt.setLocktime p locktime = Ok p' ->
  isUInt32 locktime = true /\
  Psbt.network p' = Psbt.network p /\
  Psbt.inputs p' = Psbt.inputs p /\
  Transaction.version (Psbt.tx p') = Transaction.version (Psbt.tx p) /\
  Transaction.locktime (Psbt.tx p') = locktime /\
  Transaction.ins (Psbt.tx p') = Transaction.ins (Psbt.tx p) /\
  Transaction.outs (Psbt.tx p') = Transaction.outs (Psbt.tx p).
Proof.
  unfold Psbt.setLocktime. intros H.
  inv_bind H. apply check_Ok_inv in E. injection H as <-. cbn. auto 10.
Qed.

Lemma addOutput_inv (p p' : Psbt.t) (a : Address) (value : Z) :
  Psbt.addOutput p a value = Ok p' ->
  exists out,
    address.toOutputScript a (Psbt.network p) = Some out /\
    0 <= value <= Psbt.SATOSHI_MAX /\
    Psbt.network p' = Psbt.network p /\
    Psbt.inputs p' = Psbt.inputs p /\
    Transaction.version (Psbt.tx p') = Transaction.version (Psbt.tx p) /\
    Transaction.locktime (Psbt.tx p') = Transaction.locktime (Psbt.tx p) /\
    Transaction.ins (Psbt.tx p') = Transaction.ins (Psbt.tx p) /\
    Transaction.outs (Psbt.tx p') =
      Transaction.outs (Psbt.tx p)
        ++ [{| Transaction.out_script := out; Transaction.value := value |}].
Proof.
  unfold Psbt.addOutput. intros H.
  inv_bind H. apply orThrow_Ok_inv in E.
  inv_bind H. apply check_Ok_inv in E0. injection H as <-. cbn.
  exists x. apply andb_prop in E0 as [H1 H2].
  apply Z.leb_le in H1, H2. auto 10.
Qed.

Lemma signInput_inv (p p' : Psbt.t) (i : nat) (keyPair : ECPair.t) :
  Psbt.signInput p i keyPair = Ok p' ->
  exists input sig,
    Psbt.inputs p !! i = Some input /\
    Psbt.network p' = Psbt.network p /\
    Psbt.tx p' = Psbt.tx p /\
    Psbt.inputs p' =
      <[i := {| witnessUtxo := witnessUtxo input;
                witnessScript := witnessScript input;
                partialSig :=
                  partialSig input
                    ++ [{| pubkey := ECPair.publicKey keyPair; signature := sig |}];
                finalScriptSig := finalScriptSig input;
                finalScriptWitness := finalScriptWitness input |}]> (Psbt.inputs p).
Proof.
  unfold Psbt.signInput. intros H.
  inv_bind H. apply orThrow_Ok_inv in E.
  inv_bind H. injection H as <-. cbn. eauto 10.
Qed.

Lemma finalizeInput_inv (p p' : Psbt.t) (i : nat)
    (f : PsbtInput -> Result (option bytes * option bytes)) :
  Psbt.finalizeInput p i f = Ok p' ->
  exists input fss fsw,
    Psbt.inputs p !! i = Some input /\
    f input = Ok (fss, fsw) /\
    Psbt.network p' = Psbt.network p /\
    Psbt.tx p' = Psbt.tx p /\
    Psbt.inputs p' =
      <[i := {| witnessUtxo := witnessUtxo input; witnessScript := None;
                partialSig := [];
                finalScriptSig :=
                  if fss is Some _ then fss else finalScriptSig input;
                finalScriptWitness :=
                  if fsw is Some _ then fsw else finalScriptWitness input |}]>
        (Psbt.inputs p).
Proof.
  unfold Psbt.finalizeInput. intros H.
  inv_bind H. apply orThrow_Ok_inv in E.
  inv_bind H. inv_bind H. destruct x1 as [fss fsw].
  inv_bind H. injection H as <-. cbn. eauto 10.
Qed.

Lemma extractTransaction_inv (p : Psbt.t) (t : Transaction.t) :
  Psbt.extractTransaction p = Ok t ->
  exists ins',
    mapM (fun '(txin, input) => Psbt.finalizeTxInput txin input)
      (zip (Transaction.ins (Psbt.tx p)) (Psbt.inputs p)) = Some ins' /\
    t = {| Transaction.version := Transaction.version (Psbt.tx p);
           Transaction.locktime := Transaction.locktime (Psbt.tx p);
           Transaction.ins := ins';
           Transaction.outs := Transaction.outs (Psbt.tx p) |} /\
    0 <= Psbt.inputAmount p - Psbt.outputAmount t.
Proof.
  unfold Psbt.extractTransaction. intros H.
  inv_bind H. inv_bind H. apply orThrow_Ok_inv in E0.
  inv_bind H. apply check_Ok_inv in E1. apply Z.leb_le in E1.
  inv_bind H. injection H as <-. eauto.
Qed.

End psbt_lemmas.

(** ** The builders, read backwards from a successful result *)

Section builder_inversion.
Context `{L : BitcoinLib}.
Import HTLCBuilder.

Lemma createHTLC_segwit_inv (config : HTLCConfig) (htlc : HTLCOutput) :
  createHTLC config = Ok htlc ->
  truthy (useSegwit config) = true ->
  redeemScript htlc = createHTLCScript config /\
  witnessScript htlc = Some (createHTLCScript config) /\
  scriptHash htlc = sha256 (createHTLCScript config) /\
  lockingScript htlc
    = script.compile [script.Op OPS.OP_0; script.Data (sha256 (createHTLCScript config))] /\
  address.fromOutputScript (lockingScript htlc) (network config) = Some (address htlc).
Proof.
  unfold createHTLC. intros H Hseg. rewrite Hseg in H.
  inv_bind H. apply orThrow_Ok_inv in E. injection H as <-. cbn. auto.
Qed.

Lemma createHTLC_legacy_inv (config : HTLCConfig) (htlc : HTLCOutput) :
  createHTLC config = Ok htlc ->
  truthy (useSegwit config) = false ->
  redeemScript htlc = createHTLCScript config /\
  witnessScript htlc = None /\
  scriptHash htlc = hash160 (createHTLCScript config) /\
  lockingScript htlc
    = script.compile [script.Op OPS.OP_HASH160;
                      script.Data (hash160 (createHTLCScript config));
                      script.Op OPS.OP_EQUAL] /\
  address.fromOutputScript (lockingScript htlc) (network config) = Some (address htlc).
Proof.
  unfold createHTLC. intros H Hseg. rewrite Hseg in H.
  inv_bind H. apply orThrow_Ok_inv in E. injection H as <-. cbn. auto.
Qed.

(** The shape of a spending transaction that went through the steps
    common to claim and refund: one input with the finalizer's witness,
    one output with the amount left after the fee. *)
Lemma spend_steps_inv (p1 p2 p3 p4 : Psbt.t) (keyPair : ECPair.t)
    (destinationAddress : Address) (outputAmount : Z)
    (txin : Transaction.Input) (pin : bip174.PsbtInput)
    (finalizer : bip174.PsbtInput -> Result (option bytes * option bytes))
    (tx : Transaction.t) :
  Transaction.ins (Psbt.tx p1) = [txin] ->
  Transaction.outs (Psbt.tx p1) = [] ->
  Psbt.inputs p1 = [pin] ->
  Psbt.addOutput p1 destinationAddress outputAmount = Ok p2 ->
  Psbt.signInput p2 0 keyPair = Ok p3 ->
  Psbt.finalizeInput p3 0 finalizer = Ok p4 ->
  Psbt.extractTransaction p4 = Ok tx ->
  exists sig out fss fsw txin',
    finalizer
      {| bip174.witnessUtxo := bip174.witnessUtxo pin;
         bip174.witnessScript := bip174.witnessScript pin;
         bip174.partialSig :=
           bip174.partialSig pin
             ++ [{| bip174.pubkey := ECPair.publicKey keyPair;
                    bip174.signature := sig |}];
         bip174.finalScriptSig := bip174.finalScriptSig pin;
         bip174.finalScriptWitness := bip174.finalScriptWitness pin |}
      = Ok (fss, fsw) /\
    address.toOutputScript destinationAddress (Psbt.network p1) = Some out /\
    0 <= outputAmount <= Psbt.SATOSHI_MAX /\
    Psbt.finalizeTxInput txin
      {| bip174.witnessUtxo := bip174.witnessUtxo pin;
         bip174.witnessScript := None; bip174.partialSig := [];
         bip174.finalScriptSig :=
           if fss is Some _ then fss else bip174.finalScriptSig pin;
         bip174.finalScriptWitness :=
           if fsw is Some _ then fsw else bip174.finalScriptWitness pin |}
      = Some txin' /\
    tx = {| Transaction.version := Transaction.version (Psbt.tx p1);
            Transaction.locktime := Transaction.locktime (Psbt.tx p1);
            Transaction.ins := [txin'];
            Transaction.outs :=
              [{| Transaction.out_script := out;
                  Transaction.value := outputAmount |}] |}.
Proof.
  intros Hins Houts Hinputs Hout E Hsign Hext.
  apply addOutput_inv in Hout
    as (out & Hscript & Hrange & Hnet2 & Hin2 & Hv2 & Hl2 & Hi2 & Ho2).
  apply signInput_inv in E as (input & sig & Hlook & Hnet3 & Htx3 & Hin3).
  rewrite Hin2, Hinputs in Hlook. injection Hlook as <-.
  rewrite Hin2, Hinputs in Hin3. cbn in Hin3.
  apply finalizeInput_inv in Hsign
    as (input' & fss & fsw & Hlook' & Hfin & Hnet4 & Htx4 & Hin4).
  rewrite Hin3 in Hlook'. injection Hlook' as <-.
  rewrite Hin3 in Hin4. cbn in Hin4.
  apply extractTransaction_inv in Hext as (ins' & HmapM & -> & _).
  rewrite Htx4, Htx3, Hi2, Hins, Hin4 in HmapM.
  cbn -[Psbt.finalizeTxInput] in HmapM.
  match type of HmapM with
  | context [Psbt.finalizeTxInput ?a ?b] =>
      destruct (Psbt.finalizeTxInput a b) as [txin'|] eqn:Etx; [|discriminate]
  end.
  cbn in HmapM. injection HmapM as <-.
  exists sig, out, fss, fsw, txin'.
  rewrite Htx4, Htx3, Hv2, Hl2, Ho2, Houts. cbn. auto 10.
Qed.

Lemma claimFinalizer_inv (secret : bytes) (htlc : HTLCOutput)
    (input : bip174.PsbtInput) (fss fsw : option bytes) :
  claimFinalizer secret htlc input = Ok (fss, fsw) ->
  exists sig0 ws,
    bip174.partialSig input !! 0%nat = Some sig0 /\
    script.signature_decode (bip174.signature sig0) = true /\
    witnessScript htlc = Some ws /\
    fss = Some [] /\
    fsw = Some (serializeWitnessStack [bip174.signature sig0; secret; [x01]; ws]).
Proof.
  unfold claimFinalizer. intros H.
  inv_bind H. apply orThrow_Ok_inv in E.
  inv_bind H. apply check_Ok_inv in E0.
  inv_bind H. apply orThrow_Ok_inv in E1.
  injection H as <- <-. eauto 10.
Qed.

Lemma refundFinalizer_inv (htlc : HTLCOutput)
    (input : bip174.PsbtInput) (fss fsw : option bytes) :
  refundFinalizer htlc input = Ok (fss, fsw) ->
  exists sig0 ws,
    bip174.partialSig input !! 0%nat = Some sig0 /\
    script.signature_decode (bip174.signature sig0) = true /\
    witnessScript htlc = Some ws /\
    fss = Some [] /\
    fsw = Some (serializeWitnessStack [bip174.signature sig0; [x00]; ws]).
Proof.
  unfold refundFinalizer. intros H.
  inv_bind H. apply orThrow_Ok_inv in E.
  inv_bind H. apply check_Ok_inv in E0.
  inv_bind H. apply orThrow_Ok_inv in E1.
  injection H as <- <-. eauto 10.
Qed.

End builder_inversion.

Section spending_transactions.
Context `{L : BitcoinLib}.
Import HTLCBuilder.

(** The transaction extracted by the claim builder. *)
Lemma extractClaimTransaction_inv (config : HTLCConfig) (htlcTxid : string)
    (htlcVout htlcAmount : Z) (secret : bytes) (destinationAddress : Address)
    (feeRate : Q) (privateKey : bytes) (tx : Transaction.t) (fee : Z) :
  extractClaimTransaction config htlcTxid htlcVout htlcAmount secret
    destinationAddress feeRate privateKey = Ok (tx, fee) ->
  exists sig out w,
    truthy (useSegwit config) = true /\
    script.signature_decode sig = true /\
    length (reverse (fromHex htlcTxid)) = 32%nat /\
    isUInt32 htlcVout = true /\
    address.toOutputScript destinationAddress (network config) = Some out /\
    0 <= htlcAmount - fee <= Psbt.SATOSHI_MAX /\
    fee = Math_ceil (Number.mul (inject_Z 150) feeRate) /\
    scriptWitnessToWitnessStack
      (serializeWitnessStack [sig; secret; [x01]; createHTLCScript config]) = Some w /\
    tx = {| Transaction.version := 2; Transaction.locktime := 0;
            Transaction.ins :=
              [{| Transaction.hash := reverse (fromHex htlcTxid);
                  Transaction.index := htlcVout; Transaction.script := [];
                  Transaction.sequence := Transaction.DEFAULT_SEQUENCE;
                  Transaction.witness := w |}];
            Transaction.outs :=
              [{| Transaction.out_script := out;
                  Transaction.value := htlcAmount - fee |}] |}.
Proof.
  unfold extractClaimTransaction. intros H.
  inv_bind H. rename x into htlc, E into Ehtlc.
  inv_bind H. rename x into keyPair.
  inv_bind H. rename x into p1, E0 into Ein.
  destruct (truthy (useSegwit config)) eqn:Eseg; [|discriminate].
  apply (createHTLC_segwit_inv _ _ Ehtlc) in Eseg as (_ & Hws & _ & _ & _).
  apply addInput_inv in Ein
    as (Hlen & Hidx & _ & Hnet & Hver & Hlock & Houts & Hins & Hinputs).
  cbn -[reverse] in Hlen, Hidx, Hnet, Hver, Hlock, Houts, Hins, Hinputs.
  inv_bind H. rename x into p2, E0 into Eout.
  inv_bind H. rename x into p3, E0 into Esign.
  inv_bind H. rename x into p4, E0 into Efin.
  inv_bind H. rename x into tx', E0 into Eext.
  injection H as <- <-.
  edestruct spend_steps_inv
    as (sig & out & fss & fsw & txin' & Hfin & Hscript & Hrange & Htxin & ->);
    [exact Hins|exact Houts|exact Hinputs|exact Eout|exact Esign|exact Efin
    |exact Eext|].
  apply claimFinalizer_inv in Hfin as (sig0 & ws & Hsig0 & Hdec & Hws' & -> & ->).
  cbn in Hsig0. injection Hsig0 as <-. cbn in Hdec.
  rewrite Hws in Hws'. injection Hws' as <-.
  unfold Psbt.finalizeTxInput in Htxin.
  cbn [bip174.finalScriptWitness bip174.finalScriptSig] in Htxin.
  destruct (scriptWitnessToWitnessStack _) as [w|] eqn:Ew; [|discriminate].
  cbn in Htxin. injection Htxin as <-.
  exists sig, out, w. rewrite Hnet in Hscript. rewrite Hver, Hlock.
  auto 10.
Qed.

(** The transaction extracted by the refund builder. *)
Lemma extractRefundTransaction_inv (config : HTLCConfig) (htlcTxid : string)
    (htlcVout htlcAmount : Z) (destinationAddress : Address)
    (feeRate : Q) (privateKey : bytes) (tx : Transaction.t) (fee : Z) :
  extractRefundTransaction config htlcTxid htlcVout htlcAmount
    destinationAddress feeRate privateKey = Ok (tx, fee) ->
  exists sig out w,
    truthy (useSegwit config) = true /\
    script.signature_decode sig = true /\
    length (reverse (fromHex htlcTxid)) = 32%nat /\
    isUInt32 htlcVout = true /\
    isUInt32 (locktime config) = true /\
    address.toOutputScript destinationAddress (network config) = Some out /\
    0 <= htlcAmount - fee <= Psbt.SATOSHI_MAX /\
    fee = Math_ceil (Number.mul (inject_Z 150) feeRate) /\
    scriptWitnessToWitnessStack
      (serializeWitnessStack [sig; [x00]; createHTLCScript config]) = Some w /\
    tx = {| Transaction.version := 2; Transaction.locktime := locktime config;
            Transaction.ins :=
              [{| Transaction.hash := reverse (fromHex htlcTxid);
                  Transaction.index := htlcVout; Transaction.script := [];
                  Transaction.sequence := 4294967294;
                  Transaction.witness := w |}];
            Transaction.outs :=
              [{| Transaction.out_script := out;
                  Transaction.value := htlcAmount - fee |}] |}.
Proof.
  unfold extractRefundTransaction. intros H.
  inv_bind H. rename x into htlc, E into Ehtlc.
  inv_bind H. rename x into keyPair.
  inv_bind H. rename x into p1, E0 into Ein.
  destruct (truthy (useSegwit config)) eqn:Eseg; [|discriminate].
  apply (createHTLC_segwit_inv _ _ Ehtlc) in Eseg as (_ & Hws & _ & _ & _).
  apply addInput_inv in Ein
    as (Hlen & Hidx & _ & Hnet & Hver & Hlock & Houts & Hins & Hinputs).
  cbn -[reverse] in Hlen, Hidx, Hnet, Hver, Hlock, Houts, Hins, Hinputs.
  inv_bind H. rename x into p1', E0 into Elock.
  apply setLocktime_inv in Elock
    as (Hl32 & Hnet' & Hinputs' & Hver' & Hlock' & Hins' & Houts').
  rewrite Hins in Hins'. rewrite Houts in Houts'. rewrite Hinputs in Hinputs'.
  inv_bind H. rename x into p2, E0 into Eout.
  inv_bind H. rename x into p3, E0 into Esign.
  inv_bind H. rename x into p4, E0 into Efin.
  inv_bind H. rename x into tx', E0 into Eext.
  injection H as <- <-.
  edestruct spend_steps_inv
    as (sig & out & fss & fsw & txin' & Hfin & Hscript & Hrange & Htxin & ->);
    [exact Hins'|exact Houts'|exact Hinputs'|exact Eout|exact Esign|exact Efin
    |exact Eext|].
  apply refundFinalizer_inv in Hfin as (sig0 & ws & Hsig0 & Hdec & Hws' & -> & ->).
  cbn in Hsig0. injection Hsig0 as <-. cbn in Hdec.
  rewrite Hws in Hws'. injection Hws' as <-.
  unfold Psbt.finalizeTxInput in Htxin.
  cbn [bip174.finalScriptWitness bip174.finalScriptSig] in Htxin.
  destruct (scriptWitnessToWitnessStack _) as [w|] eqn:Ew; [|discriminate].
  cbn in Htxin. injection Htxin as <-.
  exists sig, out, w. rewrite Hnet', Hnet in Hscript. rewrite Hver', Hver, Hlock'.
  auto 12.
Qed.

(** A one-input, one-output spend whose fields passed the checks of the
    PSBT is well formed and carries a witness. *)
Lemma spend_tx_wf (h out : bytes) (idx seq lock v : Z) (a : Address)
    (net : Network.t) (w : list bytes) :
  length h = 32%nat ->
  isUInt32 idx = true -> isUInt32 seq = true -> isUInt32 lock = true ->
  address.toOutputScript a net = Some out ->
  0 <= v <= Psbt.SATOSHI_MAX ->
  w <> [] ->
  (length w < 253)%nat ->
  Forall (fun item => (length item < 253)%nat) w ->
  let tx := {| Transaction.version := 2; Transaction.locktime := lock;
               Transaction.ins :=
                 [{| Transaction.hash := h; Transaction.index := idx;
                     Transaction.script := []; Transaction.sequence := seq;
                     Transaction.witness := w |}];
               Transaction.outs :=
                 [{| Transaction.out_script := out; Transaction.value := v |}] |} in
  Transaction.wf tx /\ Transaction.hasWitnesses tx = true.
Proof.
  intros Hh Hidx Hseq Hlock Hout Hv Hne Hw Hitems tx.
  unfold isUInt32 in *.
  apply andb_prop in Hidx as [?%Z.leb_le ?%Z.leb_le].
  apply andb_prop in Hseq as [?%Z.leb_le ?%Z.leb_le].
  apply andb_prop in Hlock as [?%Z.leb_le ?%Z.leb_le].
  apply toOutputScript_length in Hout.
  unfold Psbt.SATOSHI_MAX in Hv.
  split.
  - constructor; cbn; unfold MAX_SAFE_INTEGER; try lia.
    + constructor; [|constructor].
      constructor; cbn; unfold MAX_SAFE_INTEGER; try lia.
      eapply Forall_impl; [exact Hitems|]. cbn. intros; lia.
    + constructor; [|constructor].
      constructor; cbn; unfold MAX_SAFE_INTEGER; lia.
  - unfold Transaction.hasWitnesses. cbn.
    unfold Transaction.witness_empty. cbn. destruct w; [congruence|reflexivity].
Qed.

End spending_transactions.

(** * The claims *)

(** Every element of an explicit stack is shorter than 253 bytes. *)
Ltac stack_small :=
  repeat (apply List.Forall_cons; [first [lia | simpl; lia]|]); apply List.Forall_nil.

Section claims_on_spending.
Context `{L : BitcoinLib}.
Import HTLCBuilder.

(** C1.  A claim transaction built by [createClaimTransaction] for a
    configuration with 33-byte keys and a 32-byte hashlock, and a 32-byte
    secret, has exactly one input whose witness stack is [signature,
    secret, TRUE, redeemScript], and [extractSecretFromTransaction] on
    the returned hex gives back the secret. *)
Theorem claim_witness_roundtrip (config : HTLCConfig) (htlcTxid : string)
    (htlcVout htlcAmount : Z) (secret : bytes) (destinationAddress : Address)
    (feeRate : Q) (privateKey : bytes) (r : HTLCTransaction) :
  length (senderPublicKey config) = 33%nat ->
  length (receiverPublicKey config) = 33%nat ->
  length (hashlock config) = 32%nat ->
  length secret = 32%nat ->
  createClaimTransaction config htlcTxid htlcVout htlcAmount secret
    destinationAddress feeRate privateKey = Ok r ->
  truthy (useSegwit config) = true /\
  exists tx in0 signature,
    Transaction.fromHex (hex r) = Some tx /\
    Transaction.ins tx = [in0] /\
    script.signature_decode signature = true /\
    Transaction.witness in0 = [signature; secret; [x01]; createHTLCScript config] /\
    extractSecretFromTransaction (hex r) (createHTLCScript config)
      = Value (script.Data secret).
Proof.
  intros Hs Hr Hh Hsec H. unfold createClaimTransaction in H.
  inv_bind H. destruct x as [tx fee]. injection H as <-.
  apply extractClaimTransaction_inv in E
    as (sig & out & w & Hseg & Hdec & Hlen & Hidx & Hout & Hrange & _ & Hw & ->).
  pose proof (signature_decode_length _ Hdec) as Hsiglen.
  pose proof (createHTLCScript_length config Hs Hr Hh) as Hscript.
  rewrite witness_stack_parsed in Hw.
  2:{ simpl. lia. }
  2:{ stack_small. }
  injection Hw as <-.
  split; [exact Hseg|].
  destruct (spend_tx_wf (reverse (fromHex htlcTxid)) out htlcVout
              Transaction.DEFAULT_SEQUENCE 0 (htlcAmount - fee)
              destinationAddress (network config)
              [sig; secret; [x01]; createHTLCScript config])
    as [Hwf Hwit];
    [exact Hlen|exact Hidx|reflexivity|reflexivity|exact Hout|exact Hrange
    |discriminate|simpl; lia|stack_small|].
  eexists _, _, sig. cbn [hex toHTLCTransaction].
  rewrite (fromHex_toHex_tx _ Hwf Hwit).
  split; [reflexivity|]. split; [reflexivity|]. split; [exact Hdec|].
  split; [reflexivity|].
  unfold extractSecretFromTransaction.
  rewrite (fromHex_toHex_tx _ Hwf Hwit). reflexivity.
Qed.

(** C6.  A refund transaction built by [createRefundTransaction] (keys of
    33 bytes, hashlock of 32 bytes) has the configured locktime in its
    locktime field, one input with sequence 0xfffffffe, below 0xffffffff,
    and the witness stack [signature, FALSE, redeemScript] on it. *)
Theorem refund_locktime_sequence_witness (config : HTLCConfig) (htlcTxid : string)
    (htlcVout htlcAmount : Z) (destinationAddress : Address)
    (feeRate : Q) (privateKey : bytes) (r : HTLCTransaction) :
  length (senderPublicKey config) = 33%nat ->
  length (receiverPublicKey config) = 33%nat ->
  length (hashlock config) = 32%nat ->
  createRefundTransaction config htlcTxid htlcVout htlcAmount
    destinationAddress feeRate privateKey = Ok r ->
  exists tx in0 signature,
    Transaction.fromHex (hex r) = Some tx /\
    Transaction.locktime tx = locktime config /\
    Transaction.ins tx = [in0] /\
    Transaction.sequence in0 = 4294967294 /\
    Transaction.sequence in0 < 4294967295 /\
    script.signature_decode signature = true /\
    Transaction.witness in0 = [signature; [x00]; createHTLCScript config].
Proof.
  intros Hs Hr Hh H. unfold createRefundTransaction in H.
  inv_bind H. destruct x as [tx fee]. injection H as <-.
  apply extractRefundTransaction_inv in E
    as (sig & out & w & Hseg & Hdec & Hlen & Hidx & Hlock & Hout & Hrange & _
        & Hw & ->).
  pose proof (signature_decode_length _ Hdec) as Hsiglen.
  pose proof (createHTLCScript_length config Hs Hr Hh) as Hscript.
  rewrite witness_stack_parsed in Hw.
  2:{ simpl. lia. }
  2:{ stack_small. }
  injection Hw as <-.
  destruct (spend_tx_wf (reverse (fromHex htlcTxid)) out htlcVout
              4294967294 (locktime config) (htlcAmount - fee)
              destinationAddress (network config)
              [sig; [x00]; createHTLCScript config])
    as [Hwf Hwit];
    [exact Hlen|exact Hidx|reflexivity|exact Hlock|exact Hout|exact Hrange
    |discriminate|simpl; lia|stack_small|].
  eexists _, _, sig. cbn [hex toHTLCTransaction].
  rewrite (fromHex_toHex_tx _ Hwf Hwit).
  split; [reflexivity|]. cbn. repeat split; auto; lia.
Qed.

(** C10.  With the segwit flag off, [createClaimTransaction] and
    [createRefundTransaction] fail whatever the other arguments are, and
    they fail at a step that precedes the first [addInput]. *)
Theorem legacy_claim_refund_unsupported (config : HTLCConfig) (htlcTxid : string)
    (htlcVout htlcAmount : Z) (secret : bytes) (destinationAddress : Address)
    (feeRate : Q) (privateKey : bytes) :
  truthy (useSegwit config) = false ->
  (exists e,
     createClaimTransaction config htlcTxid htlcVout htlcAmount secret
       destinationAddress feeRate privateKey = Err e /\ before_inputs e) /\
  (exists e,
     createRefundTransaction config htlcTxid htlcVout htlcAmount
       destinationAddress feeRate privateKey = Err e /\ before_inputs e).
Proof.
  intros Hseg.
  unfold createClaimTransaction, createRefundTransaction,
    extractClaimTransaction, extractRefundTransaction.
  rewrite Hseg.
  unfold createHTLC. rewrite Hseg.
  destruct (address.fromOutputScript _ _) as [a|]; cbn;
    [|split; eexists; (split; [reflexivity|exact I])].
  unfold ECPair.fromPrivateKey.
  destruct (publicKeyOf privateKey) as [pub|]; cbn;
    split; eexists; (split; [reflexivity|exact I]).
Qed.

End claims_on_spending.

Lemma claim_witness_roundtrip_witness :
  exists r,
    HTLCBuilder.createClaimTransaction (L := ExampleLib.lib)
      (ExampleLib.config true networks.testnet) ExampleLib.fundingTxid 0 100000
      ExampleLib.secret ExampleLib.destination (10 # 1) ExampleLib.key = Ok r /\
    truthy (HTLCBuilder.useSegwit (ExampleLib.config true networks.testnet)) = true /\
    exists tx in0 signature,
      Transaction.fromHex (HTLCBuilder.hex r) = Some tx /\
      Transaction.ins tx = [in0] /\
      script.signature_decode signature = true /\
      Transaction.witness in0
        = [signature; ExampleLib.secret; [x01];
           HTLCBuilder.createHTLCScript (ExampleLib.config true networks.testnet)] /\
      HTLCBuilder.extractSecretFromTransaction (HTLCBuilder.hex r)
        (HTLCBuilder.createHTLCScript (ExampleLib.config true networks.testnet))
        = Value (script.Data ExampleLib.secret).
Proof.
  eexists. split; [vm_compute; reflexivity|].
  apply (claim_witness_roundtrip (L := ExampleLib.lib)
           (ExampleLib.config true networks.testnet) ExampleLib.fundingTxid 0 100000
           ExampleLib.secret ExampleLib.destination (10 # 1) ExampleLib.key);
    [reflexivity|reflexivity|reflexivity|reflexivity|vm_compute; reflexivity].
Defined.

Lemma refund_locktime_sequence_witness_witness :
  exists r,
    HTLCBuilder.createRefundTransaction (L := ExampleLib.lib)
      (ExampleLib.config true networks.testnet) ExampleLib.fundingTxid 0 100000
      ExampleLib.destination (10 # 1) ExampleLib.key = Ok r /\
    exists tx in0 signature,
      Transaction.fromHex (HTLCBuilder.hex r) = Some tx /\
      Transaction.locktime tx = 1700000000 /\
      Transaction.ins tx = [in0] /\
      Transaction.sequence in0 = 4294967294 /\
      Transaction.sequence in0 < 4294967295 /\
      script.signature_decode signature = true /\
      Transaction.witness in0
        = [signature; [x00];
           HTLCBuilder.createHTLCScript (ExampleLib.config true networks.testnet)].
Proof.
  eexists. split; [vm_compute; reflexivity|].
  apply (refund_locktime_sequence_witness (L := ExampleLib.lib)
           (ExampleLib.config true networks.testnet) ExampleLib.fundingTxid 0 100000
           ExampleLib.destination (10 # 1) ExampleLib.key);
    [reflexivity|reflexivity|reflexivity|vm_compute; reflexivity].
Defined.

Lemma legacy_claim_refund_unsupported_witness :
  truthy (HTLCBuilder.useSegwit (ExampleLib.config false networks.testnet)) = false /\
  (exists e,
     HTLCBuilder.createClaimTransaction (L := ExampleLib.lib)
       (ExampleLib.config false networks.testnet) ExampleLib.fundingTxid 0 100000
       ExampleLib.secret ExampleLib.destination (10 # 1) ExampleLib.key = Err e
     /\ before_inputs e) /\
  (exists e,
     HTLCBuilder.createRefundTransaction (L := ExampleLib.lib)
       (ExampleLib.config false networks.testnet) ExampleLib.fundingTxid 0 100000
       ExampleLib.destination (10 # 1) ExampleLib.key = Err e
     /\ before_inputs e).
Proof.
  split; [reflexivity|].
  apply (legacy_claim_refund_unsupported (L := ExampleLib.lib)
           (ExampleLib.config false networks.testnet) ExampleLib.fundingTxid 0 100000
           ExampleLib.secret ExampleLib.destination (10 # 1) ExampleLib.key).
  reflexivity.
Defined.

(** In legacy mode the funding builder still produces a transaction. *)
Example legacy_funding_available :
  exists r,
    HTLCBuilder.createFundingTransaction (L := ExampleLib.lib)
      (ExampleLib.config false networks.testnet)
      [{| HTLCBuilder.utxo_txid := ExampleLib.fundingTxid; HTLCBuilder.utxo_vout := 1;
          HTLCBuilder.utxo_value := 20000;
          HTLCBuilder.utxo_scriptPubKey := "00143333333333333333333333333333333333333333" |}]
      10000 ExampleLib.destination (10 # 1) ExampleLib.key = Ok r.
Proof. eexists. vm_compute. reflexivity. Qed.

(** ** The extractor *)

Section extractor.
Import HTLCBuilder.

(** C5.  On a transaction hex that parses and has an input 0, the
    extractor looks at the stack of that input (the witness, or the
    decompiled script-sig when there is no witness): with fewer than two
    elements it returns no secret, otherwise it returns the second
    element. *)
Theorem extractSecret_second_element (txHex : string) (witnessScript : bytes)
    (tx : Transaction.t) (in0 : Transaction.Input) (rest : list Transaction.Input)
    (stack : list script.Chunk) :
  Transaction.fromHex txHex = Some tx ->
  Transaction.ins tx = in0 :: rest ->
  inputStack in0 = Some stack ->
  ((length stack < 2)%nat ->
     no_secret (extractSecretFromTransaction txHex witnessScript)) /\
  (forall x, stack !! 1%nat = Some x ->
     extractSecretFromTransaction txHex witnessScript = Value x).
Proof.
  intros Hparse Hins Hstack. unfold extractSecretFromTransaction.
  rewrite Hparse, Hins. unfold inputStack in Hstack.
  destruct (Transaction.witness in0) as [|w0 ws] eqn:Ew.
  - destruct (Transaction.script in0) as [|b bs] eqn:Es; [discriminate|].
    rewrite Hstack. destruct (Nat.ltb_spec 1 (length stack)) as [Hlen|Hlen].
    + split; [lia|]. intros x Hx. rewrite Hx. reflexivity.
    + split; [intros _; left; reflexivity|].
      intros x Hx. apply lookup_lt_Some in Hx. lia.
  - injection Hstack as <-. destruct ws as [|w1 ws']; cbn.
    + split; [intros _; right; reflexivity|discriminate].
    + split; [lia|]. intros x [= <-]. reflexivity.
Qed.

(** Without a stack (no parse, no input 0, or neither witness nor a
    script-sig that decompiles) the extractor returns [null]. *)
Lemma extractSecret_without_stack (txHex : string) (witnessScript : bytes) :
  match Transaction.fromHex txHex with
  | Some tx =>
      match Transaction.ins tx with
      | in0 :: _ => inputStack in0 = None
      | [] => True
      end
  | None => True
  end ->
  extractSecretFromTransaction txHex witnessScript = Null.
Proof.
  unfold extractSecretFromTransaction, inputStack.
  destruct (Transaction.fromHex txHex) as [tx|]; [|reflexivity].
  destruct (Transaction.ins tx) as [|in0 rest]; [reflexivity|].
  destruct (Transaction.witness in0); [|discriminate].
  destruct (Transaction.script in0); [reflexivity|].
  intros ->. reflexivity.
Qed.

End extractor.

Lemma extractSecret_second_element_witness :
  ((length [script.Data ExampleLib.derSignature; script.Data ExampleLib.secret;
            script.Op OPS.OP_1; script.Data [x63; x68]] < 2)%nat ->
     no_secret (HTLCBuilder.extractSecretFromTransaction
                  (Transaction.toHex ExampleLib.legacySpend) [x63; x68])) /\
  (forall x,
     [script.Data ExampleLib.derSignature; script.Data ExampleLib.secret;
      script.Op OPS.OP_1; script.Data [x63; x68]] !! 1%nat = Some x ->
     HTLCBuilder.extractSecretFromTransaction
       (Transaction.toHex ExampleLib.legacySpend) [x63; x68] = Value x).
Proof.
  apply (extractSecret_second_element (Transaction.toHex ExampleLib.legacySpend)
           [x63; x68] ExampleLib.legacySpend
           {| Transaction.hash := repeat xab 32; Transaction.index := 0;
              Transaction.script :=
                script.compile [script.Data ExampleLib.derSignature;
                                script.Data ExampleLib.secret;
                                script.Data [x01]; script.Data [x63; x68]];
              Transaction.sequence := Transaction.DEFAULT_SEQUENCE;
              Transaction.witness := [] |} []);
    vm_compute; reflexivity.
Defined.

(** A witness of a single element: the extractor answers [undefined]. *)
Example extractSecret_single_witness_element :
  HTLCBuilder.extractSecretFromTransaction
    (Transaction.toHex
       {| Transaction.version := 2; Transaction.locktime := 0;
          Transaction.ins :=
            [{| Transaction.hash := repeat xab 32; Transaction.index := 0;
                Transaction.script := [];
                Transaction.sequence := Transaction.DEFAULT_SEQUENCE;
                Transaction.witness := [ExampleLib.derSignature] |}];
          Transaction.outs :=
            [{| Transaction.out_script := [x00; x14] ++ repeat x33 20;
                Transaction.value := 5000 |}] |}) []
  = Undefined.
Proof. vm_compute. reflexivity. Qed.

(** ** Secret verification *)

Section secret_verification.
Context `{L : BitcoinLib}.
Import HTLCCreator.


(** When the check accepts, [createClaimTx] is the builder's result for
    the fixed amount of 100000 satoshis. *)
Lemma createClaimTx_accepted (htlcData : HTLCResult) (fundingTxid : string)
    (fundingVout : Z) (secret : string) (destinationAddress : Address)
    (privateKeyHex : string) (feeRate : Q) (net : Network.t) :
  getNetwork (network (config htlcData)) = Ok net ->
  secretMatchesHashlock (fromHex secret) (hashlock (config htlcData)) = true ->
  createClaimTx htlcData fundingTxid fundingVout secret destinationAddress
    privateKeyHex feeRate
  = HTLCBuilder.createClaimTransaction (toConfig (config htlcData) net) fundingTxid
      fundingVout 100000 (fromHex secret) destinationAddress feeRate
      (fromHex privateKeyHex).
Proof.
  intros Hnet Hok. unfold createClaimTx. rewrite Hnet. cbn. rewrite Hok. reflexivity.
Qed.

(** The same guard opens [claimHTLC] of the reverse flow. *)
Lemma claimHTLC_secret_mismatch (fetch : string -> option (list Z))
    (htlcConfig : ClaimReverse.HTLCConfig) (fundingTxId : string) (fundingVout : nat)
    (secret : string) (destinationAddress : Address) (privateKey : string)
    (feeRate : Q) :
  toHex (sha256 (fromHex secret)) <> ClaimReverse.hashlock htlcConfig ->
  exists e,
    ClaimReverse.claimHTLC fetch htlcConfig fundingTxId fundingVout secret
      destinationAddress privateKey feeRate = Err e /\
    (e = SecretMismatch \/ e = UnsupportedNetwork).
Proof.
  intros Hne. unfold ClaimReverse.claimHTLC.
  destruct (ClaimReverse.NETWORKS _) as [net|]; cbn; [|eauto].
  apply String.eqb_neq in Hne. rewrite Hne. cbn. eauto.
Qed.

End secret_verification.


(** ** The two script builders *)

Section script_builders.
Import script.

(** C7 (first half, refuted).  For every configuration, the script that
    [claim-htlc-reverse.ts] rebuilds from the stored parameters differs
    from the script of [HTLCBuilder]: after the receiver key the builder
    writes OP_CHECKSIG and the reverse script writes OP_ELSE. *)
Theorem reverse_script_differs (config : HTLCBuilder.HTLCConfig) :
  ClaimReverse.createHTLCScript
    (toHex (HTLCBuilder.senderPublicKey config))
    (toHex (HTLCBuilder.receiverPublicKey config))
    (toHex (HTLCBuilder.hashlock config))
    (HTLCBuilder.locktime config)
  <> Ok (HTLCBuilder.createHTLCScript config).
Proof.
  unfold ClaimReverse.createHTLCScript, HTLCBuilder.createHTLCScript.
  destruct (check InvalidLocktime _); cbn [mbind Result_bind]; [|discriminate].
  rewrite !fromHex_toHex. intros [= H].
  apply app_inv_head in H. injection H as H.
  apply app_inv_head in H. injection H as Hbyte _.
  vm_compute in Hbyte. discriminate Hbyte.
Qed.

End script_builders.

(** ** Output amounts that do not cover the fee *)

Section insufficient_funds.
Context `{L : BitcoinLib}.
Import HTLCBuilder.

Lemma createHTLC_Err (config : HTLCConfig) (e : Error) :
  createHTLC config = Err e -> e = NoMatchingAddress.
Proof.
  unfold createHTLC.
  destruct (truthy _); destruct (address.fromOutputScript _ _); cbn; congruence.
Qed.

Lemma fromPrivateKey_Err (d : bytes) (e : Error) :
  ECPair.fromPrivateKey d = Err e -> e = InvalidPrivateKey.
Proof. unfold ECPair.fromPrivateKey. destruct (publicKeyOf d); cbn; congruence. Qed.

Lemma addInput_Err (p : Psbt.t) (d : Psbt.InputData) (e : Error) :
  Psbt.addInput p d = Err e -> e = AddInputFailed.
Proof.
  unfold Psbt.addInput. destruct (_ && _); cbn; [|congruence].
  destruct (negb _); cbn; congruence.
Qed.

Lemma addOutput_Err (p : Psbt.t) (a : Address) (v : Z) (e : Error) :
  Psbt.addOutput p a v = Err e -> e = AddOutputFailed.
Proof.
  unfold Psbt.addOutput. destruct (address.toOutputScript _ _); cbn; [|congruence].
  destruct (_ && _); cbn; congruence.
Qed.

Lemma addOutput_negative (p : Psbt.t) (a : Address) (v : Z) :
  v < 0 -> Psbt.addOutput p a v = Err AddOutputFailed.
Proof.
  intros Hv. unfold Psbt.addOutput.
  destruct (address.toOutputScript _ _); cbn; [|reflexivity].
  destruct (Z.leb_spec 0 v); [lia|reflexivity].
Qed.

(** A negative output amount stops [createClaimTransaction] before
    [signInput]: [addOutput] refuses it, unless an earlier step already
    failed. *)
Lemma claim_negative_output_fails_before_signing (config : HTLCConfig)
    (htlcTxid : string) (htlcVout htlcAmount : Z) (secret : bytes)
    (destinationAddress : Address) (feeRate : Q) (privateKey : bytes) :
  htlcAmount - Math_ceil (Number.mul (inject_Z 150) feeRate) < 0 ->
  exists e,
    createClaimTransaction config htlcTxid htlcVout htlcAmount secret
      destinationAddress feeRate privateKey = Err e /\ before_signing e.
Proof.
  intros Hneg. unfold createClaimTransaction, extractClaimTransaction.
  destruct (createHTLC config) as [htlc|e] eqn:E1; cbn [mbind Result_bind].
  2:{ apply createHTLC_Err in E1 as ->. eexists; split; [reflexivity|exact I]. }
  destruct (ECPair.fromPrivateKey privateKey) as [keyPair|e] eqn:E2;
    cbn [mbind Result_bind].
  2:{ apply fromPrivateKey_Err in E2 as ->. eexists; split; [reflexivity|exact I]. }
  destruct (truthy (useSegwit config)); cbn [mbind Result_bind].
  2:{ eexists; split; [reflexivity|exact I]. }
  destruct (Psbt.addInput _ _) as [p1|e] eqn:E3; cbn [mbind Result_bind].
  2:{ apply addInput_Err in E3 as ->. eexists; split; [reflexivity|exact I]. }
  rewrite addOutput_negative by exact Hneg. cbn [mbind Result_bind].
  eexists; split; [reflexivity|exact I].
Qed.

Lemma signInput_Err (p : Psbt.t) (i : nat) (keyPair : ECPair.t) (e : Error) :
  Psbt.signInput p i keyPair = Err e -> e = SignInputFailed.
Proof.
  unfold Psbt.signInput. destruct (Psbt.inputs p !! i); cbn; [|congruence].
  destruct (ecdsaSignInput _ _ _ _); cbn; congruence.
Qed.

Lemma claimFinalizer_Err (secret : bytes) (htlc : HTLCOutput)
    (input : bip174.PsbtInput) (e : Error) :
  claimFinalizer secret htlc input = Err e ->
  e = FinalizeFailed \/ e = SignatureFormatIssue.
Proof.
  unfold claimFinalizer. destruct (bip174.partialSig input !! 0%nat); cbn; [|intuition congruence].
  destruct (script.signature_decode _); cbn; [|intuition congruence].
  destruct (witnessScript htlc); cbn; intuition congruence.
Qed.

Lemma finalizeInput_Err (p : Psbt.t) (i : nat)
    (f : bip174.PsbtInput -> Result (option bytes * option bytes)) (e : Error) :
  Psbt.finalizeInput p i f = Err e ->
  e = FinalizeFailed \/ exists input, f input = Err e.
Proof.
  unfold Psbt.finalizeInput. destruct (Psbt.inputs p !! i) as [input|]; cbn;
    [|intuition congruence].
  destruct (_ || _); cbn; [|intuition congruence].
  destruct (f input) as [[fss fsw]|ef] eqn:Ef; cbn.
  - destruct (_ || _); cbn; intuition congruence.
  - intros [= <-]. eauto.
Qed.

Lemma extractTransaction_Err (p : Psbt.t) (e : Error) :
  Psbt.extractTransaction p = Err e -> e = ExtractFailed.
Proof.
  unfold Psbt.extractTransaction. destruct (forallb _ _); cbn; [|congruence].
  destruct (mapM _ _); cbn; [|congruence].
  destruct (0 <=? _); cbn; [|congruence].
  destruct (_ <? _); cbn; congruence.
Qed.

(** With an output amount of exactly zero nothing stops the claim builder
    before [signInput]: once the HTLC, the key, the outpoint and the
    destination are accepted, any failure comes from signing or later. *)
Lemma claim_zero_output_reaches_signing (config : HTLCConfig)
    (htlcTxid : string) (htlcVout htlcAmount : Z) (secret : bytes)
    (destinationAddress : Address) (feeRate : Q) (privateKey : bytes)
    (htlc : HTLCOutput) (keyPair : ECPair.t) (p1 : Psbt.t) (out : bytes) (e : Error) :
  htlcAmount - Math_ceil (Number.mul (inject_Z 150) feeRate) = 0 ->
  truthy (useSegwit config) = true ->
  createHTLC config = Ok htlc ->
  ECPair.fromPrivateKey privateKey = Ok keyPair ->
  Psbt.addInput (Psbt.new (network config))
    {| Psbt.in_hash := htlcTxid; Psbt.in_index := htlcVout;
       Psbt.in_witnessUtxo := (lockingScript htlc, htlcAmount);
       Psbt.in_witnessScript := witnessScript htlc;
       Psbt.in_sequence := None |} = Ok p1 ->
  address.toOutputScript destinationAddress (network config) = Some out ->
  createClaimTransaction config htlcTxid htlcVout htlcAmount secret
    destinationAddress feeRate privateKey = Err e ->
  ~ before_signing e.
Proof.
  intros Hzero Hseg Hhtlc Hkey Hin Hout.
  unfold createClaimTransaction, extractClaimTransaction.
  rewrite Hhtlc, Hkey, Hseg. cbn [mbind Result_bind]. rewrite Hin.
  cbn [mbind Result_bind]. rewrite Hzero.
  pose proof (addInput_inv _ _ _ Hin) as (_ & _ & _ & Hnet & _).
  unfold Psbt.addOutput. rewrite Hnet. cbn [Psbt.new Psbt.network]. rewrite Hout.
  cbn [orThrow mbind Result_bind check Z.leb Z.compare andb].
  change (0 <=? Psbt.SATOSHI_MAX) with true. cbn [mbind Result_bind check].
  match goal with
  | |- context [Psbt.signInput ?p ?i ?k] =>
      destruct (Psbt.signInput p i k) as [p3|e3] eqn:E3
  end; cbn [mbind Result_bind].
  2:{ intros [= <-]. apply signInput_Err in E3 as ->. exact id. }
  destruct (Psbt.finalizeInput p3 0 (claimFinalizer secret htlc)) as [p4|e4] eqn:E4;
    cbn [mbind Result_bind].
  2:{ intros [= <-]. apply finalizeInput_Err in E4 as [->|[input Hf]]; [exact id|].
      apply claimFinalizer_Err in Hf as [->| ->]; exact id. }
  destruct (Psbt.extractTransaction p4) as [t|e5] eqn:E5; cbn [mbind Result_bind];
    [discriminate|].
  intros [= <-]. apply extractTransaction_Err in E5 as ->. exact id.
Qed.

(** The reverse claim script has the guard: an output amount of zero or
    less ends [claimHTLC] before the transaction is created, and with
    [InsufficientFunds] once network, secret, script and the funding
    output are in place. *)
Lemma claimHTLC_insufficient_funds (fetch : string -> option (list Z))
    (htlcConfig : ClaimReverse.HTLCConfig) (fundingTxId : string) (fundingVout : nat)
    (secret : string) (destinationAddress : Address) (privateKey : string)
    (feeRate : Q) (outputs : list Z) (fundingAmount : Z) :
  fetch fundingTxId = Some outputs ->
  outputs !! fundingVout = Some fundingAmount ->
  fundingAmount - Math_ceil (Number.mul (inject_Z 300) feeRate) <= 0 ->
  exists e,
    ClaimReverse.claimHTLC fetch htlcConfig fundingTxId fundingVout secret
      destinationAddress privateKey feeRate = Err e /\
    (e = UnsupportedNetwork \/ e = SecretMismatch \/ e = InvalidLocktime
     \/ e = InsufficientFunds).
Proof.
  intros Hfetch Hvout Hle. unfold ClaimReverse.claimHTLC.
  destruct (ClaimReverse.NETWORKS _); cbn [orThrow mbind Result_bind]; [|eauto].
  destruct (check SecretMismatch _) eqn:Ec; cbn [mbind Result_bind].
  2:{ unfold check in Ec. destruct (String.eqb _ _); [discriminate|].
      injection Ec as <-. eauto. }
  match goal with
  | |- context [mbind _ ?m] =>
      assert (Hscr : (exists s, m = Ok s) \/ m = Err InvalidLocktime)
  end.
  { destruct (ClaimReverse.witnessScript htlcConfig) as [[|c s]|]; eauto;
      unfold ClaimReverse.createHTLCScript;
      destruct (isUInt32 _); cbn; eauto. }
  destruct Hscr as [[s ->]| ->]; cbn [mbind Result_bind]; [|eauto 10].
  rewrite Hfetch. cbn [orThrow mbind Result_bind]. rewrite Hvout.
  cbn [orThrow mbind Result_bind].
  destruct (Z.leb_spec (fundingAmount - Math_ceil (Number.mul (inject_Z 300) feeRate)) 0);
    [|lia].
  cbn. eauto 10.
Qed.

End insufficient_funds.

(** C3 (refuted for the builder).  With an HTLC of 1500 satoshis and a fee
    rate of 10, [createClaimTransaction] computes a fee of 1500 and an
    output of 0, and still signs and returns the transaction. *)
Theorem claim_zero_output_is_built :
  exists r tx,
    HTLCBuilder.createClaimTransaction (L := ExampleLib.lib)
      (ExampleLib.config true networks.testnet) ExampleLib.fundingTxid 0 1500
      ExampleLib.secret ExampleLib.destination (10 # 1) ExampleLib.key = Ok r /\
    HTLCBuilder.fee r = 1500 /\
    1500 - HTLCBuilder.fee r <= 0 /\
    Transaction.fromHex (HTLCBuilder.hex r) = Some tx /\
    map Transaction.value (Transaction.outs tx) = [0] /\
    map Transaction.witness (Transaction.ins tx)
      = [[ExampleLib.derSignature; ExampleLib.secret; [x01];
          HTLCBuilder.createHTLCScript (ExampleLib.config true networks.testnet)]].
Proof.
  eexists _, _. split; [vm_compute; reflexivity|].
  split; [vm_compute; reflexivity|].
  split; [vm_compute; discriminate|].
  split; [vm_compute; reflexivity|].
  split; vm_compute; reflexivity.
Qed.

(** ** Funding: fee, change and balance *)

Section funding.
Context `{L : BitcoinLib}.
Import HTLCBuilder.

Lemma addUtxoInputs_inv (utxos : list Utxo) (p p' : Psbt.t) :
  addUtxoInputs p utxos = Ok p' ->
  Psbt.network p' = Psbt.network p /\
  Transaction.outs (Psbt.tx p') = Transaction.outs (Psbt.tx p) /\
  length (Psbt.inputs p') = (length (Psbt.inputs p) + length utxos)%nat.
Proof.
  revert p. induction utxos as [|utxo rest IH]; intros p H; cbn in H.
  - injection H as <-. cbn. auto with lia.
  - inv_bind H. apply addInput_inv in E
      as (_ & _ & _ & Hnet & _ & _ & Houts & _ & Hinputs).
    apply IH in H as (Hnet' & Houts' & Hinputs').
    rewrite Hnet', Houts', Hinputs', Hnet, Houts, Hinputs, length_app. cbn.
    auto with lia.
Qed.

Lemma signInputsFrom_tx (keyPair : ECPair.t) (n i : nat) (p p' : Psbt.t) :
  signInputsFrom p keyPair i n = Ok p' -> Psbt.tx p' = Psbt.tx p.
Proof.
  revert i p. induction n as [|n IH]; intros i p H; cbn in H.
  - injection H as <-. reflexivity.
  - inv_bind H. apply signInput_inv in E as (input & sig & _ & _ & Htx & _).
    apply IH in H. congruence.
Qed.

Lemma finalizeFrom_tx (n i : nat) (p p' : Psbt.t) :
  Psbt.finalizeFrom p i n = Ok p' -> Psbt.tx p' = Psbt.tx p.
Proof.
  revert i p. induction n as [|n IH]; intros i p H; cbn in H.
  - injection H as <-. reflexivity.
  - inv_bind H. apply finalizeInput_inv in E as (input & fss & fsw & _ & _ & _ & Htx & _).
    apply IH in H. congruence.
Qed.

Lemma finalizeAllInputs_inv (p p' : Psbt.t) :
  Psbt.finalizeAllInputs p = Ok p' ->
  Psbt.inputs p <> [] /\
  Psbt.finalizeFrom p 0 (length (Psbt.inputs p)) = Ok p'.
Proof.
  unfold Psbt.finalizeAllInputs. intros H.
  destruct (Psbt.inputs p) as [|input rest] eqn:E; [discriminate H|].
  split; [discriminate|exact H].
Qed.

(** What the funding builder has put into the transaction it extracts. *)
Lemma extractFundingTransaction_inv (config : HTLCConfig) (utxos : list Utxo)
    (amount : Z) (changeAddress : Address) (feeRate : Q) (privateKey : bytes)
    (tx : Transaction.t) (fee : Z) :
  extractFundingTransaction config utxos amount changeAddress feeRate privateKey
    = Ok (tx, fee) ->
  exists htlc htlcScript,
    createHTLC config = Ok htlc /\
    address.toOutputScript (address htlc) (network config) = Some htlcScript /\
    fee = Math_ceil (Number.mul (inject_Z (fundingEstimatedSize (length utxos))) feeRate) /\
    let change := sumZ (map utxo_value utxos) - amount - fee in
    if change >? 546 then
      exists changeScript,
        address.toOutputScript changeAddress (network config) = Some changeScript /\
        Transaction.outs tx
          = [{| Transaction.out_script := htlcScript; Transaction.value := amount |};
             {| Transaction.out_script := changeScript; Transaction.value := change |}]
    else
      Transaction.outs tx
        = [{| Transaction.out_script := htlcScript; Transaction.value := amount |}].
Proof.
  unfold extractFundingTransaction. intros H.
  inv_bind H. rename x into htlc, E into Ehtlc.
  inv_bind H. rename x into keyPair.
  inv_bind H. rename x into p1, E0 into Ein.
  apply addUtxoInputs_inv in Ein as (Hnet1 & Houts1 & Hlen1).
  cbn in Hnet1, Houts1, Hlen1.
  inv_bind H. rename x into p2, E0 into Eout.
  apply addOutput_inv in Eout
    as (htlcScript & Hscript & _ & Hnet2 & Hin2 & _ & _ & _ & Houts2).
  rewrite Hnet1 in Hscript. rewrite Houts1 in Houts2. cbn in Houts2.
  rewrite Hin2, Hlen1 in H.
  inv_bind H. rename x into p3, E0 into Echange.
  inv_bind H. rename x into p4, E0 into Esign.
  inv_bind H. rename x into p5, E0 into Efin.
  inv_bind H. rename x into tx', E0 into Eext.
  injection H as <- <-.
  apply signInputsFrom_tx in Esign.
  apply finalizeAllInputs_inv in Efin as [_ Efin]. apply finalizeFrom_tx in Efin.
  apply extractTransaction_inv in Eext as (ins' & _ & -> & _).
  cbn [Transaction.outs]. rewrite Efin, Esign.
  exists htlc, htlcScript. split; [exact Ehtlc|]. split; [exact Hscript|].
  split; [reflexivity|]. cbn zeta.
  destruct (_ >? 546).
  - apply addOutput_inv in Echange
      as (changeScript & Hcs & _ & _ & _ & _ & _ & _ & Houts3).
    rewrite Hnet2, Hnet1 in Hcs. rewrite Houts2 in Houts3.
    exists changeScript. split; [exact Hcs|exact Houts3].
  - injection Echange as <-. exact Houts2.
Qed.

End funding.

Section funding_script.
Import FundHTLC.

Variable p2wpkhScript : string -> option bytes.
Variable getTransaction : string -> option string.

(** The loop of [fund-htlc.ts] adds the values of the inputs it selects. *)
Lemma addInputs_value (fromAddress : string) (amount fee : Z)
    (utxos added added' : list BitcoinUTXO) (inputValue inputValue' : Z) :
  addInputs p2wpkhScript getTransaction fromAddress amount fee utxos added inputValue
    = Ok (added', inputValue') ->
  inputValue' - sumZ (map value added') = inputValue - sumZ (map value added).
Proof.
  revert added inputValue.
  induction utxos as [|utxo rest IH]; intros added inputValue H; cbn in H.
  - injection H as <- <-. reflexivity.
  - destruct (inputValue >=? amount + fee); [injection H as <- <-; reflexivity|].
    assert (Hstep : sumZ (map value (added ++ [utxo]))
                    = sumZ (map value added) + value utxo).
    { unfold sumZ. rewrite map_app, foldr_app. cbn.
      generalize (map value added). intros l.
      induction l as [|z l IHl]; cbn; lia. }
    destruct (_ || _).
    + inv_bind H. inv_bind H. apply IH in H. lia.
    + destruct (_ || _); [|discriminate].
      inv_bind H. inv_bind H. inv_bind H. inv_bind H. apply IH in H. lia.
Qed.

End funding_script.

Section funding_claim.
Context `{L : BitcoinLib}.
Import HTLCBuilder.


End funding_claim.


(** The fee at fractional rates is the one of the double product: with
    four inputs (size 670) at rate 0.1 it is 67, although the double
    nearest to 0.1 is above one tenth; with nine inputs (size 1410) at
    rate 1.1 the product rounds up to a double above 1551 and the fee is
    1552; a claim (size 150) costs 15 at rate 0.1 and 169 at rate 1.12. *)
Lemma fee_at_fractional_rates :
  Math_ceil (Number.mul (inject_Z (HTLCBuilder.fundingEstimatedSize 4))
               (Number.round (1 # 10))) = 67 /\
  Math_ceil (Number.mul (inject_Z (HTLCBuilder.fundingEstimatedSize 9))
               (Number.round (11 # 10))) = 1552 /\
  Math_ceil (Number.mul (inject_Z 150) (Number.round (1 # 10))) = 15 /\
  Math_ceil (Number.mul (inject_Z 150) (Number.round (112 # 100))) = 169 /\
  (exists tx,
     HTLCBuilder.extractFundingTransaction (L := ExampleLib.lib)
       (ExampleLib.config true networks.testnet)
       (map (fun vout =>
               {| HTLCBuilder.utxo_txid := ExampleLib.fundingTxid;
                  HTLCBuilder.utxo_vout := vout;
                  HTLCBuilder.utxo_value := 5000;
                  HTLCBuilder.utxo_scriptPubKey :=
                    "00143333333333333333333333333333333333333333" |})
          [0; 1; 2; 3])
       10000 ExampleLib.destination (Number.round (1 # 10)) ExampleLib.key
     = Ok (tx, 67) /\
     map Transaction.value (Transaction.outs tx) = [10000; 9933]).
Proof.
  repeat split; try (vm_compute; reflexivity).
  eexists. split; vm_compute; reflexivity.
Qed.


(** ** Addresses and networks *)

Section address_validation.
Context `{L : BitcoinLib}.
Import HTLCBuilder.

(** The address of a segwit HTLC is a version 0 bech32 address of the
    configured network, with a program of 20 or 32 bytes. *)
Lemma createHTLC_segwit_address (config : HTLCConfig) (htlc : HTLCOutput) :
  createHTLC config = Ok htlc ->
  truthy (useSegwit config) = true ->
  exists program,
    address htlc = Bech32 (Network.bech32 (network config)) 0 program /\
    (length program = 20%nat \/ length program = 32%nat).
Proof.
  intros H Hseg.
  apply createHTLC_segwit_inv in H as (_ & _ & _ & Hls & Haddr); [|exact Hseg].
  rewrite Hls in Haddr. unfold address.fromOutputScript in Haddr.
  set (ls := script.compile _) in *.
  assert (H0 : script.at_ ls 0 = 0) by reflexivity.
  clearbody ls.
  unfold address.isP2PKH, address.isP2SH, address.isP2WPKH, address.isP2WSH,
    address.isFutureSegwit in Haddr.
  rewrite H0 in Haddr.
  change (0 =? OPS.OP_DUP) with false in Haddr.
  change (0 =? OPS.OP_HASH160) with false in Haddr.
  change (0 =? OPS.OP_0) with true in Haddr.
  change (1 <=? 0 - OPS.OP_RESERVED) with false in Haddr.
  rewrite ?andb_false_r, ?andb_true_r in Haddr. cbn [andb] in Haddr.
  destruct (Nat.eqb_spec (length ls) 22) as [H22|_];
    destruct (Nat.eqb_spec (length ls) 34) as [H34|_];
    cbn [andb] in Haddr; try lia.
  - destruct (_ =? _); [|discriminate].
    injection Haddr as <-. eexists; split; [reflexivity|].
    rewrite length_drop; lia.
  - destruct (_ =? _); [|discriminate].
    injection Haddr as <-. eexists; split; [reflexivity|].
    rewrite length_drop; lia.
  - discriminate.
Qed.

(** The address of a legacy HTLC is a base58check address with the
    script-hash version of the configured network and 20 bytes. *)
Lemma createHTLC_legacy_address (config : HTLCConfig) (htlc : HTLCOutput) :
  createHTLC config = Ok htlc ->
  truthy (useSegwit config) = false ->
  exists payload,
    address htlc = Base58Check (Network.scriptHash (network config)) payload /\
    length payload = 20%nat.
Proof.
  intros H Hseg.
  apply createHTLC_legacy_inv in H as (_ & _ & _ & Hls & Haddr); [|exact Hseg].
  rewrite Hls in Haddr. unfold address.fromOutputScript in Haddr.
  set (ls := script.compile _) in *.
  assert (H0 : script.at_ ls 0 = 169) by reflexivity.
  clearbody ls.
  unfold address.isP2PKH, address.isP2SH, address.isP2WPKH, address.isP2WSH,
    address.isFutureSegwit in Haddr.
  rewrite H0 in Haddr.
  change (169 =? OPS.OP_DUP) with false in Haddr.
  change (169 =? OPS.OP_HASH160) with true in Haddr.
  change (169 =? OPS.OP_0) with false in Haddr.
  change (169 - OPS.OP_RESERVED <=? 16) with false in Haddr.
  rewrite ?andb_false_r, ?andb_true_r in Haddr. cbn [andb] in Haddr.
  destruct (Nat.eqb_spec (length ls) 23) as [H23|_]; [|discriminate].
  cbn [andb] in Haddr.
  destruct (_ && _); [|discriminate].
  injection Haddr as <-. eexists; split; [reflexivity|].
  rewrite length_take, length_drop. lia.
Qed.

(** Which networks accept the address of an HTLC. *)
Lemma validateHTLCAddress_networks (config : HTLCConfig) (htlc : HTLCOutput)
    (other : Network.t) :
  createHTLC config = Ok htlc ->
  validateHTLCAddress (address htlc) (network config) = true /\
  (validateHTLCAddress (address htlc) other = true <->
   if truthy (useSegwit config) then
     Network.bech32 other = Network.bech32 (network config)
   else
     Network.pubKeyHash other = Network.scriptHash (network config)
     \/ Network.scriptHash other = Network.scriptHash (network config)).
Proof.
  intros H. destruct (truthy (useSegwit config)) eqn:Hseg.
  - destruct (createHTLC_segwit_address _ _ H Hseg) as (program & -> & Hlen).
    assert (Hv : forall net,
               validateHTLCAddress
                 (Bech32 (Network.bech32 (network config)) 0 program) net = true
               <-> Network.bech32 net = Network.bech32 (network config)).
    { intros net. unfold validateHTLCAddress, address.toOutputScript.
      destruct (String.eqb_spec (Network.bech32 (network config)) (Network.bech32 net))
        as [Heq|Hne]; cbn [negb Z.eqb].
      - destruct Hlen as [-> | ->]; cbn; split; congruence.
      - split; [discriminate|congruence]. }
    split; [apply Hv; reflexivity|apply Hv].
  - destruct (createHTLC_legacy_address _ _ H Hseg) as (payload & -> & Hlen).
    assert (Hv : forall net,
               validateHTLCAddress
                 (Base58Check (Network.scriptHash (network config)) payload) net = true
               <-> Network.pubKeyHash net = Network.scriptHash (network config)
                   \/ Network.scriptHash net = Network.scriptHash (network config)).
    { intros net. unfold validateHTLCAddress, address.toOutputScript.
      rewrite Hlen. cbn [Nat.eqb negb].
      destruct (Z.eqb_spec (Network.scriptHash (network config)) (Network.pubKeyHash net));
        [split; [auto|reflexivity]|].
      destruct (Z.eqb_spec (Network.scriptHash (network config)) (Network.scriptHash net));
        [split; [auto|reflexivity]|].
      split; [discriminate|]. intros [?|?]; congruence. }
    split; [apply Hv; right; reflexivity|apply Hv].
Qed.

(** C9 (amended).  The address of an HTLC built for network N validates
    against N.  In segwit mode it validates against a network exactly when
    that network has the bech32 prefix of N; in legacy mode exactly when
    the public-key-hash or the script-hash version of that network is the
    script-hash version of N. *)
Theorem htlc_address_validation (config : HTLCConfig) (htlc : HTLCOutput)
    (other : Network.t) :
  createHTLC config = Ok htlc ->
  validateHTLCAddress (address htlc) (network config) = true /\
  (validateHTLCAddress (address htlc) other = true <->
   if truthy (useSegwit config) then
     Network.bech32 other = Network.bech32 (network config)
   else
     Network.pubKeyHash other = Network.scriptHash (network config)
     \/ Network.scriptHash other = Network.scriptHash (network config)).
Proof. apply validateHTLCAddress_networks. Qed.

(** Among the three networks of the library, a segwit HTLC address fails
    validation against each network other than its own. *)
Corollary segwit_address_other_networks (config : HTLCConfig) (htlc : HTLCOutput)
    (other : Network.t) :
  createHTLC config = Ok htlc ->
  truthy (useSegwit config) = true ->
  In (network config) [networks.bitcoin; networks.testnet; networks.regtest] ->
  In other [networks.bitcoin; networks.testnet; networks.regtest] ->
  other <> network config ->
  validateHTLCAddress (address htlc) other = false.
Proof.
  intros H Hseg Hn Ho Hne.
  destruct (validateHTLCAddress (address htlc) other) eqn:Hv; [|reflexivity].
  apply (validateHTLCAddress_networks config htlc other H) in Hv. rewrite Hseg in Hv.
  cbn in Hn, Ho.
  destruct Hn as [Hn|[Hn|[Hn|[]]]]; destruct Ho as [Ho|[Ho|[Ho|[]]]];
    subst other; try congruence; rewrite <- Hn in Hv; discriminate Hv.
Qed.

End address_validation.

(** C9 as stated fails: a legacy HTLC address built for testnet validates
    against regtest, which shares the version bytes of testnet. *)
Lemma address_other_network_counterexample :
  exists htlc,
    HTLCBuilder.createHTLC (L := ExampleLib.lib) (ExampleLib.config false networks.testnet)
      = Ok htlc /\
    networks.regtest <> networks.testnet /\
    HTLCBuilder.validateHTLCAddress (L := ExampleLib.lib) (HTLCBuilder.address htlc)
      networks.regtest = true.
Proof.
  eexists. split; [vm_compute; reflexivity|]. split; [discriminate|].
  vm_compute. reflexivity.
Qed.

(** The names "testnet" and "testnet4" select one and the same network, so
    a segwit address built under one name validates under the other. *)
Example testnet4_is_testnet :
  HTLCCreator.getNetwork "testnet4" = HTLCCreator.getNetwork "testnet".
Proof. reflexivity. Qed.

Lemma htlc_address_validation_witness :
  exists htlc,
    HTLCBuilder.createHTLC (L := ExampleLib.lib) (ExampleLib.config true networks.testnet)
      = Ok htlc /\
    HTLCBuilder.validateHTLCAddress (L := ExampleLib.lib) (HTLCBuilder.address htlc)
      networks.testnet = true /\
    (HTLCBuilder.validateHTLCAddress (L := ExampleLib.lib) (HTLCBuilder.address htlc)
       networks.bitcoin = true <-> "bc" = "tb").
Proof.
  eexists. split; [vm_compute; reflexivity|].
  apply (htlc_address_validation (L := ExampleLib.lib)
           (ExampleLib.config true networks.testnet) _ networks.bitcoin).
  vm_compute. reflexivity.
Defined.

(** ** The order steps *)

Section order_steps.
Context `{L : BitcoinLib}.
Import Orders.

Variable now : string.
Variable satoshisText : string -> string.
Variable amountDigits : string -> string.
Variable execSync : string -> option string.
Variable spawnClaim : list string -> Z * string.
Variable matchFundingTxId : string -> option string.
Variable matchClaimTxId : string -> option string.
Variable matchOldClaimTxId : string -> option string.

(** The funding step never looks at the status: with the three components
    and the credentials in place it moves the order to FUNDED from any
    status, whether its child process succeeds or not. *)
Lemma takerFund_ignores_status (env : Env) (files : OrderFiles)
    (id key addr : string) (order : AtomicSwapOrder) :
  orderIdOf env = Some id ->
  JsString.includes id ".ts" = false ->
  files !! id = Some order ->
  hasComponents order = true ->
  JsString.truthy (BITCOIN_PRIVATE_KEY env) = Some key ->
  JsString.truthy (BITCOIN_ADDRESS env) = Some addr ->
  htlcBuilderExists env = true ->
  exists txId,
    takerFundMain now satoshisText amountDigits execSync matchFundingTxId env files
      = (Returned (recordFunding order txId), <[id := recordFunding order txId]> files)
    /\ status (recordFunding order txId) = FUNDED.
Proof.
  intros Hid Hts Hfile Hcomp Hkey Haddr Hbuilder. unfold takerFundMain.
  rewrite Hid, Hts, Hfile, Hcomp, Hkey, Haddr, Hbuilder. cbn [negb].
  eexists. split; reflexivity.
Qed.

(** The claim step of the maker stops on any status other than FUNDED. *)
Lemma makerClaim_requires_funded (env : Env) (files : OrderFiles)
    (id : string) (order : AtomicSwapOrder) :
  orderIdOf env = Some id ->
  JsString.includes id ".ts" = false ->
  files !! id = Some order ->
  status order <> FUNDED ->
  makerClaimMain now spawnClaim matchClaimTxId matchOldClaimTxId env files
    = (Thrown WrongStatus, files).
Proof.
  intros Hid Hts Hfile Hst. unfold makerClaimMain.
  rewrite Hid, Hts, Hfile. rewrite bool_decide_false by exact Hst. reflexivity.
Qed.

(** Both steps write the order file only when they return. *)
Lemma steps_write_only_on_return (env : Env) (files : OrderFiles) :
  (forall out files',
     takerFundMain now satoshisText amountDigits execSync matchFundingTxId env files
       = (out, files') ->
     (forall o, out <> Returned o) -> files' = files) /\
  (forall out files',
     makerClaimMain now spawnClaim matchClaimTxId matchOldClaimTxId env files
       = (out, files') ->
     (forall o, out <> Returned o) -> files' = files).
Proof.
  split; intros out files'; [unfold takerFundMain|unfold makerClaimMain];
    repeat match goal with
           | |- context [match ?x with _ => _ end] => destruct x
           end;
    intros [= <- <-] Hnot; first [reflexivity | exfalso; eapply Hnot; reflexivity].
Qed.

(** The claim step does not look for the funding reference: a FUNDED order
    without one hands the empty text to the claim process as the funding
    transaction id, and is completed when that process exits with 0. *)
Lemma makerClaim_funding_reference_not_checked (env : Env) (files : OrderFiles)
    (id key addr htlcFile : string) (order : AtomicSwapOrder) :
  orderIdOf env = Some id ->
  JsString.includes id ".ts" = false ->
  files !! id = Some order ->
  status order = FUNDED ->
  hasComponents order = true ->
  String.eqb ("0x" +:+ toHex (sha256 (fromHex (JsString.slice 2 (secret order)))))
    (hashlock order) = true ->
  btcConfigExists env (default "testnet4" (JsString.truthy (BITCOIN_NETWORK env))) = true ->
  JsString.truthy (BITCOIN_PRIVATE_KEY env) = Some key ->
  JsString.truthy (BITCOIN_ADDRESS env) = Some addr ->
  List.find
    (fun f => JsString.startsWith f "htlc_" && JsString.endsWith f "_testnet4.json"
                && negb (JsString.includes f "config")) (htlcOutputDir env)
    = Some htlcFile ->
  transactions order ≫= bitcoinHTLCFunding = None ->
  let args :=
    ["btc/scripts/create-htlc.ts"; "claim"; "btc/output/" +:+ htlcFile; "";
     "0"; JsString.remove_first (secret order) "0x";
     wants_address (wants (maker order)); key; "10"] in
  (fst (spawnClaim args) = 0 ->
   exists txId,
     makerClaimMain now spawnClaim matchClaimTxId matchOldClaimTxId env files
       = (Returned (recordClaim order txId), <[id := recordClaim order txId]> files)
     /\ status (recordClaim order txId) = COMPLETED) /\
  (fst (spawnClaim args) <> 0 ->
   makerClaimMain now spawnClaim matchClaimTxId matchOldClaimTxId env files
     = (Thrown ClaimProcessFailed, files)).
Proof.
  intros Hid Hts Hfile Hst Hcomp Hhash Hcfg Hkey Haddr Hfind Hnone args.
  unfold makerClaimMain.
  rewrite Hid, Hts, Hfile, Hcomp, Hhash, Hcfg, Hkey, Haddr, Hfind, Hnone.
  rewrite bool_decide_true by exact Hst. cbn [negb JsString.truthy default].
  fold args. destruct (spawnClaim args) as [code claimOutput]. cbn [fst].
  split.
  - intros ->. cbn [Z.eqb]. eexists. split; reflexivity.
  - intros Hne. destruct (Z.eqb_spec code 0); [contradiction|reflexivity].
Qed.

(** The claim process itself cannot succeed on the empty transaction id:
    [addInput] needs the 32 bytes of a txid. *)
Lemma createClaimTransaction_empty_txid (config : HTLCBuilder.HTLCConfig)
    (htlcVout htlcAmount : Z) (secret : bytes) (destinationAddress : Address)
    (feeRate : Q) (privateKey : bytes) :
  exists e,
    HTLCBuilder.createClaimTransaction config "" htlcVout htlcAmount secret
      destinationAddress feeRate privateKey = Err e /\ before_signing e.
Proof.
  unfold HTLCBuilder.createClaimTransaction, HTLCBuilder.extractClaimTransaction.
  destruct (HTLCBuilder.createHTLC config) as [htlc|e] eqn:E1; cbn [mbind Result_bind].
  2:{ apply createHTLC_Err in E1 as ->. eexists; split; [reflexivity|exact I]. }
  destruct (ECPair.fromPrivateKey privateKey) as [keyPair|e] eqn:E2;
    cbn [mbind Result_bind].
  2:{ apply fromPrivateKey_Err in E2 as ->. eexists; split; [reflexivity|exact I]. }
  destruct (truthy _); cbn; eexists; (split; [reflexivity|exact I]).
Qed.

End order_steps.

(** C2 (refuted).  An order that is already COMPLETED and still carries its
    taker, HTLC and escrow is moved back to FUNDED by the funding step, and
    the order file is rewritten. *)
Theorem taker_fund_from_completed :
  let files : Orders.OrderFiles := {[ "order_1" := ExampleLib.order Orders.COMPLETED ]} in
  let run :=
    Orders.takerFundMain "1700000001000" (fun _ => "100000") (fun _ => "0001")
      (fun _ => None) (fun _ => None) ExampleLib.env files in
  exists order',
    fst run = Orders.Returned order' /\
    snd run !! "order_1" = Some order' /\
    Orders.status (ExampleLib.order Orders.COMPLETED) = Orders.COMPLETED /\
    Orders.status order' = Orders.FUNDED /\
    Orders.transactions order' ≫= Orders.bitcoinHTLCFunding
      = Some "sim_0001_1700000001000_funding".
Proof.
  intros files run.
  assert (Hrun : fst run
                 = Orders.Returned
                     (Orders.recordFunding (ExampleLib.order Orders.COMPLETED)
                        "sim_0001_1700000001000_funding"))
    by (vm_compute; reflexivity).
  assert (Hfiles : snd run
                   = <["order_1" := Orders.recordFunding (ExampleLib.order Orders.COMPLETED)
                                      "sim_0001_1700000001000_funding"]> files)
    by reflexivity.
  eexists. split; [exact Hrun|]. rewrite Hfiles.
  split; [apply lookup_insert_eq|]. repeat split.
Qed.

(** * Further properties of the modelled code

    ** The HTLC script of [btc/lib/htlc-builder.ts] *)

Section script_structure.
Import script HTLCBuilder.

Lemma decompile_op (code : Z) (rest : bytes) :
  78 < code < 256 ->
  decompile (byte_of_Z code :: rest)
  = chunks ← decompile rest; Some (Op code :: chunks).
Proof.
  intros Hc. unfold decompile. cbn [length decompile_loop].
  rewrite byte_to_of_Z by lia.
  replace ((OPS.OP_0 <? code) && (code <=? OPS.OP_PUSHDATA4)) with false.
  - reflexivity.
  - symmetry. apply andb_false_iff. right. apply Z.leb_gt.
    unfold OPS.OP_PUSHDATA4. lia.
Qed.

Lemma decompile_data (d rest : bytes) :
  asMinimalOP d = None ->
  (length d < 76)%nat ->
  decompile (compile_chunk (Data d) ++ rest)
  = chunks ← decompile rest; Some (Data d :: chunks).
Proof.
  intros Hmin Hlen.
  assert (Hpos : (0 < length d)%nat).
  { destruct d; [discriminate Hmin | simpl; lia]. }
  unfold compile_chunk. rewrite Hmin.
  unfold pushdata.encode.
  replace (Z.of_nat (length d) <? OPS.OP_PUSHDATA1) with true
    by (symmetry; apply Z.ltb_lt; unfold OPS.OP_PUSHDATA1; lia).
  unfold decompile. cbn [app length decompile_loop].
  rewrite byte_to_of_Z by lia.
  replace ((OPS.OP_0 <? Z.of_nat (length d))
             && (Z.of_nat (length d) <=? OPS.OP_PUSHDATA4)) with true.
  2:{ symmetry. apply andb_true_iff. split.
      - apply Z.ltb_lt. unfold OPS.OP_0. lia.
      - apply Z.leb_le. unfold OPS.OP_PUSHDATA4. lia. }
  unfold pushdata.decode.
  replace (Z.of_nat (length d) <? OPS.OP_PUSHDATA1) with true
    by (symmetry; apply Z.ltb_lt; unfold OPS.OP_PUSHDATA1; lia).
  cbn [mbind option_bind]. unfold readSlice.
  rewrite Nat2Z.id.
  destruct (decide (length d <= length (d ++ rest))%nat) as [_|Hn].
  2:{ rewrite length_app in Hn. lia. }
  rewrite take_app_length, drop_app_length. cbn [mbind option_bind].
  rewrite decompile_loop_fuel by (rewrite length_app; lia).
  rewrite Hmin. reflexivity.
Qed.

(** The locktime bytes written by [script.number.encode]: the loop keeps
    the low bytes of the 32-bit image of the value. *)
Lemma toInt32_id (v : Z) : - 2 ^ 31 <= v < 2 ^ 31 -> toInt32 v = v.
Proof.
  intros H. unfold toInt32. rewrite Z.mod_small by lia. lia.
Qed.

Lemma number_loop_le_bytes (size : nat) (v : Z) :
  - 2 ^ 31 <= v < 2 ^ 31 -> number_loop size v = le_bytes size v.
Proof.
  revert v. induction size as [|k IH]; intros v Hv; [reflexivity|].
  cbn [number_loop le_bytes]. rewrite toInt32_id by exact Hv.
  change 255 with (Z.ones 8). rewrite Z.land_ones by lia.
  rewrite Z.shiftr_div_pow2 by lia.
  change (2 ^ 8) with 256.
  f_equal.
  - unfold byte_of_Z. rewrite Z.mod_mod by lia. reflexivity.
  - apply IH.
    assert (- 2 ^ 31 <= v / 256) by (apply Z.div_le_lower_bound; lia).
    assert (v / 256 < 2 ^ 31) by (apply Z.div_lt_upper_bound; lia).
    lia.
Qed.

Lemma number_loop_toInt32 (size : nat) (v : Z) :
  number_loop size v = le_bytes size (toInt32 v).
Proof.
  assert (Hr : - 2 ^ 31 <= toInt32 v < 2 ^ 31).
  { unfold toInt32. pose proof (Z.mod_pos_bound (v + 2 ^ 31) (2 ^ 32)). lia. }
  destruct size as [|k]; [reflexivity|].
  rewrite <- (number_loop_le_bytes (S k)) by exact Hr.
  cbn [number_loop]. rewrite (toInt32_id (toInt32 v)) by exact Hr.
  reflexivity.
Qed.

Lemma testbit_7_byte (b : byte) :
  Z.testbit (byte_to_Z b) 7 = (128 <=? byte_to_Z b).
Proof. destruct b; reflexivity. Qed.

Lemma number_encode_uint32 (n : Z) :
  0 <= n < 2 ^ 32 ->
  le_value (number_encode n) = n /\
  number_encode n
  = (if n <? 2 ^ 31 then le_bytes (scriptNumSize n) n else le_bytes 4 n ++ [x00]).
Proof.
  intros Hn. unfold number_encode.
  rewrite Z.abs_eq by lia.
  replace (n <? 0) with false by (symmetry; apply Z.ltb_ge; lia).
  rewrite number_loop_toInt32.
  destruct (Z.ltb_spec n (2 ^ 31)) as [Hlt|Hge].
  - rewrite toInt32_id by lia.
    unfold scriptNumSize.
    repeat match goal with
           | |- context [?a >? ?b] => destruct (Z.gtb_spec a b)
           end; try lia;
      cbn [le_bytes lookup list_lookup default id];
      rewrite ?testbit_7_byte, ?byte_to_of_Z_mod;
      match goal with
      | |- context [128 <=? ?x] =>
          replace (128 <=? x) with false
            by (symmetry; apply Z.leb_gt; Z.div_mod_to_equations; lia)
      | _ => idtac
      end;
      (split; [|reflexivity]);
      cbn [le_value]; rewrite ?byte_to_of_Z_mod;
      Z.div_mod_to_equations; lia.
  - unfold scriptNumSize.
    replace (n >? 2147483647) with true by (symmetry; apply Z.gtb_lt; lia).
    assert (Ht : toInt32 n = n - 2 ^ 32).
    { unfold toInt32. replace (n + 2 ^ 31) with ((n - 2 ^ 31) + 1 * 2 ^ 32) by lia.
      rewrite Z.mod_add by lia. rewrite Z.mod_small by lia. lia. }
    rewrite Ht.
    cbn [le_bytes lookup list_lookup default id].
    rewrite testbit_7_byte, byte_to_of_Z_mod.
    replace (128 <=? (n - 2 ^ 32) / 256 / 256 / 256 / 256 mod 256) with true
      by (symmetry; apply Z.leb_le; Z.div_mod_to_equations; lia).
    cbn [insert list_insert].
    assert (Hb : forall a b, a mod 256 = b mod 256 -> byte_of_Z a = byte_of_Z b).
    { intros a b Hab. unfold byte_of_Z. rewrite Hab. reflexivity. }
    rewrite (Hb (n - 2 ^ 32) n) by (Z.div_mod_to_equations; lia).
    rewrite (Hb ((n - 2 ^ 32) / 256) (n / 256)) by (Z.div_mod_to_equations; lia).
    rewrite (Hb ((n - 2 ^ 32) / 256 / 256) (n / 256 / 256))
      by (Z.div_mod_to_equations; lia).
    rewrite (Hb ((n - 2 ^ 32) / 256 / 256 / 256) (n / 256 / 256 / 256))
      by (Z.div_mod_to_equations; lia).
    split; [|reflexivity].
    cbn [le_value]. rewrite !byte_to_of_Z_mod.
    change (byte_to_Z x00) with 0.
    Z.div_mod_to_equations; lia.
Qed.

Lemma decompile_push (d rest : bytes) :
  (length d < 76)%nat ->
  decompile (compile_chunk (Data d) ++ rest)
  = chunks ← decompile rest;
    Some (match asMinimalOP d with
          | Some op => Op op
          | None => Data d
          end :: chunks).
Proof.
  intros Hlen. destruct (asMinimalOP d) as [op|] eqn:Hmin.
  - assert (Hop : op = 0 \/ 78 < op < 256).
    { unfold asMinimalOP in Hmin. destruct d as [|b [|b' d']]; try discriminate Hmin.
      - injection Hmin as <-. left. reflexivity.
      - pose proof (byte_to_Z_range b) as Hb. cbv zeta in Hmin.
        destruct ((1 <=? byte_to_Z b) && (byte_to_Z b <=? 16)) eqn:Hsmall.
        + injection Hmin as <-. apply andb_true_iff in Hsmall as [H1 H2].
          apply Z.leb_le in H1, H2. right. unfold OPS.OP_RESERVED. lia.
        + destruct (byte_to_Z b =? 129); [|discriminate Hmin].
          injection Hmin as <-. right. unfold OPS.OP_1NEGATE. lia. }
    unfold compile_chunk. rewrite Hmin. cbn [app].
    destruct Hop as [-> | Hop]; [|apply decompile_op; exact Hop].
    unfold decompile. cbn [length decompile_loop].
    change (byte_to_Z (byte_of_Z 0)) with 0.
    change ((OPS.OP_0 <? 0) && (0 <=? OPS.OP_PUSHDATA4)) with false.
    reflexivity.
  - apply decompile_data; assumption.
Qed.

(** X1.  The script of [createHTLCScript] reads back, with
    [script.decompile], as the thirteen chunks it was compiled from: the
    hashlock and the two keys as data, and the locktime as the push of its
    script number, which the minimal-push rule turns into a small-integer
    opcode when the locktime is at most 16. *)
Theorem htlc_script_chunks (config : HTLCConfig) :
  (2 <= length (hashlock config) < 76)%nat ->
  (2 <= length (receiverPublicKey config) < 76)%nat ->
  (2 <= length (senderPublicKey config) < 76)%nat ->
  decompile (createHTLCScript config)
  = Some [ Op OPS.OP_IF; Op OPS.OP_SHA256; Data (hashlock config);
           Op OPS.OP_EQUALVERIFY; Data (receiverPublicKey config);
           Op OPS.OP_CHECKSIG; Op OPS.OP_ELSE;
           match asMinimalOP (number_encode (locktime config)) with
           | Some op => Op op
           | None => Data (number_encode (locktime config))
           end;
           Op OPS.OP_CHECKLOCKTIMEVERIFY; Op OPS.OP_DROP;
           Data (senderPublicKey config); Op OPS.OP_CHECKSIG; Op OPS.OP_ENDIF ].
Proof.
  intros Hh Hr Hs. unfold createHTLCScript.
  pose proof (number_encode_length (locktime config)) as Hn.
  rewrite !compile_cons.
  change (compile []) with (@nil byte).
  repeat first
    [ rewrite decompile_push by lia
    | match goal with
      | |- context [decompile (compile_chunk (Op ?c) ++ ?r)] =>
          change (compile_chunk (Op c) ++ r) with (byte_of_Z c :: r);
          rewrite (decompile_op c r) by (vm_compute; split; reflexivity)
      end ].
  change (decompile []) with (Some (@nil Chunk)).
  rewrite (asMinimalOP_long (hashlock config)) by lia.
  rewrite (asMinimalOP_long (receiverPublicKey config)) by lia.
  rewrite (asMinimalOP_long (senderPublicKey config)) by lia.
  reflexivity.
Qed.

(** X2.  For every locktime from 17 up to 2^32 - 1 the eighth chunk of the
    script is a data push of at most five bytes whose little-endian value
    is the configured locktime; its top bit is clear, so the number is
    not negative. *)
Theorem htlc_script_locktime (config : HTLCConfig) :
  (2 <= length (hashlock config) < 76)%nat ->
  (2 <= length (receiverPublicKey config) < 76)%nat ->
  (2 <= length (senderPublicKey config) < 76)%nat ->
  17 <= locktime config < 2 ^ 32 ->
  exists d,
    decompile (createHTLCScript config) ≫= (fun chunks => chunks !! 7%nat)
      = Some (Data d) /\
    (length d <= 5)%nat /\
    le_value d = locktime config /\
    (forall b, last d = Some b -> Z.testbit (byte_to_Z b) 7 = false).
Proof.
  intros Hh Hr Hs Hl.
  rewrite htlc_script_chunks by assumption.
  exists (number_encode (locktime config)).
  destruct (number_encode_uint32 (locktime config)) as [Hv He]; [lia|].
  assert (Hmin : asMinimalOP (number_encode (locktime config)) = None).
  { destruct (number_encode (locktime config)) as [|b [|b' d']] eqn:Hd;
      [cbn in Hv; lia | | reflexivity].
    cbn [le_value] in Hv. unfold asMinimalOP. cbv zeta.
    replace (byte_to_Z b) with (locktime config) by lia.
    replace ((1 <=? locktime config) && (locktime config <=? 16)) with false
      by (symmetry; apply andb_false_iff; right; apply Z.leb_gt; lia).
    replace (locktime config =? 129) with false; [reflexivity|].
    symmetry. apply Z.eqb_neq. intros Heq.
    rewrite Heq in He. vm_compute in He. discriminate He. }
  cbn [mbind option_bind lookup list_lookup]. rewrite Hmin.
  split; [reflexivity|]. split; [apply number_encode_length|]. split; [exact Hv|].
  intros b Hb. rewrite He in Hb. rewrite testbit_7_byte.
  apply Z.leb_gt.
  destruct (Z.ltb_spec (locktime config) (2 ^ 31)) as [Hlt|Hge].
  - unfold scriptNumSize in Hb.
    repeat match type of Hb with
           | context [?a >? ?b] => destruct (Z.gtb_spec a b)
           end; try lia;
      cbn in Hb; injection Hb as <-;
      rewrite byte_to_of_Z_mod; Z.div_mod_to_equations; lia.
  - rewrite last_snoc in Hb. injection Hb as <-. reflexivity.
Qed.

End script_structure.

Lemma htlc_script_chunks_witness :
  script.decompile
    (HTLCBuilder.createHTLCScript (ExampleLib.config true networks.testnet))
  = Some [ script.Op OPS.OP_IF; script.Op OPS.OP_SHA256;
           script.Data (@sha256 ExampleLib.lib ExampleLib.secret);
           script.Op OPS.OP_EQUALVERIFY; script.Data ExampleLib.receiverKey;
           script.Op OPS.OP_CHECKSIG; script.Op OPS.OP_ELSE;
           script.Data [x00; xf1; x53; x65];
           script.Op OPS.OP_CHECKLOCKTIMEVERIFY; script.Op OPS.OP_DROP;
           script.Data ExampleLib.senderKey; script.Op OPS.OP_CHECKSIG;
           script.Op OPS.OP_ENDIF ].
Proof.
  apply (htlc_script_chunks (ExampleLib.config true networks.testnet));
    simpl; lia.
Defined.

Lemma htlc_script_locktime_witness :
  exists d,
    script.decompile
      (HTLCBuilder.createHTLCScript (ExampleLib.config true networks.testnet))
      ≫= (fun chunks => chunks !! 7%nat) = Some (script.Data d) /\
    (length d <= 5)%nat /\
    le_value d = 1700000000 /\
    (forall b, last d = Some b -> Z.testbit (byte_to_Z b) 7 = false).
Proof.
  apply (htlc_script_locktime (ExampleLib.config true networks.testnet));
    simpl; lia.
Defined.

(** ** The builders of [btc/lib/htlc-builder.ts] *)

Section builder_outputs.
Context `{L : BitcoinLib}.
Import HTLCBuilder.

(** A script [OP_0 <h>] that is recognised as a payment is the plain
    two-byte header followed by a hash of 20 or 32 bytes. *)
Lemma segwit_script_recognised (h : bytes) (net : Network.t) (a : Address) :
  address.fromOutputScript (script.compile [script.Op OPS.OP_0; script.Data h]) net
    = Some a ->
  (length h = 20%nat \/ length h = 32%nat) /\
  a = Bech32 (Network.bech32 net) 0 h /\
  script.compile [script.Op OPS.OP_0; script.Data h]
    = [x00; byte_of_Z (Z.of_nat (length h))] ++ h.
Proof.
  intros Haddr. unfold address.fromOutputScript in Haddr.
  change (script.compile [script.Op OPS.OP_0; script.Data h])
    with (x00 :: (script.compile_chunk (script.Data h) ++ [])) in *.
  rewrite app_nil_r in *.
  set (ls := x00 :: script.compile_chunk (script.Data h)) in *.
  assert (H0 : script.at_ ls 0 = 0) by reflexivity.
  unfold address.isP2PKH, address.isP2SH, address.isP2WPKH, address.isP2WSH,
    address.isFutureSegwit in Haddr.
  rewrite H0 in Haddr.
  change (0 =? OPS.OP_DUP) with false in Haddr.
  change (0 =? OPS.OP_HASH160) with false in Haddr.
  change (0 =? OPS.OP_0) with true in Haddr.
  change (1 <=? 0 - OPS.OP_RESERVED) with false in Haddr.
  rewrite ?andb_false_r, ?andb_true_r in Haddr. cbn [andb] in Haddr.
  assert (Hshape :
    (length ls = 22%nat /\ script.at_ ls 1 = 20
     \/ length ls = 34%nat /\ script.at_ ls 1 = 32)
    /\ a = Bech32 (Network.bech32 net) 0 (drop 2 ls)).
  { destruct (Nat.eqb_spec (length ls) 22) as [H22|_];
      destruct (Nat.eqb_spec (length ls) 34) as [H34|_];
      cbn [andb] in Haddr; try lia.
    - destruct (Z.eqb_spec (script.at_ ls 1) 20); [|discriminate].
      injection Haddr as <-. auto.
    - destruct (Z.eqb_spec (script.at_ ls 1) 32); [|discriminate].
      injection Haddr as <-. auto.
    - discriminate. }
  clear Haddr. destruct Hshape as [Hshape ->].
  subst ls. unfold script.compile_chunk in *.
  destruct (script.asMinimalOP h) as [op|].
  { cbn [length] in Hshape. lia. }
  unfold script.pushdata.encode in *.
  unfold script.at_ in Hshape.
  destruct (Z.ltb_spec (Z.of_nat (length h)) OPS.OP_PUSHDATA1) as [Hlt|_].
  - unfold OPS.OP_PUSHDATA1 in Hlt.
    cbn [app length lookup list_lookup default id] in Hshape.
    rewrite byte_to_of_Z in Hshape by lia.
    cbn [app drop]. split; [lia|]. split; reflexivity.
  - exfalso.
    destruct (Z.leb_spec (Z.of_nat (length h)) 255);
      [|destruct (Z.leb_spec (Z.of_nat (length h)) 65535)];
      cbn [app length lookup list_lookup default id] in Hshape;
      vm_compute (byte_to_Z (byte_of_Z _)) in Hshape; lia.
Qed.

Lemma p2sh_script_recognised (h : bytes) (net : Network.t) (a : Address) :
  address.fromOutputScript
    (script.compile [script.Op OPS.OP_HASH160; script.Data h; script.Op OPS.OP_EQUAL])
    net = Some a ->
  length h = 20%nat /\
  a = Base58Check (Network.scriptHash net) h /\
  script.compile [script.Op OPS.OP_HASH160; script.Data h; script.Op OPS.OP_EQUAL]
    = [xa9; x14] ++ h ++ [x87].
Proof.
  intros Haddr. unfold address.fromOutputScript in Haddr.
  change (script.compile
            [script.Op OPS.OP_HASH160; script.Data h; script.Op OPS.OP_EQUAL])
    with (xa9 :: (script.compile_chunk (script.Data h) ++ [x87] ++ [])) in *.
  rewrite app_nil_r in *.
  set (ls := xa9 :: (script.compile_chunk (script.Data h) ++ [x87])) in *.
  assert (H0 : script.at_ ls 0 = 169) by reflexivity.
  unfold address.isP2PKH, address.isP2SH, address.isP2WPKH, address.isP2WSH,
    address.isFutureSegwit in Haddr.
  rewrite H0 in Haddr.
  change (169 =? OPS.OP_DUP) with false in Haddr.
  change (169 =? OPS.OP_HASH160) with true in Haddr.
  rewrite ?andb_false_r, ?andb_true_r in Haddr. cbn [andb] in Haddr.
  assert (Hshape :
    (length ls = 23%nat /\ script.at_ ls 1 = 20)
    /\ a = Base58Check (Network.scriptHash net) (take 20 (drop 2 ls))).
  { destruct (Nat.eqb_spec (length ls) 23) as [H23|Hn23]; cbn [andb] in Haddr.
    - destruct (Z.eqb_spec (script.at_ ls 1) 20); cbn [andb] in Haddr.
      + destruct (script.at_ ls 22 =? OPS.OP_EQUAL).
        * injection Haddr as <-. auto.
        * exfalso. revert Haddr.
          change (169 =? OPS.OP_0) with false. cbn [andb].
          rewrite ?andb_false_r. cbn [andb].
          change (1 <=? 169 - OPS.OP_RESERVED) with true.
          change (169 - OPS.OP_RESERVED <=? 16) with false. cbn [andb].
          discriminate.
      + exfalso. revert Haddr.
        change (169 =? OPS.OP_0) with false. cbn [andb].
        rewrite ?andb_false_r. cbn [andb].
        change (1 <=? 169 - OPS.OP_RESERVED) with true.
        change (169 - OPS.OP_RESERVED <=? 16) with false. cbn [andb].
        discriminate.
    - exfalso. revert Haddr.
      change (169 =? OPS.OP_0) with false. cbn [andb].
      rewrite ?andb_false_r. cbn [andb].
      change (1 <=? 169 - OPS.OP_RESERVED) with true.
      change (169 - OPS.OP_RESERVED <=? 16) with false. cbn [andb].
      discriminate. }
  clear Haddr. destruct Hshape as [Hshape ->].
  subst ls. unfold script.compile_chunk in *.
  destruct (script.asMinimalOP h) as [op|].
  { cbn [length app] in Hshape. lia. }
  unfold script.pushdata.encode in *.
  unfold script.at_ in Hshape.
  destruct (Z.ltb_spec (Z.of_nat (length h)) OPS.OP_PUSHDATA1) as [Hlt|_].
  - unfold OPS.OP_PUSHDATA1 in Hlt.
    cbn [app length lookup list_lookup default id] in Hshape.
    rewrite byte_to_of_Z in Hshape by lia.
    rewrite length_app in Hshape. cbn [length] in Hshape.
    assert (Hlen : length h = 20%nat) by lia.
    cbn [app drop]. rewrite drop_0, take_app_length' by (symmetry; exact Hlen).
    split; [exact Hlen|]. split; [reflexivity|].
    rewrite Hlen. reflexivity.
  - exfalso.
    destruct (Z.leb_spec (Z.of_nat (length h)) 255);
      [|destruct (Z.leb_spec (Z.of_nat (length h)) 65535)];
      cbn [app length lookup list_lookup default id] in Hshape;
      vm_compute (byte_to_Z (byte_of_Z _)) in Hshape; lia.
Qed.

(** X3.  The address that [createHTLC] returns stands for its locking
    script: [address.toOutputScript] on the HTLC's own network gives the
    locking script back, so an output paying the address is locked by the
    HTLC.  The locking script is the witness program [00 <len> <sha256>]
    in segwit mode and [a9 14 <hash160> 87] in legacy mode.  In legacy
    mode the network must tell script hashes from public key hashes. *)
Theorem htlc_address_pays_locking_script (config : HTLCConfig) (htlc : HTLCOutput) :
  createHTLC config = Ok htlc ->
  truthy (useSegwit config) = true
    \/ Network.pubKeyHash (network config) <> Network.scriptHash (network config) ->
  address.toOutputScript (address htlc) (network config) = Some (lockingScript htlc) /\
  lockingScript htlc
  = (if truthy (useSegwit config)
     then [x00; byte_of_Z (Z.of_nat (length (scriptHash htlc)))] ++ scriptHash htlc
     else [xa9; x14] ++ scriptHash htlc ++ [x87]).
Proof.
  intros H Hnet. destruct (truthy (useSegwit config)) eqn:Hseg.
  - apply createHTLC_segwit_inv in H as (_ & _ & Hsh & Hls & Haddr); [|exact Hseg].
    rewrite Hls in Haddr.
    apply segwit_script_recognised in Haddr as (Hlen & -> & Hbytes).
    rewrite Hls, Hsh. split; [|exact Hbytes].
    unfold address.toOutputScript. rewrite String.eqb_refl. cbn [negb].
    change (0 =? 0) with true. cbv iota.
    destruct Hlen as [-> | ->]; reflexivity.
  - destruct Hnet as [Hc | Hnet]; [discriminate Hc|].
    apply createHTLC_legacy_inv in H as (_ & _ & Hsh & Hls & Haddr); [|exact Hseg].
    rewrite Hls in Haddr.
    apply p2sh_script_recognised in Haddr as (Hlen & -> & Hbytes).
    rewrite Hls, Hsh. split; [|exact Hbytes].
    unfold address.toOutputScript. rewrite Hlen. cbn [Nat.eqb negb].
    replace (Network.scriptHash (network config) =? Network.pubKeyHash (network config))
      with false by (symmetry; apply Z.eqb_neq; congruence).
    rewrite Z.eqb_refl. reflexivity.
Qed.

End builder_outputs.

Lemma htlc_address_pays_locking_script_witness :
  exists htlc,
    HTLCBuilder.createHTLC (L := ExampleLib.lib)
      (ExampleLib.config true networks.testnet) = Ok htlc /\
    address.toOutputScript (L := ExampleLib.lib) (HTLCBuilder.address htlc)
      networks.testnet = Some (HTLCBuilder.lockingScript htlc) /\
    HTLCBuilder.lockingScript htlc
    = [x00; x20] ++ HTLCBuilder.scriptHash htlc.
Proof.
  eexists. split; [vm_compute; reflexivity|].
  apply (htlc_address_pays_locking_script (L := ExampleLib.lib)
           (ExampleLib.config true networks.testnet));
    [vm_compute; reflexivity | left; reflexivity].
Defined.

Section funding_layout.
Context `{L : BitcoinLib}.
Import HTLCBuilder.

Lemma addInput_fresh (p p' : Psbt.t) (d : Psbt.InputData) :
  Psbt.addInput p d = Ok p' ->
  ~ In (reverse (fromHex (Psbt.in_hash d)), Psbt.in_index d)
      (map (fun i => (Transaction.hash i, Transaction.index i))
         (Transaction.ins (Psbt.tx p))).
Proof.
  unfold Psbt.addInput. intros H.
  inv_bind H. inv_bind H. clear H E. apply check_Ok_inv in E0.
  apply negb_true_iff in E0. intros Hin.
  apply in_map_iff in Hin as (i & Hi & Hin).
  injection Hi as Hh Hidx.
  assert (Hex : existsb
            (fun i => bool_decide (Transaction.hash i = reverse (fromHex (Psbt.in_hash d)))
                        && (Transaction.index i =? Psbt.in_index d))
            (Transaction.ins (Psbt.tx p)) = true).
  { apply existsb_exists. exists i. split; [exact Hin|].
    rewrite bool_decide_eq_true_2 by exact Hh. rewrite Hidx, Z.eqb_refl. reflexivity. }
  congruence.
Qed.

Lemma addUtxoInputs_ins (utxos : list Utxo) (p p' : Psbt.t) :
  addUtxoInputs p utxos = Ok p' ->
  Transaction.version (Psbt.tx p') = Transaction.version (Psbt.tx p) /\
  Transaction.locktime (Psbt.tx p') = Transaction.locktime (Psbt.tx p) /\
  Transaction.ins (Psbt.tx p')
    = Transaction.ins (Psbt.tx p)
        ++ map (fun u => {| Transaction.hash := reverse (fromHex (utxo_txid u));
                            Transaction.index := utxo_vout u;
                            Transaction.script := [];
                            Transaction.sequence := Transaction.DEFAULT_SEQUENCE;
                            Transaction.witness := [] |}) utxos /\
  map bip174.witnessUtxo (Psbt.inputs p')
    = map bip174.witnessUtxo (Psbt.inputs p)
        ++ map (fun u => Some (fromHex (utxo_scriptPubKey u), utxo_value u)) utxos /\
  (NoDup (map (fun i => (Transaction.hash i, Transaction.index i))
            (Transaction.ins (Psbt.tx p))) ->
   NoDup (map (fun i => (Transaction.hash i, Transaction.index i))
            (Transaction.ins (Psbt.tx p')))).
Proof.
  revert p. induction utxos as [|utxo rest IH]; intros p H; cbn in H.
  - injection H as <-. rewrite !app_nil_r. auto.
  - inv_bind H. pose proof (addInput_fresh _ _ _ E) as Hfresh.
    apply addInput_inv in E
      as (_ & _ & _ & _ & Hv & Hl & _ & Hins & Hinputs).
    apply IH in H as (Hv' & Hl' & Hins' & Hinputs' & Hnd).
    cbn -[reverse] in Hins, Hinputs, Hfresh.
    split; [congruence|]. split; [congruence|].
    split; [rewrite Hins', Hins, <- app_assoc; reflexivity|].
    split; [rewrite Hinputs', Hinputs, map_app, <- app_assoc; reflexivity|].
    intros Hnd0. apply Hnd. rewrite Hins, map_app. cbn [map].
    apply NoDup_app. split; [exact Hnd0|]. split.
    + intros y Hy Hy'. apply list_elem_of_singleton in Hy'. subst y.
      apply Hfresh. apply list_elem_of_In. exact Hy.
    + apply NoDup_singleton.
Qed.

Lemma signInputsFrom_inputs (keyPair : ECPair.t) (n i : nat) (p p' : Psbt.t) :
  signInputsFrom p keyPair i n = Ok p' ->
  map bip174.witnessUtxo (Psbt.inputs p') = map bip174.witnessUtxo (Psbt.inputs p).
Proof.
  revert i p. induction n as [|k IH]; intros i p H; cbn in H.
  - injection H as <-. reflexivity.
  - inv_bind H. apply signInput_inv in E as (input & sig & Hlook & _ & _ & Hin).
    apply IH in H. rewrite H, Hin.
    change map with (@fmap list _) at 1 2.
    rewrite list_fmap_insert. cbn [bip174.witnessUtxo].
    apply list_insert_id. rewrite list_lookup_fmap, Hlook. reflexivity.
Qed.

Lemma finalizeFrom_inputs (n i : nat) (p p' : Psbt.t) :
  Psbt.finalizeFrom p i n = Ok p' ->
  map bip174.witnessUtxo (Psbt.inputs p') = map bip174.witnessUtxo (Psbt.inputs p).
Proof.
  revert i p. induction n as [|k IH]; intros i p H; cbn in H.
  - injection H as <-. reflexivity.
  - inv_bind H. apply finalizeInput_inv in E
      as (input & fss & fsw & Hlook & _ & _ & _ & Hin).
    apply IH in H. rewrite H, Hin.
    change map with (@fmap list _) at 1 2.
    rewrite list_fmap_insert. cbn [bip174.witnessUtxo].
    apply list_insert_id. rewrite list_lookup_fmap, Hlook. reflexivity.
Qed.

(** Finalizing copies scripts and witnesses into the inputs and leaves
    the outpoints and sequence numbers alone. *)
Lemma finalizeTxInputs_outpoints (ins ins' : list Transaction.Input)
    (inputs : list bip174.PsbtInput) :
  mapM (fun '(txin, input) => Psbt.finalizeTxInput txin input) (zip ins inputs)
    = Some ins' ->
  length ins = length inputs ->
  map (fun i => (Transaction.hash i, Transaction.index i, Transaction.sequence i)) ins'
  = map (fun i => (Transaction.hash i, Transaction.index i, Transaction.sequence i)) ins.
Proof.
  intros H Hlen. apply mapM_Some in H.
  rewrite <- (fst_zip ins inputs) by lia.
  clear Hlen. generalize dependent (zip ins inputs). intros z H.
  induction H as [|[txin input] txin' l k Hf _ IH]; [reflexivity|].
  cbn [map fmap list_fmap fst]. f_equal; [|exact IH].
  unfold Psbt.finalizeTxInput in Hf.
  destruct (match bip174.finalScriptWitness input with
            | Some fsw => scriptWitnessToWitnessStack fsw
            | None => Some (Transaction.witness txin)
            end) as [w|]; [|discriminate Hf].
  injection Hf as <-. reflexivity.
Qed.

Lemma extractFundingTransaction_layout (config : HTLCConfig) (utxos : list Utxo)
    (amount : Z) (changeAddress : Address) (feeRate : Q) (privateKey : bytes)
    (tx : Transaction.t) (fee : Z) :
  extractFundingTransaction config utxos amount changeAddress feeRate privateKey
    = Ok (tx, fee) ->
  exists htlc htlcScript,
    createHTLC config = Ok htlc /\
    address.toOutputScript (address htlc) (network config) = Some htlcScript /\
    Transaction.outs tx !! 0%nat
      = Some {| Transaction.out_script := htlcScript; Transaction.value := amount |} /\
    Transaction.version tx = 2 /\
    Transaction.locktime tx = 0 /\
    map (fun i => (Transaction.hash i, Transaction.index i, Transaction.sequence i))
      (Transaction.ins tx)
    = map (fun u => (reverse (fromHex (utxo_txid u)), utxo_vout u,
                     Transaction.DEFAULT_SEQUENCE)) utxos /\
    sumZ (map Transaction.value (Transaction.outs tx)) <= sumZ (map utxo_value utxos).
Proof.
  unfold extractFundingTransaction. intros H.
  inv_bind H. rename x into htlc, E into Ehtlc.
  inv_bind H. rename x into keyPair.
  inv_bind H. rename x into p1, E0 into Ein.
  pose proof (addUtxoInputs_inv _ _ _ Ein) as (Hnet1 & Houts1 & _).
  apply addUtxoInputs_ins in Ein as (Hv1 & Hl1 & Hins1 & Hwu1 & _).
  cbn -[reverse] in Hnet1, Houts1, Hv1, Hl1, Hins1, Hwu1.
  inv_bind H. rename x into p2, E0 into Eout.
  apply addOutput_inv in Eout
    as (htlcScript & Hscript & _ & Hnet2 & Hin2 & Hv2 & Hl2 & Hins2 & Houts2).
  rewrite Hnet1 in Hscript. rewrite Houts1 in Houts2. cbn in Houts2.
  inv_bind H. rename x into p3, E0 into Echange.
  inv_bind H. rename x into p4, E0 into Esign.
  inv_bind H. rename x into p5, E0 into Efin.
  inv_bind H. rename x into tx', E0 into Eext.
  injection H as <- <-.
  assert (H3 : Psbt.inputs p3 = Psbt.inputs p2 /\
               Transaction.version (Psbt.tx p3) = Transaction.version (Psbt.tx p2) /\
               Transaction.locktime (Psbt.tx p3) = Transaction.locktime (Psbt.tx p2) /\
               Transaction.ins (Psbt.tx p3) = Transaction.ins (Psbt.tx p2) /\
               Transaction.outs (Psbt.tx p3) !! 0%nat
                 = Some {| Transaction.out_script := htlcScript;
                           Transaction.value := amount |}).
  { destruct (_ >? 546).
    - apply addOutput_inv in Echange
        as (changeScript & _ & _ & _ & Hin3 & Hv3 & Hl3 & Hins3 & Houts3).
      rewrite Houts3, Houts2. auto.
    - injection Echange as <-. rewrite Houts2. auto. }
  destruct H3 as (Hin3 & Hv3 & Hl3 & Hins3 & Houts3).
  pose proof (signInputsFrom_inputs _ _ _ _ _ Esign) as Hwu4.
  apply signInputsFrom_tx in Esign.
  apply finalizeAllInputs_inv in Efin as [_ Efin].
  pose proof (finalizeFrom_inputs _ _ _ _ Efin) as Hwu5.
  apply finalizeFrom_tx in Efin.
  assert (Htx5 : Psbt.tx p5 = Psbt.tx p3) by congruence.
  assert (Hwu : map bip174.witnessUtxo (Psbt.inputs p5)
                = map (fun u => Some (fromHex (utxo_scriptPubKey u), utxo_value u)) utxos).
  { rewrite Hwu5, Hwu4, Hin3, Hin2, Hwu1. reflexivity. }
  assert (Hins5 : Transaction.ins (Psbt.tx p5)
                  = map (fun u => {| Transaction.hash := reverse (fromHex (utxo_txid u));
                                     Transaction.index := utxo_vout u;
                                     Transaction.script := [];
                                     Transaction.sequence := Transaction.DEFAULT_SEQUENCE;
                                     Transaction.witness := [] |}) utxos).
  { rewrite Htx5, Hins3, Hins2, Hins1. reflexivity. }
  apply extractTransaction_inv in Eext as (ins' & Hmap & -> & Hfee).
  apply finalizeTxInputs_outpoints in Hmap.
  2:{ rewrite Hins5, length_map.
      rewrite <- (length_map bip174.witnessUtxo), Hwu, length_map. reflexivity. }
  exists htlc, htlcScript.
  split; [exact Ehtlc|]. split; [exact Hscript|].
  cbn [Transaction.outs Transaction.version Transaction.locktime Transaction.ins].
  split; [rewrite Htx5; exact Houts3|].
  split; [rewrite Htx5, Hv3, Hv2; exact Hv1|].
  split; [rewrite Htx5, Hl3, Hl2; exact Hl1|].
  split.
  - rewrite Hmap, Hins5, map_map. reflexivity.
  - unfold Psbt.inputAmount, Psbt.outputAmount in Hfee.
    cbn [Transaction.outs] in Hfee.
    rewrite <- (map_map bip174.witnessUtxo (from_option snd 0)) in Hfee.
    rewrite Hwu, map_map in Hfee. cbn [from_option snd] in Hfee.
    change (fun x : Utxo => utxo_value x) with utxo_value in Hfee. lia.
Qed.

(** X4.  In a funding transaction returned by [createFundingTransaction]
    output 0 carries the requested amount and is locked by the HTLC's
    locking script; the inputs are the given UTXOs in order, each with
    the byte-reversed transaction id, its output index and the final
    sequence number; version is 2 and the locktime 0.  The outputs never
    carry more than the UTXOs hold. *)
Theorem funding_transaction_layout (config : HTLCConfig) (utxos : list Utxo)
    (amount : Z) (changeAddress : Address) (feeRate : Q) (privateKey : bytes)
    (r : HTLCTransaction) :
  createFundingTransaction config utxos amount changeAddress feeRate privateKey
    = Ok r ->
  truthy (useSegwit config) = true
    \/ Network.pubKeyHash (network config) <> Network.scriptHash (network config) ->
  exists tx htlc,
    hex r = Transaction.toHex tx /\
    createHTLC config = Ok htlc /\
    Transaction.outs tx !! 0%nat
      = Some {| Transaction.out_script := lockingScript htlc;
                Transaction.value := amount |} /\
    Transaction.version tx = 2 /\
    Transaction.locktime tx = 0 /\
    map (fun i => (Transaction.hash i, Transaction.index i, Transaction.sequence i))
      (Transaction.ins tx)
    = map (fun u => (reverse (fromHex (utxo_txid u)), utxo_vout u, 4294967295)) utxos /\
    sumZ (map Transaction.value (Transaction.outs tx)) <= sumZ (map utxo_value utxos).
Proof.
  unfold createFundingTransaction. intros H Hnet.
  inv_bind H. destruct x as [tx fee]. injection H as <-.
  apply extractFundingTransaction_layout in E
    as (htlc & htlcScript & Ehtlc & Hscript & Hout & Hv & Hl & Hins & Hsum).
  destruct (htlc_address_pays_locking_script config htlc Ehtlc Hnet) as [Hto _].
  rewrite Hto in Hscript. injection Hscript as <-.
  exists tx, htlc. cbn [hex toHTLCTransaction]. auto 10.
Qed.

End funding_layout.

Section spending_layout.
Context `{L : BitcoinLib}.
Import HTLCBuilder.

(** X5.  A funding transaction is only returned when the UTXOs name
    pairwise different outpoints: the PSBT refuses an input that spends
    the same (txid, vout) as an earlier one. *)
Theorem funding_inputs_distinct (config : HTLCConfig) (utxos : list Utxo)
    (amount : Z) (changeAddress : Address) (feeRate : Q) (privateKey : bytes)
    (r : HTLCTransaction) :
  createFundingTransaction config utxos amount changeAddress feeRate privateKey
    = Ok r ->
  NoDup (map (fun u => (fromHex (utxo_txid u), utxo_vout u)) utxos).
Proof.
  unfold createFundingTransaction, extractFundingTransaction. intros H.
  inv_bind H. clear H. rename E into H.
  inv_bind H. inv_bind H. inv_bind H. clear H E E0.
  apply addUtxoInputs_ins in E1 as (_ & _ & Hins & _ & Hnd).
  cbn -[reverse] in Hins, Hnd. rewrite Hins in Hnd.
  specialize (Hnd (NoDup_nil_2)). rewrite map_map in Hnd. cbn -[reverse] in Hnd.
  apply (NoDup_fmap_1 (fun '(h, v) => (reverse h, v))).
  change (@fmap list _) with map. rewrite map_map. exact Hnd.
Qed.

Lemma spend_steps_feeRate (p1 p2 p3 p4 : Psbt.t) (keyPair : ECPair.t)
    (destinationAddress : Address) (outputAmount : Z)
    (pin : bip174.PsbtInput)
    (finalizer : bip174.PsbtInput -> Result (option bytes * option bytes))
    (tx : Transaction.t) :
  Transaction.outs (Psbt.tx p1) = [] ->
  Psbt.inputs p1 = [pin] ->
  Psbt.addOutput p1 destinationAddress outputAmount = Ok p2 ->
  Psbt.signInput p2 0 keyPair = Ok p3 ->
  Psbt.finalizeInput p3 0 finalizer = Ok p4 ->
  Psbt.extractTransaction p4 = Ok tx ->
  (from_option snd 0 (bip174.witnessUtxo pin) - outputAmount)
    / Transaction.virtualSize tx < Psbt.maximumFeeRate.
Proof.
  intros Houts Hinputs Hout Hsign Hfin Hext.
  apply addOutput_inv in Hout as (out & _ & _ & _ & Hin2 & _ & _ & _ & Ho2).
  apply signInput_inv in Hsign as (input & sig & Hlook & _ & Htx3 & Hin3).
  rewrite Hin2, Hinputs in Hlook. injection Hlook as <-.
  rewrite Hin2, Hinputs in Hin3. cbn in Hin3.
  apply finalizeInput_inv in Hfin as (input' & fss & fsw & Hlook' & _ & _ & Htx4 & Hin4).
  rewrite Hin3 in Hlook'. injection Hlook' as <-.
  rewrite Hin3 in Hin4. cbn in Hin4.
  unfold Psbt.extractTransaction in Hext.
  inv_bind Hext. inv_bind Hext. inv_bind Hext. inv_bind Hext.
  injection Hext as <-. apply check_Ok_inv in E2. apply Z.ltb_lt in E2.
  unfold Psbt.inputAmount, Psbt.outputAmount, sumZ in E2.
  rewrite Hin4, Htx4, Htx3, Ho2, Houts in E2.
  cbn [foldr map app Transaction.outs Transaction.value bip174.witnessUtxo] in E2.
  rewrite !Z.add_0_r in E2.
  rewrite Htx4, Htx3, Ho2, Houts. cbn [app]. exact E2.
Qed.

Lemma extractClaimTransaction_feeRate (config : HTLCConfig) (htlcTxid : string)
    (htlcVout htlcAmount : Z) (secret : bytes) (destinationAddress : Address)
    (feeRate : Q) (privateKey : bytes) (tx : Transaction.t) (fee : Z) :
  extractClaimTransaction config htlcTxid htlcVout htlcAmount secret
    destinationAddress feeRate privateKey = Ok (tx, fee) ->
  fee / Transaction.virtualSize tx < 5000.
Proof.
  unfold extractClaimTransaction. intros H.
  inv_bind H. inv_bind H. inv_bind H. rename x1 into p1, E1 into Ein.
  destruct (truthy (useSegwit config)); [|discriminate].
  apply addInput_inv in Ein as (_ & _ & _ & _ & _ & _ & Houts & _ & Hinputs).
  cbn in Houts, Hinputs.
  inv_bind H. inv_bind H. inv_bind H. inv_bind H. injection H as <- <-.
  pose proof (spend_steps_feeRate _ _ _ _ _ _ _ _ _ _ Houts Hinputs E1 E2 E3 E4) as Hr.
  cbn [bip174.witnessUtxo from_option snd] in Hr.
  unfold Psbt.maximumFeeRate in Hr.
  match type of Hr with
  | (?a - (?a - ?f)) / _ < _ => replace (a - (a - f)) with f in Hr by lia
  end.
  exact Hr.
Qed.

Lemma extractRefundTransaction_feeRate (config : HTLCConfig) (htlcTxid : string)
    (htlcVout htlcAmount : Z) (destinationAddress : Address)
    (feeRate : Q) (privateKey : bytes) (tx : Transaction.t) (fee : Z) :
  extractRefundTransaction config htlcTxid htlcVout htlcAmount
    destinationAddress feeRate privateKey = Ok (tx, fee) ->
  fee / Transaction.virtualSize tx < 5000.
Proof.
  unfold extractRefundTransaction. intros H.
  inv_bind H. inv_bind H. inv_bind H. rename x1 into p1, E1 into Ein.
  destruct (truthy (useSegwit config)); [|discriminate].
  apply addInput_inv in Ein as (_ & _ & _ & _ & _ & _ & Houts & _ & Hinputs).
  cbn in Houts, Hinputs.
  inv_bind H. apply setLocktime_inv in E1 as (_ & _ & Hinputs' & _ & _ & _ & Houts').
  rewrite Houts in Houts'. rewrite Hinputs in Hinputs'.
  inv_bind H. inv_bind H. inv_bind H. inv_bind H. injection H as <- <-.
  pose proof (spend_steps_feeRate _ _ _ _ _ _ _ _ _ _ Houts' Hinputs' E1 E2 E3 E4) as Hr.
  cbn [bip174.witnessUtxo from_option snd] in Hr.
  unfold Psbt.maximumFeeRate in Hr.
  match type of Hr with
  | (?a - (?a - ?f)) / _ < _ => replace (a - (a - f)) with f in Hr by lia
  end.
  exact Hr.
Qed.

(** X6.  A claim and a refund returned by the builders have one input,
    spending the given outpoint, and one output: the destination
    receives the HTLC amount less the fee, the fee is ceil(150 * feeRate)
    with the product rounded to a double as JavaScript does (for an
    integer rate it is 150 * rate) and equals the input value less the
    output value, and the amount paid out is never negative.  The claim is final (sequence 0xffffffff,
    locktime 0); the refund carries the configured locktime.  Neither is
    returned when the fee reaches 5000 satoshis per virtual byte. *)
Theorem spend_pays_amount_less_fee (config : HTLCConfig) (htlcTxid : string)
    (htlcVout htlcAmount : Z) (secret : bytes) (destinationAddress : Address)
    (feeRate : Q) (privateKey : bytes) (r : HTLCTransaction) :
  Number.isFinite feeRate = true ->
  let layout (lock seq : Z) :=
    exists tx out,
      hex r = Transaction.toHex tx /\
      vsize r = Transaction.virtualSize tx /\
      fee r = Math_ceil (Number.mul (inject_Z 150) feeRate) /\
      (forall rate : Z,
         feeRate = inject_Z rate -> Z.abs (150 * rate) < 2 ^ 53 -> fee r = 150 * rate) /\
      fee r / vsize r < 5000 /\
      address.toOutputScript destinationAddress (network config) = Some out /\
      Transaction.outs tx
        = [{| Transaction.out_script := out;
              Transaction.value := htlcAmount - fee r |}] /\
      0 <= htlcAmount - fee r /\
      Transaction.version tx = 2 /\
      Transaction.locktime tx = lock /\
      map (fun i => (Transaction.hash i, Transaction.index i, Transaction.sequence i))
        (Transaction.ins tx)
        = [(reverse (fromHex htlcTxid), htlcVout, seq)] in
  (createClaimTransaction config htlcTxid htlcVout htlcAmount secret
     destinationAddress feeRate privateKey = Ok r ->
   layout 0 4294967295) /\
  (createRefundTransaction config htlcTxid htlcVout htlcAmount
     destinationAddress feeRate privateKey = Ok r ->
   layout (locktime config) 4294967294).
Proof.
  intros _. cbv zeta. split; intros H.
  - unfold createClaimTransaction in H.
    inv_bind H. destruct x as [tx f]. injection H as <-.
    pose proof (extractClaimTransaction_feeRate _ _ _ _ _ _ _ _ _ _ E) as Hrate.
    apply extractClaimTransaction_inv in E
      as (sig & out & w & _ & _ & _ & _ & Hout & Hrange & Hfee & _ & ->).
    eexists _, out. cbn [hex vsize fee toHTLCTransaction].
    split; [reflexivity|]. split; [reflexivity|]. split; [exact Hfee|].
    split; [intros rate -> Hsmall; rewrite Hfee; apply ceil_mul_integers; exact Hsmall|].
    split; [exact Hrate|]. split; [exact Hout|]. split; [reflexivity|].
    split; [lia|]. split; [reflexivity|]. split; reflexivity.
  - unfold createRefundTransaction in H.
    inv_bind H. destruct x as [tx f]. injection H as <-.
    pose proof (extractRefundTransaction_feeRate _ _ _ _ _ _ _ _ _ E) as Hrate.
    apply extractRefundTransaction_inv in E
      as (sig & out & w & _ & _ & _ & _ & _ & Hout & Hrange & Hfee & _ & ->).
    eexists _, out. cbn [hex vsize fee toHTLCTransaction].
    split; [reflexivity|]. split; [reflexivity|]. split; [exact Hfee|].
    split; [intros rate -> Hsmall; rewrite Hfee; apply ceil_mul_integers; exact Hsmall|].
    split; [exact Hrate|]. split; [exact Hout|]. split; [reflexivity|].
    split; [lia|]. split; [reflexivity|]. split; reflexivity.
Qed.

(** X7.  [extractSecretFromTransaction] does not tell a refund from a
    claim: on a refund transaction of the builder (keys of 33 bytes,
    hashlock of 32 bytes) it returns the one-byte branch selector 00, the
    second witness element, as if it were the secret. *)
Theorem extractSecret_on_refund (config : HTLCConfig) (htlcTxid : string)
    (htlcVout htlcAmount : Z) (destinationAddress : Address)
    (feeRate : Q) (privateKey : bytes) (r : HTLCTransaction) (witnessScript : bytes) :
  length (senderPublicKey config) = 33%nat ->
  length (receiverPublicKey config) = 33%nat ->
  length (hashlock config) = 32%nat ->
  createRefundTransaction config htlcTxid htlcVout htlcAmount
    destinationAddress feeRate privateKey = Ok r ->
  extractSecretFromTransaction (hex r) witnessScript = Value (script.Data [x00]).
Proof.
  intros Hs Hr Hh H. unfold createRefundTransaction in H.
  inv_bind H. destruct x as [tx f]. injection H as <-.
  apply extractRefundTransaction_inv in E
    as (sig & out & w & Hseg & Hdec & Hlen & Hidx & Hlock & Hout & Hrange & _
        & Hw & ->).
  pose proof (signature_decode_length _ Hdec) as Hsiglen.
  pose proof (createHTLCScript_length config Hs Hr Hh) as Hscript.
  rewrite witness_stack_parsed in Hw.
  2:{ simpl. lia. }
  2:{ stack_small. }
  injection Hw as <-.
  destruct (spend_tx_wf (reverse (fromHex htlcTxid)) out htlcVout
              4294967294 (locktime config) (htlcAmount - f)
              destinationAddress (network config)
              [sig; [x00]; createHTLCScript config])
    as [Hwf Hwit];
    [exact Hlen|exact Hidx|reflexivity|exact Hlock|exact Hout|exact Hrange
    |discriminate|simpl; lia|stack_small|].
  unfold extractSecretFromTransaction. cbn [hex toHTLCTransaction].
  rewrite (fromHex_toHex_tx _ Hwf Hwit). reflexivity.
Qed.

End spending_layout.

Section bad_outpoint.
Context `{L : BitcoinLib}.
Import HTLCBuilder.

Lemma addInput_bad_outpoint (p : Psbt.t) (d : Psbt.InputData) :
  length (fromHex (Psbt.in_hash d)) <> 32%nat
    \/ ~ 0 <= Psbt.in_index d <= 4294967295 ->
  Psbt.addInput p d = Err AddInputFailed.
Proof.
  intros Hbad. unfold Psbt.addInput.
  replace ((length (reverse (fromHex (Psbt.in_hash d))) =? 32)%nat
             && isUInt32 (Psbt.in_index d)
             && from_option isUInt32 true (Psbt.in_sequence d)) with false;
    [reflexivity|].
  symmetry. apply andb_false_iff. left. apply andb_false_iff.
  destruct Hbad as [Hlen | Hidx].
  - left. rewrite length_reverse. apply Nat.eqb_neq. exact Hlen.
  - right. unfold isUInt32. apply andb_false_iff.
    destruct (Z.leb_spec 0 (Psbt.in_index d)); [right|left; reflexivity].
    apply Z.leb_gt. lia.
Qed.

(** X8.  A funding reference that is not a transaction id of 32 bytes in
    hexadecimal, or an output index outside 32 bits, is refused by both
    spending builders before anything is signed. *)
Theorem spend_rejects_bad_outpoint (config : HTLCConfig) (htlcTxid : string)
    (htlcVout htlcAmount : Z) (secret : bytes) (destinationAddress : Address)
    (feeRate : Q) (privateKey : bytes) :
  length (fromHex htlcTxid) <> 32%nat \/ ~ 0 <= htlcVout <= 4294967295 ->
  (exists e,
     createClaimTransaction config htlcTxid htlcVout htlcAmount secret
       destinationAddress feeRate privateKey = Err e /\ before_signing e) /\
  (exists e,
     createRefundTransaction config htlcTxid htlcVout htlcAmount
       destinationAddress feeRate privateKey = Err e /\ before_signing e).
Proof.
  intros Hbad.
  unfold createClaimTransaction, extractClaimTransaction,
    createRefundTransaction, extractRefundTransaction.
  destruct (createHTLC config) as [htlc|e] eqn:E1; cbn [mbind Result_bind].
  2:{ apply createHTLC_Err in E1 as ->.
      split; eexists; (split; [reflexivity|exact I]). }
  destruct (ECPair.fromPrivateKey privateKey) as [keyPair|e] eqn:E2;
    cbn [mbind Result_bind].
  2:{ apply fromPrivateKey_Err in E2 as ->.
      split; eexists; (split; [reflexivity|exact I]). }
  destruct (truthy (useSegwit config)); cbn [mbind Result_bind].
  2:{ split; eexists; (split; [reflexivity|exact I]). }
  rewrite !addInput_bad_outpoint by exact Hbad. cbn [mbind Result_bind].
  split; eexists; (split; [reflexivity|exact I]).
Qed.

End bad_outpoint.

Lemma funding_transaction_layout_witness :
  exists r tx htlc,
    HTLCBuilder.createFundingTransaction (L := ExampleLib.lib)
      (ExampleLib.config true networks.testnet)
      [{| HTLCBuilder.utxo_txid := ExampleLib.fundingTxid; HTLCBuilder.utxo_vout := 1;
          HTLCBuilder.utxo_value := 20000;
          HTLCBuilder.utxo_scriptPubKey := "00143333333333333333333333333333333333333333" |}]
      10000 ExampleLib.destination (10 # 1) ExampleLib.key = Ok r /\
    HTLCBuilder.hex r = Transaction.toHex tx /\
    HTLCBuilder.createHTLC (L := ExampleLib.lib)
      (ExampleLib.config true networks.testnet) = Ok htlc /\
    Transaction.outs tx !! 0%nat
      = Some {| Transaction.out_script := HTLCBuilder.lockingScript htlc;
                Transaction.value := 10000 |} /\
    Transaction.version tx = 2 /\
    Transaction.locktime tx = 0 /\
    map (fun i => (Transaction.hash i, Transaction.index i, Transaction.sequence i))
      (Transaction.ins tx)
    = [(repeat xab 32, 1, 4294967295)] /\
    sumZ (map Transaction.value (Transaction.outs tx)) <= 20000.
Proof.
  eexists.
  match goal with
  | |- exists tx htlc, ?c = Ok ?r /\ _ =>
      assert (Hrun : c = Ok r) by (vm_compute; reflexivity);
      destruct (funding_transaction_layout (L := ExampleLib.lib) _ _ _ _ _ _ _ Hrun
                  (or_introl eq_refl))
        as (tx & htlc & H1 & H2 & H3 & H4 & H5 & H6 & H7);
      exists tx, htlc
  end.
  split; [exact Hrun|]. split; [exact H1|]. split; [exact H2|].
  split; [exact H3|]. split; [exact H4|]. split; [exact H5|].
  split; [exact H6|exact H7].
Defined.

Lemma funding_inputs_distinct_witness :
  NoDup (map (fun u => (fromHex (HTLCBuilder.utxo_txid u), HTLCBuilder.utxo_vout u))
           [{| HTLCBuilder.utxo_txid := ExampleLib.fundingTxid;
               HTLCBuilder.utxo_vout := 1; HTLCBuilder.utxo_value := 20000;
               HTLCBuilder.utxo_scriptPubKey :=
                 "00143333333333333333333333333333333333333333" |};
            {| HTLCBuilder.utxo_txid := ExampleLib.fundingTxid;
               HTLCBuilder.utxo_vout := 2; HTLCBuilder.utxo_value := 5000;
               HTLCBuilder.utxo_scriptPubKey :=
                 "00143333333333333333333333333333333333333333" |}]).
Proof.
  eapply (funding_inputs_distinct (L := ExampleLib.lib)
            (ExampleLib.config true networks.testnet) _ 10000 ExampleLib.destination
            (10 # 1) ExampleLib.key).
  vm_compute. reflexivity.
Defined.

Lemma spend_pays_amount_less_fee_witness :
  exists r tx out,
    HTLCBuilder.createClaimTransaction (L := ExampleLib.lib)
      (ExampleLib.config true networks.testnet) ExampleLib.fundingTxid 0 100000
      ExampleLib.secret ExampleLib.destination (10 # 1) ExampleLib.key = Ok r /\
    HTLCBuilder.hex r = Transaction.toHex tx /\
    HTLCBuilder.fee r = 1500 /\
    HTLCBuilder.fee r / HTLCBuilder.vsize r < 5000 /\
    Transaction.outs tx
      = [{| Transaction.out_script := out;
            Transaction.value := 100000 - HTLCBuilder.fee r |}] /\
    Transaction.locktime tx = 0.
Proof.
  eexists.
  match goal with
  | |- exists tx out, ?c = Ok ?r /\ _ =>
      assert (Hrun : c = Ok r) by (vm_compute; reflexivity);
      destruct (proj1 (spend_pays_amount_less_fee (L := ExampleLib.lib) _ _ _ _ _ _
                         (10 # 1) _ r ltac:(vm_compute; reflexivity))
                  Hrun)
        as (tx & out & H1 & H2 & _ & H3 & H4 & H5 & H6 & H7 & H8 & H9 & H10);
      exists tx, out
  end.
  split; [exact Hrun|]. split; [exact H1|].
  split; [exact (H3 10 eq_refl ltac:(vm_compute; reflexivity))|].
  split; [exact H4|]. split; [exact H6|exact H9].
Defined.

Lemma extractSecret_on_refund_witness :
  exists r,
    HTLCBuilder.createRefundTransaction (L := ExampleLib.lib)
      (ExampleLib.config true networks.testnet) ExampleLib.fundingTxid 0 100000
      ExampleLib.destination (10 # 1) ExampleLib.key = Ok r /\
    HTLCBuilder.extractSecretFromTransaction (HTLCBuilder.hex r) []
    = Value (script.Data [x00]).
Proof.
  eexists. split; [vm_compute; reflexivity|].
  apply (extractSecret_on_refund (L := ExampleLib.lib)
           (ExampleLib.config true networks.testnet) ExampleLib.fundingTxid 0 100000
           ExampleLib.destination (10 # 1) ExampleLib.key);
    [reflexivity|reflexivity|reflexivity|vm_compute; reflexivity].
Defined.

Lemma spend_rejects_bad_outpoint_witness :
  (exists e,
     HTLCBuilder.createClaimTransaction (L := ExampleLib.lib)
       (ExampleLib.config true networks.testnet) "sim_0001_1700000001000_funding" 0
       100000 ExampleLib.secret ExampleLib.destination (10 # 1) ExampleLib.key
     = Err e /\ before_signing e) /\
  (exists e,
     HTLCBuilder.createRefundTransaction (L := ExampleLib.lib)
       (ExampleLib.config true networks.testnet) "sim_0001_1700000001000_funding" 0
       100000 ExampleLib.destination (10 # 1) ExampleLib.key
     = Err e /\ before_signing e).
Proof.
  apply (spend_rejects_bad_outpoint (L := ExampleLib.lib)).
  left. vm_compute. discriminate.
Defined.

(** ** The command-line front end [btc/scripts/create-htlc.ts] *)

Section creator.
Context `{L : BitcoinLib}.
Import HTLCCreator.


(** X10.  [createHTLC] does not check the hashlock text: when it does not
    start with two hexadecimal digits (a 0x prefix, as the order files
    carry it, is the common case) [Buffer.from(text, 'hex')] is empty and
    the script is built with an empty hashlock, OP_IF OP_SHA256 OP_0
    OP_EQUALVERIFY ..., which no secret satisfies. *)
Theorem createHTLC_unchecked_hashlock (params : HTLCParams) (r : HTLCResult)
    (c1 c2 : ascii) (rest : string) :
  hashlock params = String c1 (String c2 rest) ->
  hex_pair c1 c2 = None ->
  createHTLC params = Ok r ->
  exists tail,
    fromHex (redeemScript r) = [x63; xa8; x00; x88] ++ tail /\
    hashlock (config r) = hashlock params.
Proof.
  intros Hh Hpair H. unfold createHTLC in H.
  inv_bind H. rename x into net. inv_bind H. rename x into htlc.
  injection H as <-. cbn [redeemScript config].
  rewrite fromHex_toHex.
  assert (Hrs : HTLCBuilder.redeemScript htlc
                = HTLCBuilder.createHTLCScript (toConfig params net)).
  { destruct (truthy (HTLCBuilder.useSegwit (toConfig params net))) eqn:Hseg.
    - apply createHTLC_segwit_inv in E0 as (-> & _); [reflexivity|exact Hseg].
    - apply createHTLC_legacy_inv in E0 as (-> & _); [reflexivity|exact Hseg]. }
  rewrite Hrs. unfold HTLCBuilder.createHTLCScript, toConfig.
  cbn [HTLCBuilder.hashlock]. rewrite Hh. cbn [fromHex]. rewrite Hpair.
  eexists. split; reflexivity.
Qed.

End creator.


Lemma createHTLC_unchecked_hashlock_witness :
  exists r tail,
    HTLCCreator.createHTLC (L := ExampleLib.lib) ExampleParams.prefixedParams = Ok r /\
    fromHex (HTLCCreator.redeemScript r) = [x63; xa8; x00; x88] ++ tail.
Proof.
  eexists.
  match goal with
  | |- exists tail, ?c = Ok ?r /\ _ =>
      assert (Hrun : c = Ok r) by (vm_compute; reflexivity);
      destruct (createHTLC_unchecked_hashlock (L := ExampleLib.lib)
                  ExampleParams.prefixedParams r "0" "x"
                  (toHex (@sha256 ExampleLib.lib ExampleLib.secret))
                  ltac:(reflexivity) ltac:(reflexivity) Hrun)
        as (tail & H1 & _);
      exists tail
  end.
  split; [exact Hrun|exact H1].
Defined.

(** ** The explorer client of [btc/scripts/create-htlc.ts] *)

Section mempool.
Import MempoolAPI.

Lemma hexRun_length (n : nat) (s m : string) :
  hexRun n s = Some m -> String.length m = n.
Proof.
  revert s m. induction n as [|k IH]; intros s m H; cbn in H.
  - injection H as <-. reflexivity.
  - destruct s as [|c r]; [discriminate H|].
    destruct (isHexDigit c); [|discriminate H].
    destruct (hexRun k r) as [m'|] eqn:E; [|discriminate H].
    injection H as <-. cbn. f_equal. eapply IH. exact E.
Qed.

Lemma matchHex64_length (s m : string) :
  matchHex64 s = Some m -> String.length m = 64%nat.
Proof.
  induction s as [|c r IH]; intros H; [discriminate H|].
  cbn [matchHex64] in H.
  destruct (hexRun 64 (String c r)) as [m'|] eqn:E.
  - injection H as <-. eapply hexRun_length. exact E.
  - apply IH. exact H.
Qed.

Lemma hex_char_isHexDigit (b : byte) :
  isHexDigit (hex_char (byte_to_Z b / 16)) = true /\
  isHexDigit (hex_char (byte_to_Z b mod 16)) = true.
Proof. destruct b; split; reflexivity. Qed.

Lemma toHex_length (b : bytes) : String.length (toHex b) = (2 * length b)%nat.
Proof. induction b as [|x r IH]; [reflexivity|]. cbn. rewrite IH. lia. Qed.

Lemma hexRun_toHex (k : nat) (b : bytes) :
  (k <= length b)%nat -> hexRun (2 * k) (toHex b) = Some (toHex (take k b)).
Proof.
  revert b. induction k as [|k IH]; intros b Hk; [reflexivity|].
  destruct b as [|x r]; [cbn in Hk; lia|].
  replace (2 * S k)%nat with (S (S (2 * k))) by lia.
  cbn [hexRun toHex take].
  destruct (hex_char_isHexDigit x) as [-> ->].
  rewrite IH by (cbn in Hk; lia). reflexivity.
Qed.

(** X11.  On the explorer's rendering of a segwit claim (an input with an
    empty script-sig whose witness lists signature, secret, 01 and
    script as hexadecimal texts), [MempoolAPI.extractSecretFromTransaction]
    returns the text of the 32-byte secret, provided the signature is not
    itself 32 bytes long: it returns the first witness element of 64
    characters.  Whatever it returns has 64 characters. *)
Theorem mempool_extract_claim_secret (tx : TransactionDetails) (input : Vin)
    (rest : list Vin) (signature secret witnessScript : bytes) :
  vin tx = input :: rest ->
  from_option hex EmptyString (scriptSig input) = EmptyString ->
  witness input = Some (map toHex [signature; secret; [x01]; witnessScript]) ->
  length secret = 32%nat ->
  length signature <> 32%nat ->
  extractSecretFromTransaction tx = Some (toHex secret) /\
  (forall tx' s, extractSecretFromTransaction tx' = Some s -> String.length s = 64%nat).
Proof.
  intros Hvin Hsig Hw Hsec Hlen. split.
  - unfold extractSecretFromTransaction. rewrite Hvin.
    cbn [extractSecretFromInputs]. unfold secretOfInput. rewrite Hw.
    assert (Hnone : match scriptSig input with
                    | Some {| hex := String c r |} => matchHex64 (String c r)
                    | _ => None
                    end = None).
    { destruct (scriptSig input) as [[a h]|]; [|reflexivity].
      cbn in Hsig. subst h. reflexivity. }
    rewrite Hnone. cbn [map find].
    rewrite !toHex_length, Hsec.
    replace (2 * length signature =? 64)%nat with false
      by (symmetry; apply Nat.eqb_neq; lia).
    reflexivity.
  - intros tx' s. unfold extractSecretFromTransaction.
    induction (vin tx') as [|i l IH]; intros H; [discriminate H|].
    cbn [extractSecretFromInputs] in H.
    destruct (secretOfInput i) as [s'|] eqn:E; [|apply IH; exact H].
    injection H as <-. unfold secretOfInput in E.
    destruct (match scriptSig i with
              | Some {| hex := String c r |} => matchHex64 (String c r)
              | _ => None
              end) as [m|] eqn:Em.
    + injection E as <-.
      destruct (scriptSig i) as [[a [|c r]]|]; try discriminate Em.
      eapply matchHex64_length. exact Em.
    + destruct (witness i) as [elements|]; [|discriminate E].
      apply find_some in E as [_ E]. apply Nat.eqb_eq in E. exact E.
Qed.

(** X12.  The script-sig is looked at before the witness, and only for a
    run of 64 hexadecimal digits: when the first input carries a
    script-sig of 32 bytes or more, the function returns the text of its
    first 32 bytes, whatever they are, and never reaches the secret
    pushed behind a signature. *)
Theorem mempool_extract_scriptSig_prefix (tx : TransactionDetails) (input : Vin)
    (rest : list Vin) (script : bytes) (sigAsm : string) :
  vin tx = input :: rest ->
  scriptSig input = Some {| asm := sigAsm; hex := toHex script |} ->
  (32 <= length script)%nat ->
  extractSecretFromTransaction tx = Some (toHex (take 32 script)).
Proof.
  intros Hvin Hsig Hlen.
  unfold extractSecretFromTransaction. rewrite Hvin.
  cbn [extractSecretFromInputs]. unfold secretOfInput. rewrite Hsig.
  destruct script as [|x r] eqn:Es; [cbn in Hlen; lia|].
  rewrite <- Es in *.
  assert (Hrun : hexRun 64 (toHex script) = Some (toHex (take 32 script))).
  { apply (hexRun_toHex 32). exact Hlen. }
  destruct (toHex script) as [|c s'] eqn:Et.
  { rewrite Es in Et. discriminate Et. }
  cbn [matchHex64]. rewrite Hrun. reflexivity.
Qed.

(** X13.  [isTransactionConfirmed] is monotone in the number of
    confirmations asked for: a transaction that counts as confirmed for
    [m] confirmations does so for every smaller number; an unconfirmed
    one never counts; and for one confirmation or fewer the chain height
    is not asked for, so the answer does not depend on that request. *)
Theorem confirmed_is_monotone
    (getTransaction : string -> option TransactionDetails)
    (getBlockHeight : option Z) (txid : string) (m m' : Z) :
  isTransactionConfirmed getTransaction getBlockHeight txid m = Ok true ->
  m' <= m ->
  isTransactionConfirmed getTransaction getBlockHeight txid m' = Ok true /\
  (forall tx, getTransaction txid = Some tx -> confirmed (status tx) = true) /\
  (m' <= 1 ->
   forall height, isTransactionConfirmed getTransaction height txid m' = Ok true).
Proof.
  unfold isTransactionConfirmed. intros H Hle.
  destruct (getTransaction txid) as [tx|]; [|discriminate H].
  cbn [orThrow mbind Result_bind] in *.
  destruct (confirmed (status tx)) eqn:Hc; cbn [negb] in *; [|discriminate H].
  split; [|split].
  - destruct (Z.leb_spec m' 1); [reflexivity|].
    destruct (Z.leb_spec m 1); [lia|].
    destruct getBlockHeight as [h|]; [|discriminate H].
    cbn [orThrow mbind Result_bind] in *.
    injection H as H. f_equal. apply Z.geb_le in H. apply Z.geb_le. lia.
  - intros tx' [= <-]. exact Hc.
  - intros Hm height. destruct (Z.leb_spec m' 1); [reflexivity|lia].
Qed.

End mempool.

Lemma mempool_extract_claim_secret_witness :
  MempoolAPI.extractSecretFromTransaction ExampleExplorer.claimDetails
    = Some (toHex ExampleLib.secret) /\
  (forall tx' s,
     MempoolAPI.extractSecretFromTransaction tx' = Some s -> String.length s = 64%nat).
Proof.
  apply (mempool_extract_claim_secret ExampleExplorer.claimDetails
           ExampleExplorer.claimInput [] ExampleLib.derSignature ExampleLib.secret
           (HTLCBuilder.createHTLCScript (ExampleLib.config true networks.testnet)));
    try reflexivity.
  vm_compute. discriminate.
Defined.

Lemma mempool_extract_scriptSig_prefix_witness :
  MempoolAPI.extractSecretFromTransaction ExampleExplorer.legacyDetails
    = Some (toHex (take 32 ExampleExplorer.legacyScriptSig)) /\
  toHex (take 32 ExampleExplorer.legacyScriptSig) <> toHex ExampleLib.secret.
Proof.
  split.
  - apply (mempool_extract_scriptSig_prefix ExampleExplorer.legacyDetails
             ExampleExplorer.legacyInput [] ExampleExplorer.legacyScriptSig EmptyString);
      [reflexivity | reflexivity | vm_compute; lia].
  - vm_compute. discriminate.
Defined.

Lemma confirmed_is_monotone_witness :
  MempoolAPI.isTransactionConfirmed (fun _ => Some ExampleExplorer.claimDetails)
    (Some 105) "claim" 3 = Ok true /\
  (forall tx, Some ExampleExplorer.claimDetails = Some tx ->
              MempoolAPI.confirmed (MempoolAPI.status tx) = true) /\
  (3 <= 1 ->
   forall height,
     MempoolAPI.isTransactionConfirmed (fun _ => Some ExampleExplorer.claimDetails)
       height "claim" 3 = Ok true).
Proof.
  apply (confirmed_is_monotone (fun _ => Some ExampleExplorer.claimDetails)
           (Some 105) "claim" 6 3); [reflexivity | lia].
Defined.

(** ** The claim of the reverse flow: [btc/scripts/claim-htlc-reverse.ts] *)

Ltac bind_inv H x E := apply bind_Ok_inv in H; destruct H as (x & E & H).

Section reverse_claim.
Context `{L : BitcoinLib}.
Variable fetchFundingOutputs : string -> option (list Z).
Import ClaimReverse.


End reverse_claim.


(** ** The funding script [btc/scripts/fund-htlc.ts] *)

Section funding_selection.
Import FundHTLC.

Variable p2wpkhScript : string -> option bytes.
Variable getTransaction : string -> option string.

Lemma sumZ_cons (x : Z) (l : list Z) : sumZ (x :: l) = x + sumZ l.
Proof. reflexivity. Qed.

Lemma addInputs_prefix (fromAddress : string) (amount fee : Z)
    (utxos added added' : list BitcoinUTXO) (inputValue inputValue' : Z) :
  addInputs p2wpkhScript getTransaction fromAddress amount fee utxos added inputValue
    = Ok (added', inputValue') ->
  exists k,
    (k <= length utxos)%nat /\
    added' = added ++ take k utxos /\
    inputValue' = inputValue + sumZ (map value (take k utxos)) /\
    (forall j, (j < k)%nat ->
               inputValue + sumZ (map value (take j utxos)) < amount + fee) /\
    (k = length utxos \/ amount + fee <= inputValue').
Proof.
  revert added inputValue.
  induction utxos as [|utxo rest IH]; intros added inputValue H; cbn [addInputs] in H.
  - injection H as <- <-. exists 0%nat. cbn. rewrite app_nil_r.
    repeat split; [lia | lia | intros j Hj; lia | left; reflexivity].
  - destruct (Z.geb_spec inputValue (amount + fee)) as [Hge|Hlt].
    + injection H as <- <-. exists 0%nat. cbn. rewrite app_nil_r.
      repeat split; [lia | lia | intros j Hj; lia | right; lia].
    + assert (Hrec : addInputs p2wpkhScript getTransaction fromAddress amount fee rest
                       (added ++ [utxo]) (inputValue + value utxo)
                     = Ok (added', inputValue')).
      { destruct (_ || _).
        - bind_inv H u Escript. bind_inv H u0 Eout. exact H.
        - destruct (_ || _); [|discriminate H].
          bind_inv H txData Etx. bind_inv H u Ehex. bind_inv H u0 Eout.
          bind_inv H prev Eprev. exact H. }
      apply IH in Hrec as (k & Hk & Hadded & Hvalue & Hless & Hend).
      exists (S k). cbn [length take map]. rewrite sumZ_cons.
      split; [lia|]. split; [rewrite Hadded, <- app_assoc; reflexivity|].
      split; [lia|]. split.
      * intros [|j] Hj; cbn [take map]; [cbn; lia|].
        rewrite sumZ_cons. specialize (Hless j ltac:(lia)). lia.
      * destruct Hend as [-> | Hend]; [left; reflexivity | right; exact Hend].
Qed.

(** X15.  The inputs that [main] selects are the shortest prefix of the
    fetched UTXOs whose values cover the amount plus the flat fee of 1000
    satoshis: every shorter prefix falls short, the selected values reach
    amount + 1000, and so the change is never negative. *)
Theorem funding_selects_shortest_prefix (htlcAddress fromAddress : string)
    (amount : Z) (utxos : list BitcoinUTXO) (f : Funding) :
  main p2wpkhScript getTransaction htlcAddress fromAddress amount utxos = Ok f ->
  exists k,
    inputs f = take k utxos /\
    amount + 1000 <= sumZ (map value (inputs f)) /\
    (forall j, (j < k)%nat -> sumZ (map value (take j utxos)) < amount + 1000).
Proof.
  unfold main. intros H.
  bind_inv H u Hne. bind_inv H u' Htotal. apply check_Ok_inv in Htotal.
  apply negb_true_iff, Z.ltb_ge in Htotal.
  bind_inv H sel Hsel. destruct sel as [added inputValue]. injection H as <-.
  apply addInputs_prefix in Hsel as (k & Hk & Hadded & Hvalue & Hless & Hend).
  cbn [app] in Hadded. rewrite Z.add_0_l in Hvalue.
  exists k. cbn [inputs]. split; [exact Hadded|]. split.
  - rewrite Hadded, <- Hvalue.
    destruct Hend as [-> | Hend]; [|exact Hend].
    rewrite Hvalue, firstn_all. exact Htotal.
  - intros j Hj. specialize (Hless j Hj). lia.
Qed.

(** X16.  [main] refuses to build anything when no UTXO was fetched, when
    the UTXOs do not cover the amount plus the fee of 1000, and when the
    funding address has none of the prefixes it knows (m, n, 1, 2 for
    legacy and tb1, bc1, bcrt1 for segwit). *)
Theorem funding_refusals (htlcAddress fromAddress : string) (amount : Z)
    (utxos : list BitcoinUTXO) :
  main p2wpkhScript getTransaction htlcAddress fromAddress amount [] = Err FetchFailed /\
  (utxos <> [] ->
   sumZ (map value utxos) < amount + 1000 ->
   main p2wpkhScript getTransaction htlcAddress fromAddress amount utxos
   = Err InsufficientFunds) /\
  (utxos <> [] ->
   amount + 1000 <= sumZ (map value utxos) ->
   0 < amount + 1000 ->
   startsWith fromAddress "m" || startsWith fromAddress "n"
     || startsWith fromAddress "1" || startsWith fromAddress "2" = false ->
   startsWith fromAddress "tb1" || startsWith fromAddress "bc1"
     || startsWith fromAddress "bcrt1" = false ->
   main p2wpkhScript getTransaction htlcAddress fromAddress amount utxos
   = Err UnsupportedAddressFormat).
Proof.
  split; [reflexivity|]. split.
  - intros Hne Hlt. unfold main.
    destruct utxos as [|u r]; [congruence|]. cbn [length Nat.eqb negb check].
    cbn [mbind Result_bind].
    replace (sumZ (map value (u :: r)) <? amount + 1000) with true
      by (symmetry; apply Z.ltb_lt; exact Hlt).
    reflexivity.
  - intros Hne Hge Hpos Hleg Hseg. unfold main.
    destruct utxos as [|u r]; [congruence|]. cbn [length Nat.eqb negb check].
    cbn [mbind Result_bind].
    replace (sumZ (map value (u :: r)) <? amount + 1000) with false
      by (symmetry; apply Z.ltb_ge; exact Hge).
    cbn [negb check mbind Result_bind addInputs].
    replace (0 >=? amount + 1000) with false
      by (symmetry; rewrite Z.geb_leb; apply Z.leb_gt; lia).
    rewrite Hseg, Hleg. reflexivity.
Qed.

End funding_selection.

Lemma funding_selects_shortest_prefix_witness :
  exists f k,
    FundHTLC.main (fun _ => Some []) (fun _ => None) "tb1qhtlc" "tb1qfunder" 10000
      [{| FundHTLC.txid := ExampleLib.fundingTxid; FundHTLC.vout := 0;
          FundHTLC.value := 6000; FundHTLC.scriptPubKey := EmptyString;
          FundHTLC.address := "tb1qfunder" |};
       {| FundHTLC.txid := ExampleLib.fundingTxid; FundHTLC.vout := 1;
          FundHTLC.value := 6000; FundHTLC.scriptPubKey := EmptyString;
          FundHTLC.address := "tb1qfunder" |};
       {| FundHTLC.txid := ExampleLib.fundingTxid; FundHTLC.vout := 2;
          FundHTLC.value := 6000; FundHTLC.scriptPubKey := EmptyString;
          FundHTLC.address := "tb1qfunder" |}] = Ok f /\
    length (FundHTLC.inputs f) = 2%nat /\
    FundHTLC.inputs f
      = take k
          [{| FundHTLC.txid := ExampleLib.fundingTxid; FundHTLC.vout := 0;
              FundHTLC.value := 6000; FundHTLC.scriptPubKey := EmptyString;
              FundHTLC.address := "tb1qfunder" |};
           {| FundHTLC.txid := ExampleLib.fundingTxid; FundHTLC.vout := 1;
              FundHTLC.value := 6000; FundHTLC.scriptPubKey := EmptyString;
              FundHTLC.address := "tb1qfunder" |};
           {| FundHTLC.txid := ExampleLib.fundingTxid; FundHTLC.vout := 2;
              FundHTLC.value := 6000; FundHTLC.scriptPubKey := EmptyString;
              FundHTLC.address := "tb1qfunder" |}] /\
    10000 + 1000 <= sumZ (map FundHTLC.value (FundHTLC.inputs f)).
Proof.
  eexists.
  match goal with
  | |- exists k, ?run = Ok ?f /\ _ =>
      assert (Hrun : run = Ok f) by (vm_compute; reflexivity);
      destruct (funding_selects_shortest_prefix _ _ _ _ _ _ _ Hrun)
        as (k & Hin & Hsum & _);
      exists k
  end.
  split; [exact Hrun|]. split; [reflexivity|]. split; [exact Hin|exact Hsum].
Defined.

Lemma funding_refusals_witness :
  FundHTLC.main (fun _ => Some []) (fun _ => None) "tb1qhtlc" "3P2shWrapped" 10000
    [{| FundHTLC.txid := ExampleLib.fundingTxid; FundHTLC.vout := 0;
        FundHTLC.value := 20000; FundHTLC.scriptPubKey := EmptyString;
        FundHTLC.address := "3P2shWrapped" |}]
  = Err UnsupportedAddressFormat.
Proof.
  apply (funding_refusals (fun _ => Some []) (fun _ => None) "tb1qhtlc" "3P2shWrapped"
           10000);
    [discriminate | vm_compute; discriminate | lia | reflexivity | reflexivity].
Defined.

(** ** The escrow factory [monadvm/contracts/BTCEscrowFactory.sol] *)

Section factory.
Import Evm BTCEscrowFactory.

Variable escrowAddress : Kind -> Immutables -> Z -> address.
Variable tokenTransferFrom : address -> address -> address -> Z -> bool.
Variable treasuryAccepts : address -> Z -> bool.

Lemma outcome_bind_inv {A B : Type} (m : Outcome A) (f : A -> Outcome B) (b : B) :
  m ≫= f = Success b -> exists a, m = Success a /\ f a = Success b.
Proof. destruct m as [a|why]; cbn; [eauto|discriminate]. Qed.

Lemma require_inv (why : RevertReason) (b : bool) (u : unit) :
  require why b = Success u -> b = true.
Proof. destruct b; [reflexivity|discriminate]. Qed.

Lemma add_inv (a b c : Z) : add a b = Success c -> c = a + b /\ a + b <= MAX_UINT256.
Proof.
  unfold add. destruct (Z.leb_spec (a + b) MAX_UINT256); [|discriminate].
  intros [= <-]. auto.
Qed.

Lemma add_ok (a b : Z) : a + b <= MAX_UINT256 -> add a b = Success (a + b).
Proof.
  intros H. unfold add. destruct (Z.leb_spec (a + b) MAX_UINT256); [reflexivity|lia].
Qed.

Lemma balanceOf_transfer (c : Chain) (from to a : address) (v : Z) :
  balanceOf (transfer c from to v) a
  = balanceOf c a - (if a =? from then v else 0) + (if a =? to then v else 0).
Proof.
  unfold transfer, balanceOf. cbn [balances].
  destruct (Z.eqb_spec a to) as [-> | Hto].
  - rewrite lookup_insert_eq. cbn [from_option id].
    destruct (Z.eqb_spec to from) as [-> | Hfrom].
    + rewrite lookup_insert_eq. cbn [from_option id]. lia.
    + rewrite lookup_insert_ne by congruence. lia.
  - rewrite lookup_insert_ne by congruence.
    destruct (Z.eqb_spec a from) as [-> | Hfrom].
    + rewrite lookup_insert_eq. cbn [from_option id]. lia.
    + rewrite lookup_insert_ne by congruence. lia.
Qed.

Ltac obind H x E := apply outcome_bind_inv in H; destruct H as (x & E & H).

Lemma createEscrow_success (k : Kind) (s : State) (msg : Msg)
    (immutables : Immutables) (s' : State) (events : list Event) :
  let required :=
    if get (token immutables) =? 0
    then amount immutables + safetyDeposit immutables
    else safetyDeposit immutables in
  let fee := creationFee (store s) in
  let factory := this (store s) in
  let escrow := escrowAddress k immutables (timestamp msg) in
  createEscrow escrowAddress tokenTransferFrom treasuryAccepts k s msg immutables
  = Success (s', events) ->
  value msg = required + fee /\
  store s' = store s /\
  (escrow ∉ deployed (chain s)) /\
  deployed (chain s') = ({[escrow]} ∪ deployed (chain s)) /\
  (escrow <> sender msg -> escrow <> factory -> escrow <> treasury (store s) ->
   balanceOf (chain s') escrow = balanceOf (chain s) escrow + required) /\
  (sender msg <> factory -> sender msg <> escrow -> sender msg <> treasury (store s) ->
   balanceOf (chain s') (sender msg) = balanceOf (chain s) (sender msg) - value msg) /\
  (factory <> sender msg -> factory <> escrow -> factory <> treasury (store s) ->
   balanceOf (chain s') factory
   = balanceOf (chain s) factory
     + (if (fee >? 0) && negb (treasury (store s) =? 0) then 0 else fee)).
Proof.
  cbv zeta.
  intros H. unfold createEscrow, createEscrowBody in H.
  cbn [store chain] in H.
  obind H required Ereq. obind H tot Etotal. obind H u1 Eval.
  apply require_inv, Z.eqb_eq in Eval. apply add_inv in Etotal as [-> _].
  assert (Hreq : required
                 = if get (token immutables) =? 0
                   then amount immutables + safetyDeposit immutables
                   else safetyDeposit immutables).
  { destruct (get (token immutables) =? 0).
    - apply add_inv in Ereq as [-> _]. reflexivity.
    - injection Ereq as <-. reflexivity. }
  clear Ereq. rewrite <- Hreq.
  obind H dep Edep. destruct dep as [escrow s1].
  unfold deployEscrow in Edep. cbn [store chain] in Edep.
  obind Edep u2 Ebal. obind Edep u3 Efresh.
  apply require_inv, negb_true_iff, bool_decide_eq_false in Efresh.
  injection Edep as <- <-.
  obind H u4 Etoken. obind H s2 Efee. injection H as <- _.
  unfold collectFee in Efee. cbn [store chain] in Efee.
  cbn [transfer deployed] in Efresh.
  assert (Hs2 :
    s2 = {| chain :=
              (if (creationFee (store s) >? 0) && negb (treasury (store s) =? 0)
               then transfer
                      {| balances :=
                           balances (transfer
                                       (transfer (chain s) (sender msg)
                                          (this (store s)) (value msg))
                                       (this (store s))
                                       (escrowAddress k immutables (timestamp msg))
                                       required);
                         deployed :=
                           {[escrowAddress k immutables (timestamp msg)]}
                             ∪ deployed (chain s) |}
                      (this (store s)) (treasury (store s)) (creationFee (store s))
               else
                 {| balances :=
                      balances (transfer
                                  (transfer (chain s) (sender msg)
                                     (this (store s)) (value msg))
                                  (this (store s))
                                  (escrowAddress k immutables (timestamp msg))
                                  required);
                    deployed :=
                      {[escrowAddress k immutables (timestamp msg)]}
                        ∪ deployed (chain s) |});
            store := store s |}).
  { destruct ((creationFee (store s) >? 0) && negb (treasury (store s) =? 0)).
    - obind Efee u5 Eacc. injection Efee as <-. reflexivity.
    - injection Efee as <-. reflexivity. }
  clear Efee. subst s2. cbn [store chain].
  split; [exact Eval|]. split; [reflexivity|]. split; [exact Efresh|].
  split.
  { destruct (_ && _); reflexivity. }
  assert (Hbal : forall a,
    balanceOf
      (if (creationFee (store s) >? 0) && negb (treasury (store s) =? 0)
       then transfer
              {| balances :=
                   balances (transfer
                               (transfer (chain s) (sender msg)
                                  (this (store s)) (value msg))
                               (this (store s))
                               (escrowAddress k immutables (timestamp msg))
                               required);
                 deployed :=
                   {[escrowAddress k immutables (timestamp msg)]}
                     ∪ deployed (chain s) |}
              (this (store s)) (treasury (store s)) (creationFee (store s))
       else
         {| balances :=
              balances (transfer
                          (transfer (chain s) (sender msg)
                             (this (store s)) (value msg))
                          (this (store s))
                          (escrowAddress k immutables (timestamp msg))
                          required);
            deployed :=
              {[escrowAddress k immutables (timestamp msg)]}
                ∪ deployed (chain s) |}) a
    = balanceOf (chain s) a
      - (if a =? sender msg then value msg else 0)
      + (if a =? this (store s) then value msg else 0)
      - (if a =? this (store s) then required else 0)
      + (if a =? escrowAddress k immutables (timestamp msg) then required else 0)
      - (if (creationFee (store s) >? 0) && negb (treasury (store s) =? 0)
         then (if a =? this (store s) then creationFee (store s) else 0) else 0)
      + (if (creationFee (store s) >? 0) && negb (treasury (store s) =? 0)
         then (if a =? treasury (store s) then creationFee (store s) else 0) else 0)).
  { intros a. destruct (_ && _).
    - rewrite balanceOf_transfer.
      change (balanceOf {| balances := balances ?c; deployed := _ |} a)
        with (balanceOf c a).
      unfold balanceOf at 1. cbn [balances].
      change (default 0 (balances ?c !! a)) with (balanceOf c a).
      rewrite !balanceOf_transfer. lia.
    - unfold balanceOf at 1. cbn [balances].
      change (default 0 (balances ?c !! a)) with (balanceOf c a).
      rewrite !balanceOf_transfer. lia. }
  split; [|split].
  - intros H1 H2 H3. rewrite Hbal.
    rewrite Z.eqb_refl.
    rewrite (proj2 (Z.eqb_neq _ _) H1), (proj2 (Z.eqb_neq _ _) H2),
      (proj2 (Z.eqb_neq _ _) H3).
    destruct (_ && _); lia.
  - intros H1 H2 H3. rewrite Hbal.
    rewrite Z.eqb_refl.
    rewrite (proj2 (Z.eqb_neq _ _) H1), (proj2 (Z.eqb_neq _ _) H2),
      (proj2 (Z.eqb_neq _ _) H3).
    destruct (_ && _); lia.
  - intros H1 H2 H3. rewrite Hbal.
    rewrite Z.eqb_refl.
    rewrite (proj2 (Z.eqb_neq _ _) H1), (proj2 (Z.eqb_neq _ _) H2),
      (proj2 (Z.eqb_neq _ _) H3).
    destruct (_ && _); lia.
Qed.

(** X17.  [createSrcEscrow] and [createDstEscrow] go through only when
    the value sent is exactly the escrowed amount (amount plus safety
    deposit for ether, the safety deposit alone for a token) plus the
    creation fee: a smaller and a larger value both revert with
    InsufficientEscrowBalance.  On success the escrow did not exist
    before and receives exactly the escrowed amount; the sender pays the
    whole value; the fee goes to the treasury when the fee is positive
    and a treasury is set, and otherwise stays in the factory; the
    storage of the factory is unchanged. *)
Theorem createEscrow_exact_payment (k : Kind) (s : State) (msg : Msg)
    (immutables : Immutables) :
  let required :=
    if get (token immutables) =? 0
    then amount immutables + safetyDeposit immutables
    else safetyDeposit immutables in
  let fee := creationFee (store s) in
  let factory := this (store s) in
  let escrow := escrowAddress k immutables (timestamp msg) in
  (0 <= fee -> required + fee <= MAX_UINT256 ->
   value msg <> required + fee ->
   createEscrow escrowAddress tokenTransferFrom treasuryAccepts k s msg immutables
   = Revert InsufficientEscrowBalance) /\
  (forall s' events,
     createEscrow escrowAddress tokenTransferFrom treasuryAccepts k s msg immutables
     = Success (s', events) ->
     value msg = required + fee /\
     store s' = store s /\
     (escrow ∉ deployed (chain s)) /\
     deployed (chain s') = ({[escrow]} ∪ deployed (chain s)) /\
     (escrow <> sender msg -> escrow <> factory -> escrow <> treasury (store s) ->
      balanceOf (chain s') escrow = balanceOf (chain s) escrow + required) /\
     (sender msg <> factory -> sender msg <> escrow -> sender msg <> treasury (store s) ->
      balanceOf (chain s') (sender msg) = balanceOf (chain s) (sender msg) - value msg) /\
     (factory <> sender msg -> factory <> escrow -> factory <> treasury (store s) ->
      balanceOf (chain s') factory
      = balanceOf (chain s) factory
        + (if (fee >? 0) && negb (treasury (store s) =? 0) then 0 else fee))).
Proof.
  cbv zeta. split.
  - intros Hfee Hmax Hne. unfold createEscrow, createEscrowBody. cbn [store chain].
    destruct (get (token immutables) =? 0).
    + rewrite (add_ok (amount immutables) (safetyDeposit immutables)) by lia.
      cbn [mbind Outcome_bind]. rewrite add_ok by lia.
      cbn [mbind Outcome_bind].
      replace (value msg =? _) with false by (symmetry; apply Z.eqb_neq; exact Hne).
      reflexivity.
    + cbn [mbind Outcome_bind]. rewrite add_ok by lia.
      cbn [mbind Outcome_bind].
      replace (value msg =? _) with false by (symmetry; apply Z.eqb_neq; exact Hne).
      reflexivity.
  - intros s' events H. exact (createEscrow_success k s msg immutables s' events H).
Qed.


End factory.

Lemma createEscrow_exact_payment_witness :
  BTCEscrowFactory.createSrcEscrow ExampleChain.escrowAddress (fun _ _ _ _ => true)
    (fun _ _ => true) ExampleChain.state (ExampleChain.call 12000000000000001)
    ExampleChain.immutables
  = Evm.Revert Evm.InsufficientEscrowBalance /\
  exists s' events,
    BTCEscrowFactory.createSrcEscrow ExampleChain.escrowAddress (fun _ _ _ _ => true)
      (fun _ _ => true) ExampleChain.state (ExampleChain.call 12000000000000000)
      ExampleChain.immutables
    = Evm.Success (s', events) /\
    Evm.balanceOf (BTCEscrowFactory.chain s') 2077 = 11000000000000000 /\
    Evm.balanceOf (BTCEscrowFactory.chain s') 5 = 988000000000000000 /\
    Evm.balanceOf (BTCEscrowFactory.chain s') 1000 = 0 /\
    Evm.balanceOf (BTCEscrowFactory.chain s') 2 = 1000000000000000.
Proof.
  split.
  - apply (proj1 (createEscrow_exact_payment ExampleChain.escrowAddress
                    (fun _ _ _ _ => true) (fun _ _ => true) BTCEscrowFactory.Src
                    ExampleChain.state (ExampleChain.call 12000000000000001)
                    ExampleChain.immutables));
      vm_compute; congruence.
  - eexists _, _. split; [vm_compute; reflexivity|].
    repeat split; vm_compute; reflexivity.
Defined.


(** ** The escrows' Bitcoin bookkeeping *)

Section escrow_records.
Import Evm BTCEscrow.

Variable validImmutables : BTCEscrowFactory.Immutables -> bool.

Lemma require_true (why : RevertReason) (b : bool) :
  b = true -> require why b = Success tt.
Proof. intros ->. reflexivity. Qed.

Lemma require_false (why : RevertReason) (b : bool) :
  b = false -> require why b = Revert why.
Proof. intros ->. reflexivity. Qed.


End escrow_records.


(** ** The escrow factory: the address of an escrow *)

Section factory_addresses.
Import Evm BTCEscrowFactory.

Variable escrowAddress : Kind -> Immutables -> Z -> address.
Variable tokenTransferFrom : address -> address -> address -> Z -> bool.
Variable treasuryAccepts : address -> Z -> bool.

Lemma createEscrow_event (k : Kind) (s : State) (msg : Msg)
    (immutables : Immutables) (s' : State) (events : list Event) :
  createEscrow escrowAddress tokenTransferFrom treasuryAccepts k s msg immutables
  = Success (s', events) ->
  events
  = [match k with
     | Src => SrcEscrowCreated (escrowAddress k immutables (timestamp msg))
                (hashlock immutables) (maker immutables) (sender msg)
     | Dst => DstEscrowCreated (escrowAddress k immutables (timestamp msg))
                (hashlock immutables) (taker immutables) (sender msg)
     end].
Proof.
  intros H. unfold createEscrow, createEscrowBody in H.
  apply outcome_bind_inv in H as (required & _ & H).
  apply outcome_bind_inv in H as (tot & _ & H).
  apply outcome_bind_inv in H as (u1 & _ & H).
  apply outcome_bind_inv in H as ([escrow s1] & Edep & H).
  apply outcome_bind_inv in H as (u2 & _ & H).
  apply outcome_bind_inv in H as (s2 & _ & H).
  unfold deployEscrow in Edep.
  apply outcome_bind_inv in Edep as (u3 & _ & Edep).
  apply outcome_bind_inv in Edep as (u4 & _ & Edep).
  injection Edep as <- _. injection H as _ <-. reflexivity.
Qed.


End factory_addresses.


(** ** The order scripts: texts *)

Lemma substring_all (s : string) : String.substring 0 (String.length s) s = s.
Proof. induction s as [|c s IH]; cbn; [reflexivity|]. rewrite IH. reflexivity. Qed.

Lemma slice_0x (s : string) : JsString.slice 2 ("0x" +:+ s) = s.
Proof.
  unfold JsString.slice.
  change (String.length ("0x" +:+ s) - 2)%nat with (String.length s - 0)%nat.
  rewrite Nat.sub_0_r. cbn. apply substring_all.
Qed.

Lemma remove_first_0x (s : string) : JsString.remove_first ("0x" +:+ s) "0x" = s.
Proof.
  unfold JsString.remove_first.
  assert (E : String.index 0 "0x" ("0x" +:+ s) = Some 0%nat).
  { change ("0x" +:+ s) with (String "0" (String "x" s)). cbn.
    destruct s; reflexivity. }
  rewrite E. change (JsString.slice 2 ("0x" +:+ s) = s). apply slice_0x.
Qed.

Lemma substring_prefix (b c : string) :
  String.substring 0 (String.length b) (b +:+ c) = b.
Proof.
  induction b as [|y b IH].
  - change ("" +:+ c) with c. destruct c; reflexivity.
  - change (String y b +:+ c) with (String y (b +:+ c)).
    cbn [String.length String.substring]. rewrite IH. reflexivity.
Qed.

Lemma substring_skip (a b c : string) :
  String.substring (String.length a) (String.length b) (a +:+ b +:+ c) = b.
Proof.
  induction a as [|x a IH].
  - change ("" +:+ b +:+ c) with (b +:+ c). apply substring_prefix.
  - change (String x a +:+ b +:+ c) with (String x (a +:+ b +:+ c)).
    cbn [String.length String.substring]. exact IH.
Qed.

Lemma includes_middle (a b c : string) :
  b <> EmptyString -> JsString.includes (a +:+ b +:+ c) b = true.
Proof.
  intros Hb. unfold JsString.includes. apply bool_decide_eq_true.
  destruct (String.index 0 b (a +:+ b +:+ c)) as [m|] eqn:E; [eauto|].
  exfalso.
  apply (String.index_correct3 0 (String.length a) b (a +:+ b +:+ c) E Hb);
    [lia|apply substring_skip].
Qed.

Lemma rev_app_append (a b acc : string) :
  String.rev_app (a +:+ b) acc = String.rev_app b (String.rev_app a acc).
Proof.
  revert acc. induction a as [|x a IH]; intros acc; [reflexivity|].
  change (String x a +:+ b) with (String x (a +:+ b)).
  cbn [String.rev_app]. apply IH.
Qed.

Lemma endsWith_json (a : string) : JsString.endsWith (a +:+ ".json") ".json" = true.
Proof.
  unfold JsString.endsWith, String.rev. rewrite rev_app_append.
  cbn [String.rev_app String.prefix].
  repeat match goal with
         | |- context [ascii_dec ?x ?y] => destruct (ascii_dec x y); [|congruence]
         end.
  destruct (String.rev_app a ""); reflexivity.
Qed.

(** The decimal text of an integer has no letter. *)
Lemma string_of_uint_noLetterT (d : Decimal.uint) :
  Scripts.noLetterT (DecimalString.NilEmpty.string_of_uint d).
Proof.
  induction d; cbn; intros c Hc; try contradiction;
    (destruct Hc as [<- | Hc]; [discriminate | exact (IHd c Hc)]).
Qed.

Lemma toString_noLetterT (n : Z) : Scripts.noLetterT (Scripts.toString n).
Proof.
  unfold Scripts.toString, DecimalString.NilZero.string_of_int.
  destruct (Z.to_int n) as [d|d].
  - unfold DecimalString.NilZero.string_of_uint. destruct d eqn:E.
    + intros c [<- | []]. discriminate.
    + rewrite <- E. apply string_of_uint_noLetterT.
    + rewrite <- E. apply string_of_uint_noLetterT.
    + rewrite <- E. apply string_of_uint_noLetterT.
    + rewrite <- E. apply string_of_uint_noLetterT.
    + rewrite <- E. apply string_of_uint_noLetterT.
    + rewrite <- E. apply string_of_uint_noLetterT.
    + rewrite <- E. apply string_of_uint_noLetterT.
    + rewrite <- E. apply string_of_uint_noLetterT.
    + rewrite <- E. apply string_of_uint_noLetterT.
    + rewrite <- E. apply string_of_uint_noLetterT.
  - intros c [<- | Hc]; [discriminate|].
    revert c Hc. unfold DecimalString.NilZero.string_of_uint. destruct d eqn:E.
    + intros c [<- | []]. discriminate.
    + rewrite <- E. apply string_of_uint_noLetterT.
    + rewrite <- E. apply string_of_uint_noLetterT.
    + rewrite <- E. apply string_of_uint_noLetterT.
    + rewrite <- E. apply string_of_uint_noLetterT.
    + rewrite <- E. apply string_of_uint_noLetterT.
    + rewrite <- E. apply string_of_uint_noLetterT.
    + rewrite <- E. apply string_of_uint_noLetterT.
    + rewrite <- E. apply string_of_uint_noLetterT.
    + rewrite <- E. apply string_of_uint_noLetterT.
    + rewrite <- E. apply string_of_uint_noLetterT.
Qed.

Lemma index_skips_digits (d rest : string) :
  Scripts.noLetterT d ->
  String.index 0 "testnet4" rest = None ->
  String.index 0 "testnet4" (d +:+ rest) = None.
Proof.
  intros Hd Hrest. induction d as [|c d IH]; [exact Hrest|].
  change (String c d +:+ rest) with (String c (d +:+ rest)).
  cbn [String.index String.prefix].
  destruct (ascii_dec "t" c) as [<- | _].
  { exfalso. apply (Hd "t"%char); [left; reflexivity|reflexivity]. }
  rewrite IH; [reflexivity|].
  intros x Hx. apply Hd. right. exact Hx.
Qed.

Lemma append_assoc' (a b c : string) : (a +:+ b) +:+ c = a +:+ (b +:+ c).
Proof.
  induction a as [|x a IH]; [reflexivity|].
  change ((String x a +:+ b) +:+ c) with (String x ((a +:+ b) +:+ c)).
  change (String x a +:+ (b +:+ c)) with (String x (a +:+ (b +:+ c))).
  rewrite IH. reflexivity.
Qed.

Lemma startsWith_append (p s : string) : JsString.startsWith (p +:+ s) p = true.
Proof.
  unfold JsString.startsWith. induction p as [|x p IH].
  - change ("" +:+ s) with s. destruct s; reflexivity.
  - change (String x p +:+ s) with (String x (p +:+ s)).
    cbn [String.prefix]. destruct (ascii_dec x x); [exact IH|congruence].
Qed.

(** The name of the file that the child writes for network testnet4
    passes the filter of the fill script. *)
Lemma created_file_passes (t : string) :
  JsString.startsWith ("htlc_" +:+ t +:+ "_" +:+ "testnet4" +:+ ".json") "htlc_"
    && JsString.includes ("htlc_" +:+ t +:+ "_" +:+ "testnet4" +:+ ".json") "testnet4"
    && JsString.endsWith ("htlc_" +:+ t +:+ "_" +:+ "testnet4" +:+ ".json") ".json"
  = true.
Proof.
  apply andb_true_intro. split; [apply andb_true_intro; split|].
  - apply startsWith_append.
  - replace ("htlc_" +:+ t +:+ "_" +:+ "testnet4" +:+ ".json")
      with (("htlc_" +:+ t +:+ "_") +:+ "testnet4" +:+ ".json").
    + apply includes_middle. discriminate.
    + rewrite !append_assoc'. reflexivity.
  - replace ("htlc_" +:+ t +:+ "_" +:+ "testnet4" +:+ ".json")
      with (("htlc_" +:+ t +:+ "_" +:+ "testnet4") +:+ ".json").
    + apply endsWith_json.
    + rewrite !append_assoc'. reflexivity.
Qed.

(** For the other networks that the child accepts it does not. *)
Lemma other_file_is_skipped (t n : string) :
  Scripts.noLetterT t ->
  n = "testnet"%string \/ n = "mainnet"%string \/ n = "regtest"%string ->
  JsString.includes ("htlc_" +:+ t +:+ "_" +:+ n +:+ ".json") "testnet4" = false.
Proof.
  intros Ht Hn. unfold JsString.includes. apply bool_decide_eq_false.
  assert (E : String.index 0 "testnet4" (t +:+ "_" +:+ n +:+ ".json") = None).
  { apply index_skips_digits; [exact Ht|].
    destruct Hn as [-> | [-> | ->]]; vm_compute; reflexivity. }
  change ("htlc_" +:+ t +:+ "_" +:+ n +:+ ".json")
    with (String "h" (String "t" (String "l" (String "c" (String "_"
            (t +:+ "_" +:+ n +:+ ".json")))))).
  cbn [String.index String.prefix].
  repeat match goal with
         | |- context [ascii_dec ?x ?y] =>
             destruct (ascii_dec x y); try discriminate; try congruence
         end.
  rewrite E. intros [m Hm]. discriminate Hm.
Qed.

(** ** The order scripts: from the order to the HTLC *)

Section order_flow.
Context `{L : BitcoinLib}.

Lemma run_bind_inv {A B : Type} (m : Scripts.Run A) (f : A -> Scripts.Run B) (b : B) :
  m ≫= f = Scripts.Returns b -> exists a, m = Scripts.Returns a /\ f a = Scripts.Returns b.
Proof. destruct m as [a| |]; cbn; [eauto|discriminate|discriminate]. Qed.

Lemma throwUnless_inv (why : Scripts.Failure) (b : bool) (u : unit) :
  Scripts.throwUnless why b = Scripts.Returns u -> b = true.
Proof. destruct b; [reflexivity|discriminate]. Qed.

Lemma orThrow_run_inv {A : Type} (why : Scripts.Failure) (o : option A) (a : A) :
  Scripts.orThrow why o = Scripts.Returns a -> o = Some a.
Proof. destruct o; [intros [= <-]; reflexivity|discriminate]. Qed.

Lemma loadOrder_inv (env : Orders.Env) (files : Orders.OrderFiles)
    (orderId : string) (order : Orders.AtomicSwapOrder) :
  Scripts.loadOrder env files = Scripts.Returns (orderId, order) ->
  Orders.orderIdOf env = Some orderId /\ files !! orderId = Some order.
Proof.
  unfold Scripts.loadOrder. destruct (Orders.orderIdOf env) as [i|]; [|discriminate].
  destruct (JsString.includes i ".ts"); [discriminate|].
  destruct (files !! i) as [o|] eqn:E; [|discriminate].
  cbn. intros [= <- <-]. auto.
Qed.

(** X21.  The order that [create-order-immediate.ts] saves is in state
    CREATED and carries the secret as 0x-prefixed hex and its SHA-256
    digest as the hashlock.  The texts fit every later check: stripped of
    the prefix, the hashlock is the digest that the taker locks the HTLC
    with; the secret passes the comparison of [maker-claim-btc.ts] and of
    the taker's claim script, and the one of [createClaimTx] with the
    arguments those scripts pass; and [maker-claim-btc.ts] never stops
    with a secret mismatch on an order holding these two texts. *)
Theorem created_order_secret_fits (node : Scripts.Node) (secretBytes : bytes)
    (now1 now2 : Z) (files files' : Orders.OrderFiles)
    (order : Orders.AtomicSwapOrder) :
  CreateOrder.main node secretBytes now1 now2 files = (Scripts.Returns order, files') ->
  files' !! ("order_" +:+ Scripts.toString now1) = Some order /\
  Orders.status order = Orders.CREATED /\
  Orders.secret order = "0x" +:+ toHex secretBytes /\
  fromHex (JsString.slice 2 (Orders.hashlock order)) = sha256 secretBytes /\
  "0x" +:+ toHex (sha256 (fromHex (JsString.slice 2 (Orders.secret order))))
  = Orders.hashlock order /\
  HTLCCreator.secretMatchesHashlock
    (fromHex (JsString.remove_first (Orders.secret order) "0x"))
    (JsString.slice 2 (Orders.hashlock order)) = true /\
  forall (later : Orders.AtomicSwapOrder) (env : Orders.Env)
         (orders : Orders.OrderFiles) (orderId now : string)
         (spawnClaim : list string -> Z * string)
         (matchClaimTxId matchOldClaimTxId : string -> option string),
    Orders.secret later = Orders.secret order ->
    Orders.hashlock later = Orders.hashlock order ->
    Orders.orderIdOf env = Some orderId ->
    orders !! orderId = Some later ->
    fst (Orders.makerClaimMain now spawnClaim matchClaimTxId matchOldClaimTxId env orders)
    <> Orders.Thrown Orders.SecretDoesNotMatch.
Proof.
  unfold CreateOrder.main. destruct (Scripts.node_signers node) as [|maker rest];
    [discriminate|].
  intros [= <- <-].
  cbn [Orders.status Orders.secret Orders.hashlock].
  rewrite !slice_0x, remove_first_0x, !fromHex_toHex.
  split; [apply lookup_insert_eq|]. split; [reflexivity|]. split; [reflexivity|].
  split; [reflexivity|]. split; [reflexivity|].
  split.
  { unfold HTLCCreator.secretMatchesHashlock, HTLCBuilder.hashSecret.
    apply String.eqb_refl. }
  intros later env orders orderId now spawnClaim m1 m2 Hs Hh Hid Hfile.
  unfold Orders.makerClaimMain. rewrite Hid.
  destruct (JsString.includes orderId ".ts"); [discriminate|].
  rewrite Hfile.
  destruct (negb (bool_decide (Orders.status later = Orders.FUNDED))); [discriminate|].
  destruct (negb (Orders.hasComponents later)); [discriminate|].
  rewrite Hs, Hh. cbn [Orders.secret Orders.hashlock].
  rewrite slice_0x, fromHex_toHex, String.eqb_refl. cbn [negb].
  destruct (negb _); [discriminate|].
  destruct (JsString.truthy (Orders.BITCOIN_PRIVATE_KEY env)); [|discriminate].
  destruct (JsString.truthy (Orders.BITCOIN_ADDRESS env)); [|discriminate].
  destruct (find _ _); [|discriminate].
  destruct (spawnClaim _) as [code out].
  destruct (code =? 0); discriminate.
Qed.

Section taker_fill.
Variable fromWIF : string -> Network.t -> option ECPair.t.
Variable addressText : Address -> string.

(** What [fill] has established when it returns, whatever the network. *)
Lemma fill_inv (env : Orders.Env) (TAKER_ADDRESS : option string)
    (node : Scripts.Node) (now childNow : Z) (dir : TakerFill.OutputDir)
    (order order' : Orders.AtomicSwapOrder) :
  TakerFill.fill fromWIF addressText env TAKER_ADDRESS node now childNow dir order
  = Scripts.Returns order' ->
  let bitcoinNetwork :=
    default "testnet4"%string (JsString.truthy (Orders.BITCOIN_NETWORK env)) in
  exists taker key bitcoinAddress keyPair result name htlcData,
    Orders.status order = Orders.CREATED /\
    Scripts.node_chainId node = Orders.chainId order /\
    JsString.truthy (Orders.BITCOIN_PRIVATE_KEY env) = Some key /\
    fromWIF key (if String.eqb bitcoinNetwork "testnet4" then networks.testnet
                 else networks.bitcoin) = Some keyPair /\
    HTLCCreator.createHTLC (TakerFill.htlcConfig order keyPair bitcoinNetwork now)
    = Ok result /\
    TakerFill.newestHTLCFile
      (("htlc_" +:+ Scripts.toString childNow +:+ "_" +:+ bitcoinNetwork +:+ ".json",
        result) :: dir) = Some (name, htlcData) /\
    order' = TakerFill.filled addressText order taker bitcoinAddress bitcoinNetwork
               htlcData (now / 1000 + Orders.cancellationPeriod (Orders.timelock order)).
Proof.
  cbv zeta. intros H. unfold TakerFill.fill in H.
  apply run_bind_inv in H as (u1 & E1 & H).
  apply throwUnless_inv, bool_decide_eq_true in E1.
  apply run_bind_inv in H as (u2 & E2 & H).
  apply throwUnless_inv, Z.eqb_eq in E2.
  apply run_bind_inv in H as (taker & _ & H).
  destruct (JsString.truthy (Orders.BITCOIN_PRIVATE_KEY env)) as [key|];
    [|discriminate H].
  destruct (JsString.truthy (Orders.BITCOIN_ADDRESS env)) as [bitcoinAddress|];
    [|discriminate H].
  apply run_bind_inv in H as (keyPair & Ekp & H).
  apply orThrow_run_inv in Ekp.
  apply run_bind_inv in H as (u3 & _ & H).
  apply run_bind_inv in H as (dir' & Edir & H).
  apply orThrow_run_inv in Edir.
  apply run_bind_inv in H as ([name htlcData] & Enew & H).
  apply orThrow_run_inv in Enew.
  injection H as <-.
  unfold TakerFill.runCreate in Edir.
  destruct (HTLCCreator.createHTLC _) as [result|] eqn:Ecreate; [|discriminate Edir].
  injection Edir as <-.
  exists taker, key, bitcoinAddress, keyPair, result, name, htlcData.
  repeat split; try assumption.
Qed.

Lemma createHTLC_testnet4 (order : Orders.AtomicSwapOrder) (keyPair : ECPair.t)
    (now : Z) (result : HTLCCreator.HTLCResult) :
  HTLCCreator.createHTLC (TakerFill.htlcConfig order keyPair "testnet4" now) = Ok result ->
  exists htlc,
    HTLCBuilder.createHTLC
      {| HTLCBuilder.senderPublicKey := ECPair.publicKey keyPair;
         HTLCBuilder.receiverPublicKey :=
           fromHex (Orders.wants_publicKey (Orders.wants (Orders.maker order)));
         HTLCBuilder.hashlock := fromHex (JsString.slice 2 (Orders.hashlock order));
         HTLCBuilder.locktime :=
           now / 1000 + Orders.cancellationPeriod (Orders.timelock order);
         HTLCBuilder.network := networks.testnet;
         HTLCBuilder.useSegwit := Some true |} = Ok htlc /\
    HTLCCreator.address result = HTLCBuilder.address htlc /\
    HTLCCreator.scriptHash result = toHex (HTLCBuilder.scriptHash htlc) /\
    HTLCCreator.redeemScript result = toHex (HTLCBuilder.redeemScript htlc).
Proof.
  unfold HTLCCreator.createHTLC, TakerFill.htlcConfig, HTLCCreator.toConfig.
  cbn [HTLCCreator.network HTLCCreator.senderPublicKey HTLCCreator.receiverPublicKey
       HTLCCreator.hashlock HTLCCreator.locktime HTLCCreator.useSegwit].
  change (HTLCCreator.getNetwork "testnet4") with (Ok networks.testnet).
  cbn [mbind Result_bind]. rewrite fromHex_toHex.
  destruct (HTLCBuilder.createHTLC _) as [htlc|] eqn:E; [|discriminate].
  cbn [mbind Result_bind]. intros [= <-]. exists htlc. auto.
Qed.

(** X22.  With the default Bitcoin network testnet4, an order that the
    fill script returns was in state CREATED when loaded and is saved in
    state FILLED under its id; its secret, hashlock and maker are
    untouched and its transactions are reset.  The HTLC it records is
    the one [HTLCBuilder.createHTLC] builds for the taker's key as sender
    (refund), the maker's key of the order as receiver (claim), the bytes
    of the order's hashlock without its 0x prefix, the cancellation period
    added to the current time in seconds as locktime, on testnet with
    SegWit: the hex texts of the configuration file decode to what they
    encode, and the file just written is the one read back. *)
Theorem fill_records_created_htlc (env : Orders.Env)
    (TAKER_ADDRESS : option string) (node : Scripts.Node) (now childNow : Z)
    (dir : TakerFill.OutputDir) (files files' : Orders.OrderFiles)
    (order' : Orders.AtomicSwapOrder) :
  default "testnet4"%string (JsString.truthy (Orders.BITCOIN_NETWORK env)) = "testnet4"%string ->
  TakerFill.main fromWIF addressText env TAKER_ADDRESS node now childNow dir files
  = (Scripts.Returns order', files') ->
  exists orderId order key keyPair htlc,
    files !! orderId = Some order /\
    Orders.status order = Orders.CREATED /\
    files' = <[orderId := order']> files /\
    JsString.truthy (Orders.BITCOIN_PRIVATE_KEY env) = Some key /\
    fromWIF key networks.testnet = Some keyPair /\
    HTLCBuilder.createHTLC
      {| HTLCBuilder.senderPublicKey := ECPair.publicKey keyPair;
         HTLCBuilder.receiverPublicKey :=
           fromHex (Orders.wants_publicKey (Orders.wants (Orders.maker order)));
         HTLCBuilder.hashlock := fromHex (JsString.slice 2 (Orders.hashlock order));
         HTLCBuilder.locktime :=
           now / 1000 + Orders.cancellationPeriod (Orders.timelock order);
         HTLCBuilder.network := networks.testnet;
         HTLCBuilder.useSegwit := Some true |} = Ok htlc /\
    Orders.bitcoinHTLC order'
    = Some {| Orders.htlc_address := addressText (HTLCBuilder.address htlc);
              Orders.htlc_scriptHash := toHex (HTLCBuilder.scriptHash htlc);
              Orders.htlc_amount := Orders.wants_amount (Orders.wants (Orders.maker order));
              Orders.htlc_network := "testnet4";
              Orders.htlc_locktime :=
                now / 1000 + Orders.cancellationPeriod (Orders.timelock order) |} /\
    Orders.status order' = Orders.FILLED /\
    Orders.secret order' = Orders.secret order /\
    Orders.hashlock order' = Orders.hashlock order /\
    Orders.maker order' = Orders.maker order /\
    Orders.transactions order' = Some Orders.noTransactions.
Proof.
  intros Hnet H. unfold TakerFill.main in H.
  destruct (Scripts.loadOrder env files) as [[orderId order]| |] eqn:Eload;
    [|discriminate H|discriminate H].
  apply loadOrder_inv in Eload as [_ Hfile].
  destruct (TakerFill.fill _ _ _ _ _ _ _ _ _) as [o| |] eqn:Efill;
    [|discriminate H|discriminate H].
  injection H as -> <-.
  apply fill_inv in Efill. cbv zeta in Efill. rewrite Hnet in Efill.
  destruct Efill as (taker & key & bitcoinAddress & keyPair & result & name & htlcData
                     & Hstatus & _ & Hkey & Hwif & Hcreate & Hnew & ->).
  change (String.eqb "testnet4" "testnet4") with true in Hwif.
  unfold TakerFill.newestHTLCFile in Hnew. cbn [find fst] in Hnew.
  rewrite created_file_passes in Hnew. injection Hnew as _ <-.
  apply createHTLC_testnet4 in Hcreate as (htlc & Hbuild & Haddr & Hhash & _).
  exists orderId, order, key, keyPair, htlc.
  unfold TakerFill.filled.
  cbn [Orders.bitcoinHTLC Orders.status Orders.secret Orders.hashlock Orders.maker
       Orders.transactions].
  rewrite Haddr, Hhash.
  repeat split; assumption || reflexivity.
Qed.

(** X23.  With BITCOIN_NETWORK set to testnet, mainnet or regtest the
    child still creates the HTLC for the order, but the file it writes
    does not have testnet4 in its name, and the fill script reads the
    newest file that has: the address and script hash saved in the order
    are those of an HTLC file that was in [btc/output] before, and
    without such a file the script does not return. *)
Theorem fill_reads_older_htlc (env : Orders.Env)
    (TAKER_ADDRESS : option string) (node : Scripts.Node) (now childNow : Z)
    (dir : TakerFill.OutputDir) (files files' : Orders.OrderFiles)
    (order' : Orders.AtomicSwapOrder) (n : string) :
  JsString.truthy (Orders.BITCOIN_NETWORK env) = Some n ->
  n = "testnet"%string \/ n = "mainnet"%string \/ n = "regtest"%string ->
  TakerFill.main fromWIF addressText env TAKER_ADDRESS node now childNow dir files
  = (Scripts.Returns order', files') ->
  exists orderId order keyPair created name older,
    files !! orderId = Some order /\
    HTLCCreator.createHTLC (TakerFill.htlcConfig order keyPair n now) = Ok created /\
    TakerFill.newestHTLCFile dir = Some (name, older) /\
    Orders.htlc_address <$> Orders.bitcoinHTLC order'
    = Some (addressText (HTLCCreator.address older)) /\
    Orders.htlc_scriptHash <$> Orders.bitcoinHTLC order'
    = Some (HTLCCreator.scriptHash older) /\
    Orders.htlc_network <$> Orders.bitcoinHTLC order' = Some n /\
    Orders.status order' = Orders.FILLED.
Proof.
  intros Hnet Hn H. unfold TakerFill.main in H.
  destruct (Scripts.loadOrder env files) as [[orderId order]| |] eqn:Eload;
    [|discriminate H|discriminate H].
  apply loadOrder_inv in Eload as [_ Hfile].
  destruct (TakerFill.fill _ _ _ _ _ _ _ _ _) as [o| |] eqn:Efill;
    [|discriminate H|discriminate H].
  injection H as -> <-.
  apply fill_inv in Efill. cbv zeta in Efill. rewrite Hnet in Efill.
  cbn [default from_option id] in Efill.
  destruct Efill as (taker & key & bitcoinAddress & keyPair & result & name & htlcData
                     & _ & _ & _ & _ & Hcreate & Hnew & ->).
  unfold TakerFill.newestHTLCFile in Hnew. cbn [find fst] in Hnew.
  rewrite (other_file_is_skipped _ n (toString_noLetterT childNow) Hn) in Hnew.
  rewrite andb_false_r in Hnew. cbn [andb] in Hnew.
  exists orderId, order, keyPair, result, name, htlcData.
  repeat split; assumption || reflexivity.
Qed.

End taker_fill.
End order_flow.

Lemma created_order_secret_fits_witness :
  ExampleFlow.files !! ExampleFlow.orderId = Some ExampleFlow.order /\
  fromHex (JsString.slice 2 (Orders.hashlock ExampleFlow.order))
  = @sha256 ExampleLib.lib ExampleLib.secret.
Proof.
  assert (H : @CreateOrder.main ExampleLib.lib ExampleFlow.node ExampleLib.secret
                1700000000000 1700000000001 ∅
              = (Scripts.Returns ExampleFlow.order, ExampleFlow.files))
    by (vm_compute; reflexivity).
  destruct (@created_order_secret_fits ExampleLib.lib ExampleFlow.node ExampleLib.secret
              1700000000000 1700000000001 ∅ ExampleFlow.files ExampleFlow.order H)
    as (Hfile & _ & _ & Hdigest & _).
  split; [exact Hfile|exact Hdigest].
Defined.

Lemma fill_records_created_htlc_witness :
  exists order' files',
    @TakerFill.main ExampleLib.lib ExampleFlow.fromWIF ExampleFlow.addressText
      (ExampleFlow.env None) None ExampleFlow.node 1700000100000 1700000101000
      ExampleFlow.earlierDir ExampleFlow.files
    = (Scripts.Returns order', files') /\
    Orders.status order' = Orders.FILLED /\
    Orders.htlc_locktime <$> Orders.bitcoinHTLC order' = Some 1700003700.
Proof.
  eexists _, _.
  match goal with
  | |- ?run = (Scripts.Returns ?o, ?fs) /\ _ =>
      assert (Hrun : run = (Scripts.Returns o, fs)) by (vm_compute; reflexivity);
      destruct (@fill_records_created_htlc ExampleLib.lib ExampleFlow.fromWIF
                  ExampleFlow.addressText (ExampleFlow.env None) None ExampleFlow.node
                  1700000100000 1700000101000 ExampleFlow.earlierDir ExampleFlow.files
                  _ _ eq_refl Hrun)
        as (orderId & order & key & keyPair & htlc & _ & _ & _ & _ & _ & _ & _
            & Hstatus & _)
  end.
  split; [exact Hrun|]. split; [exact Hstatus|]. vm_compute. reflexivity.
Defined.

Lemma fill_reads_older_htlc_witness :
  exists order' files',
    @TakerFill.main ExampleLib.lib ExampleFlow.fromWIF ExampleFlow.addressText
      (ExampleFlow.env (Some "testnet"%string)) None ExampleFlow.node 1700000100000
      1700000101000 ExampleFlow.earlierDir ExampleFlow.files
    = (Scripts.Returns order', files') /\
    Orders.htlc_address <$> Orders.bitcoinHTLC order'
    = Some (ExampleFlow.addressText (HTLCCreator.address ExampleFlow.earlierHTLC)).
Proof.
  eexists _, _.
  match goal with
  | |- ?run = (Scripts.Returns ?o, ?fs) /\ _ =>
      assert (Hrun : run = (Scripts.Returns o, fs)) by (vm_compute; reflexivity);
      destruct (@fill_reads_older_htlc ExampleLib.lib ExampleFlow.fromWIF
                  ExampleFlow.addressText (ExampleFlow.env (Some "testnet"%string)) None
                  ExampleFlow.node 1700000100000 1700000101000 ExampleFlow.earlierDir
                  ExampleFlow.files _ _ "testnet"%string eq_refl
                  (or_introl eq_refl) Hrun)
        as (orderId & order & keyPair & created & name & older & _ & _ & Hnew
            & Haddr & _)
  end.
  split; [exact Hrun|]. vm_compute. reflexivity.
Defined.

(** ** [maker-escrow.ts] and the factory *)

Section maker_escrow.
Import Evm BTCEscrowFactory.

Variable BigInt : string -> option Z.
Variable keccak256Utf8 : string -> Z.
Variable bytes32 : string -> option Z.
Variable addressText : Evm.address -> string.
Variable escrowAddress : Kind -> Immutables -> Z -> address.
Variable tokenTransferFrom : address -> address -> address -> Z -> bool.
Variable treasuryAccepts : address -> Z -> bool.

(** The factory answers InsufficientEscrowBalance only to a value that
    differs from what it computes. *)
Lemma createEscrow_underpaid (k : Kind) (s : State) (msg : Msg)
    (immutables : Immutables) :
  createEscrow escrowAddress tokenTransferFrom treasuryAccepts k s msg immutables
  = Revert InsufficientEscrowBalance ->
  get (token immutables) = 0 ->
  value msg <> amount immutables + safetyDeposit immutables + creationFee (store s).
Proof.
  intros H Htoken. unfold createEscrow, createEscrowBody in H.
  cbn [store chain] in H. rewrite Htoken in H.
  change (0 =? 0) with true in H. cbn [negb] in H.
  unfold add in H.
  destruct (amount immutables + safetyDeposit immutables <=? MAX_UINT256);
    [|discriminate H].
  cbn [mbind Outcome_bind] in H.
  destruct (_ <=? MAX_UINT256); [|discriminate H].
  cbn [mbind Outcome_bind] in H.
  destruct (Z.eqb_spec (value msg)
              (amount immutables + safetyDeposit immutables + creationFee (store s)))
    as [Heq|Hne]; [|exact Hne].
  exfalso. cbn [require mbind Outcome_bind] in H.
  unfold deployEscrow in H. cbn [store chain] in H.
  destruct (_ <=? balanceOf _ _); [|discriminate H].
  cbn [require mbind Outcome_bind] in H.
  destruct (negb (bool_decide _)); [|discriminate H].
  cbn [require mbind Outcome_bind] in H.
  unfold collectFee in H. cbn [store chain] in H.
  destruct (_ && _); [|discriminate H].
  destruct (treasuryAccepts _ _); discriminate H.
Qed.

Lemma loadOrder_throws (env : Orders.Env) (files : Orders.OrderFiles)
    (why : Scripts.Failure) :
  Scripts.loadOrder env files = Scripts.Throws why -> why = Scripts.OrderNotFound.
Proof.
  unfold Scripts.loadOrder. destruct (Orders.orderIdOf env) as [i|]; [|discriminate].
  destruct (JsString.includes i ".ts"); [discriminate|].
  destruct (files !! i); cbn; [discriminate|]. intros [= <-]. reflexivity.
Qed.

(** What [escrow] has established when it returns. *)
Lemma escrow_inv (MAKER_ADDRESS : option string) (node : Scripts.Node) (s : State)
    (now txTime viewTime : Z) (txHash orderId : string)
    (order order' : Orders.AtomicSwapOrder) (s' : State) :
  MakerEscrow.escrow BigInt keccak256Utf8 bytes32 addressText escrowAddress
    tokenTransferFrom treasuryAccepts MAKER_ADDRESS node s now txTime viewTime txHash
    orderId order
  = Scripts.Returns (order', s') ->
  exists maker ESCROW_AMOUNT immutables events,
    Orders.status order = Orders.FILLED /\
    BigInt (Orders.provides_amount (Orders.provides (Orders.maker order)))
    = Some ESCROW_AMOUNT /\
    amount immutables = ESCROW_AMOUNT /\
    safetyDeposit immutables = MakerEscrow.SAFETY_DEPOSIT /\
    token immutables = 0 /\
    timelocks immutables
    = MakerEscrow.packTimelocks (now / 1000)
        (Orders.cancellationPeriod (Orders.timelock order))
        (Orders.withdrawalPeriod (Orders.timelock order) * 2)
        (Orders.withdrawalPeriod (Orders.timelock order)) /\
    createSrcEscrow escrowAddress tokenTransferFrom treasuryAccepts s
      {| sender := Scripts.signer_account maker;
         value := ESCROW_AMOUNT + MakerEscrow.SAFETY_DEPOSIT + creationFee (store s);
         timestamp := txTime |} immutables
    = Success (s', events) /\
    order'
    = MakerEscrow.recordEscrow order
        {| Orders.escrow_address := addressText (escrowAddress Src immutables viewTime);
           Orders.escrow_txHash := txHash;
           Orders.escrow_amount := Scripts.toString ESCROW_AMOUNT;
           Orders.safetyDeposit := Scripts.toString MakerEscrow.SAFETY_DEPOSIT;
           Orders.creationFee := Scripts.toString (creationFee (store s)) |}.
Proof.
  intros H. unfold MakerEscrow.escrow in H.
  apply run_bind_inv in H as (u1 & E1 & H).
  apply throwUnless_inv, bool_decide_eq_true in E1.
  apply run_bind_inv in H as (taker & _ & H).
  apply run_bind_inv in H as (u2 & _ & H).
  apply run_bind_inv in H as (maker & _ & H).
  apply run_bind_inv in H as (u3 & _ & H).
  apply run_bind_inv in H as (ESCROW_AMOUNT & Eamount & H).
  apply orThrow_run_inv in Eamount.
  apply run_bind_inv in H as (u4 & _ & H).
  apply run_bind_inv in H as (makerWord & _ & H).
  apply run_bind_inv in H as (takerWord & _ & H).
  apply run_bind_inv in H as (hashlock & _ & H).
  apply run_bind_inv in H as (u5 & _ & H).
  destruct (createSrcEscrow _ _ _ _ _ _) as [[s1 events]|why] eqn:Ecall;
    [|discriminate H].
  injection H as <- <-.
  exists maker, ESCROW_AMOUNT,
    (MakerEscrow.immutablesOf keccak256Utf8 orderId hashlock makerWord takerWord
       ESCROW_AMOUNT
       (MakerEscrow.packTimelocks (now / 1000)
          (Orders.cancellationPeriod (Orders.timelock order))
          (Orders.withdrawalPeriod (Orders.timelock order) * 2)
          (Orders.withdrawalPeriod (Orders.timelock order)))),
    events.
  split; [exact E1|]. split; [exact Eamount|].
  split; [reflexivity|]. split; [reflexivity|]. split; [reflexivity|].
  split; [reflexivity|]. split; [exact Ecall|reflexivity].
Qed.


End maker_escrow.


(** ** The packed timelocks *)

Lemma lor_shiftl_low (hi lo n : Z) :
  0 <= n -> 0 <= lo < 2 ^ n -> Z.lor (Z.shiftl hi n) lo = hi * 2 ^ n + lo.
Proof.
  intros Hn Hlo. rewrite <- Z.shiftl_mul_pow2 by exact Hn.
  rewrite <- Z.add_lor_land.
  assert (E : Z.land (Z.shiftl hi n) lo = 0).
  { apply Z.bits_inj'. intros i Hi. rewrite Z.land_spec, Z.bits_0.
    destruct (Z.lt_ge_cases i n) as [Hlt|Hge].
    - rewrite Z.shiftl_spec_low by exact Hlt. reflexivity.
    - rewrite <- (Z.mod_small lo (2 ^ n)) by exact Hlo.
      rewrite Z.mod_pow2_bits_high by lia. apply andb_false_r. }
  rewrite E. lia.
Qed.

Lemma packTimelocks_sum (now c p w : Z) :
  0 <= c < 2 ^ 32 -> 0 <= p < 2 ^ 32 -> 0 <= w < 2 ^ 32 ->
  MakerEscrow.packTimelocks now c p w = now * 2 ^ 224 + c * 2 ^ 64 + p * 2 ^ 32 + w.
Proof.
  intros Hc Hp Hw. unfold MakerEscrow.packTimelocks.
  replace (Z.lor (Z.lor (Z.shiftl now 224) (Z.shiftl c 64)) (Z.shiftl p 32))
    with (Z.shiftl (Z.lor (Z.shiftl (Z.lor (Z.shiftl now 160) c) 32) p) 32).
  - rewrite !lor_shiftl_low; lia.
  - rewrite !Z.shiftl_lor, !Z.shiftl_shiftl by lia. reflexivity.
Qed.

(** X25.  The word that [maker-escrow.ts] and the taker's claim script
    pack holds the withdrawal period in bits 0-31, twice that period in
    bits 32-63, the cancellation period in bits 64-95 and the time in
    bits 224-255, each readable by shift and mask, and is a [uint256],
    provided the time and the cancellation period are below 2^32 and the
    withdrawal period below 2^31. *)
Theorem timelocks_fields (now dstCancellation dstWithdrawal : Z) :
  0 <= now < 2 ^ 32 ->
  0 <= dstCancellation < 2 ^ 32 ->
  0 <= dstWithdrawal < 2 ^ 31 ->
  let timelocks :=
    MakerEscrow.packTimelocks now dstCancellation (dstWithdrawal * 2) dstWithdrawal in
  Z.land timelocks (Z.ones 32) = dstWithdrawal /\
  Z.land (Z.shiftr timelocks 32) (Z.ones 32) = dstWithdrawal * 2 /\
  Z.land (Z.shiftr timelocks 64) (Z.ones 32) = dstCancellation /\
  Z.shiftr timelocks 224 = now /\
  MakerEscrow.isUint256 timelocks = true.
Proof.
  intros Hnow Hc Hw. cbv zeta.
  rewrite packTimelocks_sum by lia.
  rewrite !Z.land_ones, !Z.shiftr_div_pow2 by lia.
  unfold MakerEscrow.isUint256, Evm.MAX_UINT256.
  change (2 ^ 224) with 26959946667150639794667015087019630673637144422540572481103610249216 in *.
  change (2 ^ 64) with 18446744073709551616 in *.
  change (2 ^ 32) with 4294967296 in *.
  change (2 ^ 31) with 2147483648 in *.
  change (2 ^ 256 - 1)
    with 115792089237316195423570985008687907853269984665640564039457584007913129639935.
  repeat split.
  - Z.div_mod_to_equations. lia.
  - Z.div_mod_to_equations. lia.
  - Z.div_mod_to_equations. lia.
  - Z.div_mod_to_equations. lia.
  - apply andb_true_intro. split; [apply Z.leb_le|apply Z.leb_le]; lia.
Qed.

Lemma timelocks_fields_witness :
  Z.land (Z.shiftr (MakerEscrow.packTimelocks 1700000200 3600 0 0) 64) (Z.ones 32) = 3600 /\
  Z.shiftr (MakerEscrow.packTimelocks 1700000200 3600 0 0) 224 = 1700000200.
Proof.
  destruct (timelocks_fields 1700000200 3600 0) as (_ & _ & Hc & Hnow & _);
    [lia|lia|lia|].
  split; [exact Hc|exact Hnow].
Defined.

(** ** The taker's claim script *)

Section taker_claim.
Context `{L : BitcoinLib}.

Variable rpcUrl : string -> string.
Variable fetch : string -> option string.
Variable creationTime : string -> option Z.
Variable withdraw :
  string -> Scripts.Signer -> string -> BTCEscrowFactory.Immutables -> option string.
Variable BigInt : string -> option Z.
Variable keccak256Utf8 : string -> Z.
Variable bytes32 : string -> option Z.

(** What [claim] has established when it returns. *)
Lemma claim_inv (env : Orders.Env) (node : Scripts.Node) (orderId : string)
    (order : Orders.AtomicSwapOrder) (result : TakerClaim.Claimed) :
  TakerClaim.claim rpcUrl fetch creationTime withdraw BigInt keccak256Utf8 bytes32
    env node orderId order = Scripts.Returns result ->
  exists monadvmEscrow bitcoinHTLCClaim signer immutables txHash,
    Orders.status order = Orders.COMPLETED /\
    Orders.monadvmEscrow order = Some monadvmEscrow /\
    JsString.truthy (Orders.transactions order ≫= Orders.bitcoinHTLCClaim)
    = Some bitcoinHTLCClaim /\
    TakerClaim.extractedSecret result
    = TakerClaim.extractSecret rpcUrl fetch order
        (default "testnet4"%string (JsString.truthy (Orders.BITCOIN_NETWORK env)))
        bitcoinHTLCClaim /\
    "0x" +:+ toHex (sha256 (fromHex (JsString.slice 2 (TakerClaim.extractedSecret result))))
    = Orders.hashlock order /\
    Scripts.node_signers node !! 0%nat = Some signer /\
    withdraw (Orders.escrow_address monadvmEscrow) signer
      (TakerClaim.extractedSecret result) immutables = Some txHash /\
    TakerClaim.claimTx result = Some txHash /\
    TakerClaim.claimed_order result = TakerClaim.recordEscrowClaim order txHash.
Proof.
  intros H. unfold TakerClaim.claim in H.
  apply run_bind_inv in H as (u1 & E1 & H).
  apply throwUnless_inv, bool_decide_eq_true in E1.
  destruct (Orders.taker order) as [taker|]; [|discriminate H].
  destruct (Orders.bitcoinHTLC order) as [htlc|]; [|discriminate H].
  destruct (Orders.monadvmEscrow order) as [monadvmEscrow|]; [|discriminate H].
  apply run_bind_inv in H as (bitcoinHTLCClaim & Eclaim & H).
  apply orThrow_run_inv in Eclaim.
  apply run_bind_inv in H as (u2 & _ & H).
  apply run_bind_inv in H as (u3 & Echeck & H).
  apply throwUnless_inv, String.eqb_eq in Echeck.
  apply run_bind_inv in H as (signer & Esigner & H).
  apply orThrow_run_inv in Esigner.
  apply run_bind_inv in H as (escrowCreationTime & _ & H).
  apply run_bind_inv in H as (ESCROW_AMOUNT & _ & H).
  apply run_bind_inv in H as (makerWord & _ & H).
  apply run_bind_inv in H as (takerWord & _ & H).
  apply run_bind_inv in H as (hashlock & _ & H).
  apply run_bind_inv in H as (txHash & Ewithdraw & H).
  apply orThrow_run_inv in Ewithdraw.
  injection H as <-. cbn [TakerClaim.extractedSecret TakerClaim.claimTx
                          TakerClaim.claimed_order].
  eexists monadvmEscrow, bitcoinHTLCClaim, signer, _, txHash.
  split; [exact E1|]. split; [reflexivity|]. split; [exact Eclaim|].
  split; [reflexivity|]. split; [exact Echeck|]. split; [exact Esigner|].
  split; [exact Ewithdraw|]. split; reflexivity.
Qed.

(** X26.  When the taker's claim script returns, the order was in state
    COMPLETED and stays so, only its Monad claim transaction is recorded,
    and the secret it passed to [withdraw] hashes to the hashlock of the
    order.  That secret need not come from Bitcoin: when the explorer
    gives no transaction, the script withdraws with the secret stored in
    the order file. *)
Theorem taker_claim_secret_source (env : Orders.Env) (node : Scripts.Node)
    (files files' : Orders.OrderFiles) (result : TakerClaim.Claimed) :
  TakerClaim.main rpcUrl fetch creationTime withdraw BigInt keccak256Utf8 bytes32
    env node files = (Scripts.Returns result, files') ->
  exists orderId order monadvmEscrow signer immutables txHash,
    files !! orderId = Some order /\
    files' = <[orderId := TakerClaim.claimed_order result]> files /\
    Orders.status order = Orders.COMPLETED /\
    Orders.monadvmEscrow order = Some monadvmEscrow /\
    "0x" +:+ toHex (sha256 (fromHex (JsString.slice 2 (TakerClaim.extractedSecret result))))
    = Orders.hashlock order /\
    withdraw (Orders.escrow_address monadvmEscrow) signer
      (TakerClaim.extractedSecret result) immutables = Some txHash /\
    TakerClaim.claimed_order result = TakerClaim.recordEscrowClaim order txHash /\
    Orders.status (TakerClaim.claimed_order result) = Orders.COMPLETED /\
    Orders.secret (TakerClaim.claimed_order result) = Orders.secret order /\
    ((forall url, fetch url = None) ->
     TakerClaim.extractedSecret result = Orders.secret order).
Proof.
  intros H. unfold TakerClaim.main in H.
  destruct (Scripts.loadOrder env files) as [[orderId order]| |] eqn:Eload;
    [|discriminate H|discriminate H].
  apply loadOrder_inv in Eload as [_ Hfile].
  destruct (TakerClaim.claim _ _ _ _ _ _ _ _ _ _ _) as [r| |] eqn:E;
    [|discriminate H|discriminate H].
  injection H as -> <-.
  apply claim_inv in E
    as (monadvmEscrow & bitcoinHTLCClaim & signer & immutables & txHash & Hstatus
        & Hescrow & _ & Hsecret & Hcheck & _ & Hwithdraw & _ & Horder).
  exists orderId, order, monadvmEscrow, signer, immutables, txHash.
  split; [exact Hfile|]. split; [reflexivity|]. split; [exact Hstatus|].
  split; [exact Hescrow|]. split; [exact Hcheck|]. split; [exact Hwithdraw|].
  split; [exact Horder|]. rewrite Horder.
  split; [exact Hstatus|]. split; [reflexivity|].
  intros Hdown. rewrite Hsecret. unfold TakerClaim.extractSecret.
  rewrite Hdown. reflexivity.
Qed.

(** The hex of a claim built by [createClaimTransaction] parses back to
    a transaction with the claim witness on its input. *)
Lemma claim_hex_parses (config : HTLCBuilder.HTLCConfig) (htlcTxid : string)
    (htlcVout htlcAmount : Z) (secret : bytes) (destinationAddress : Address)
    (feeRate : Q) (privateKey : bytes) (r : HTLCBuilder.HTLCTransaction) :
  length (HTLCBuilder.senderPublicKey config) = 33%nat ->
  length (HTLCBuilder.receiverPublicKey config) = 33%nat ->
  length (HTLCBuilder.hashlock config) = 32%nat ->
  length secret = 32%nat ->
  HTLCBuilder.createClaimTransaction config htlcTxid htlcVout htlcAmount secret
    destinationAddress feeRate privateKey = Ok r ->
  exists tx in0 signature,
    Transaction.fromHex (HTLCBuilder.hex r) = Some tx /\
    Transaction.ins tx = [in0] /\
    Transaction.witness in0
    = [signature; secret; [x01]; HTLCBuilder.createHTLCScript config].
Proof.
  intros Hs Hr Hh Hsec H. unfold HTLCBuilder.createClaimTransaction in H.
  bind_inv H x E. destruct x as [tx fee]. injection H as <-.
  apply extractClaimTransaction_inv in E
    as (sig & out & w & Hseg & Hdec & Hlen & Hidx & Hout & Hrange & _ & Hw & ->).
  pose proof (signature_decode_length _ Hdec) as Hsiglen.
  pose proof (createHTLCScript_length config Hs Hr Hh) as Hscript.
  rewrite witness_stack_parsed in Hw.
  2:{ simpl. lia. }
  2:{ stack_small. }
  injection Hw as <-.
  destruct (spend_tx_wf (reverse (fromHex htlcTxid)) out htlcVout
              Transaction.DEFAULT_SEQUENCE 0 (htlcAmount - fee)
              destinationAddress (HTLCBuilder.network config)
              [sig; secret; [x01]; HTLCBuilder.createHTLCScript config])
    as [Hwf Hwit];
    [exact Hlen|exact Hidx|reflexivity|reflexivity|exact Hout|exact Hrange
    |discriminate|simpl; lia|stack_small|].
  eexists _, _, sig. cbn [HTLCBuilder.hex HTLCBuilder.toHTLCTransaction].
  rewrite (fromHex_toHex_tx _ Hwf Hwit).
  split; [reflexivity|]. split; reflexivity.
Qed.

(** X27.  When the explorer serves the claim that
    [HTLCBuilder.createClaimTransaction] built with a 32-byte secret (keys
    of 33 bytes, hashlock of 32), the secret the script extracts is the
    0x-prefixed hex of exactly that secret, whatever secret the order
    file holds; it passes the check of the script when the hashlock of
    the order is the 0x-prefixed hex of its SHA-256 digest. *)
Theorem taker_claim_reads_bitcoin_claim (order : Orders.AtomicSwapOrder)
    (bitcoinNetwork bitcoinHTLCClaim : string)
    (config : HTLCBuilder.HTLCConfig) (htlcTxid : string)
    (htlcVout htlcAmount : Z) (secret : bytes) (destinationAddress : Address)
    (feeRate : Q) (privateKey : bytes) (r : HTLCBuilder.HTLCTransaction) :
  length (HTLCBuilder.senderPublicKey config) = 33%nat ->
  length (HTLCBuilder.receiverPublicKey config) = 33%nat ->
  length (HTLCBuilder.hashlock config) = 32%nat ->
  length secret = 32%nat ->
  HTLCBuilder.createClaimTransaction config htlcTxid htlcVout htlcAmount secret
    destinationAddress feeRate privateKey = Ok r ->
  fetch (rpcUrl bitcoinNetwork +:+ "/tx/" +:+ bitcoinHTLCClaim +:+ "/hex")
  = Some (HTLCBuilder.hex r) ->
  TakerClaim.extractSecret rpcUrl fetch order bitcoinNetwork bitcoinHTLCClaim
  = "0x" +:+ toHex secret /\
  (Orders.hashlock order = "0x" +:+ toHex (sha256 secret) ->
   "0x" +:+ toHex (sha256 (fromHex (JsString.slice 2
        (TakerClaim.extractSecret rpcUrl fetch order bitcoinNetwork bitcoinHTLCClaim))))
   = Orders.hashlock order).
Proof.
  intros Hs Hr Hh Hsec Hclaim Hfetch.
  destruct (claim_hex_parses _ _ _ _ _ _ _ _ _ Hs Hr Hh Hsec Hclaim)
    as (tx & in0 & sig & Hparse & Hins & Hwit).
  assert (E : TakerClaim.extractSecret rpcUrl fetch order bitcoinNetwork bitcoinHTLCClaim
              = "0x" +:+ toHex secret).
  { unfold TakerClaim.extractSecret. rewrite Hfetch, Hparse, Hins, Hwit. reflexivity. }
  split; [exact E|].
  intros Hhash. rewrite E, slice_0x, fromHex_toHex. symmetry. exact Hhash.
Qed.

End taker_claim.

Lemma taker_claim_secret_source_witness :
  exists result files',
    @TakerClaim.main ExampleLib.lib ExampleClaim.rpcUrl ExampleClaim.fetchNothing
      ExampleClaim.creationTime ExampleClaim.withdraw ExampleEscrow.BigInt
      ExampleEscrow.keccak256Utf8 ExampleEscrow.bytes32 ExampleEscrow.env
      ExampleFlow.node ExampleClaim.files
    = (Scripts.Returns result, files') /\
    TakerClaim.extractedSecret result = Orders.secret ExampleClaim.completedOrder /\
    TakerClaim.claimTx result = Some "0xdef"%string.
Proof.
  eexists _, _.
  match goal with
  | |- ?run = (Scripts.Returns ?r, ?fs) /\ _ =>
      assert (Hrun : run = (Scripts.Returns r, fs)) by (vm_compute; reflexivity);
      destruct (@taker_claim_secret_source ExampleLib.lib ExampleClaim.rpcUrl
                  ExampleClaim.fetchNothing ExampleClaim.creationTime
                  ExampleClaim.withdraw ExampleEscrow.BigInt ExampleEscrow.keccak256Utf8
                  ExampleEscrow.bytes32 ExampleEscrow.env ExampleFlow.node
                  ExampleClaim.files _ _ Hrun)
        as (orderId & order & monadvmEscrow & signer & immutables & txHash & Hfile & _)
  end.
  split; [exact Hrun|]. split; vm_compute; reflexivity.
Defined.

Lemma taker_claim_reads_bitcoin_claim_witness :
  exists r,
    @HTLCBuilder.createClaimTransaction ExampleLib.lib
      (ExampleLib.config true networks.testnet) ExampleLib.fundingTxid 0 100000
      ExampleLib.secret ExampleLib.destination 10 ExampleLib.key = Ok r /\
    TakerClaim.extractSecret ExampleClaim.rpcUrl ExampleClaim.fetchClaim
      ExampleClaim.completedOrder "testnet4" "claimtxid"
    = "0x" +:+ toHex ExampleLib.secret.
Proof.
  eexists.
  match goal with
  | |- ?run = Ok ?r /\ _ =>
      assert (Hrun : run = Ok r) by (vm_compute; reflexivity);
      split; [exact Hrun|];
      apply (proj1 (@taker_claim_reads_bitcoin_claim ExampleLib.lib ExampleClaim.rpcUrl
                      ExampleClaim.fetchClaim ExampleClaim.completedOrder
                      "testnet4" "claimtxid" (ExampleLib.config true networks.testnet)
                      ExampleLib.fundingTxid 0 100000 ExampleLib.secret
                      ExampleLib.destination 10 ExampleLib.key r
                      eq_refl eq_refl eq_refl eq_refl Hrun
                      ltac:(vm_compute; reflexivity)))
  end.
Defined.
